(** * salesStatTool front-end: the main window as a state machine

    A shallow embedding of [MainWindow] (mainwindow.h / mainwindow.cpp of the
    extended front-end): the file list mirrored into the table widget, the
    debounced mode switch, the start/cancel button and the handlers of the
    worker process' signals, followed by the properties of the specification
    that concern them.

    Every slot of the class is a function [MainWindow -> MainWindow].  What a
    slot obtains from outside the class (the clock, a dialog's answer, the
    result of a directory traversal, the bytes a process wrote) is an
    argument of the function.  Calls that only affect presentation (column
    widths, header labels, the mouse cursor, the forced repaint during a
    scan, scroll bar positions) are left out. *)

From Stdlib Require Import String Ascii DecimalString List ZArith Bool Lia.
Import ListNotations.
Local Open Scope Z_scope.

(* ------------------------------------------------------------------ *)
(** ** The Qt value types the class uses *)

Module Qt.

(** A [QString] is a sequence of UTF-16 code units, a [QByteArray] a
    sequence of bytes. *)
Definition QString := list Z.
Definition QByteArray := list Z.
Definition QStringList := list QString.

(** [operator==] on QString. *)
Fixpoint eqb (a b : QString) : bool :=
  match a, b with
  | [], [] => true
  | x :: a', y :: b' => (x =? y) && eqb a' b'
  | _, _ => false
  end.

Definition isEmpty {A} (l : list A) : bool :=
  match l with [] => true | _ => false end.

(** [QStringList::contains] (case sensitive) and [QStringList::removeAll]. *)
Definition contains (l : QStringList) (s : QString) : bool :=
  existsb (eqb s) l.

Definition removeAll (s : QString) (l : QStringList) : QStringList :=
  filter (fun x => negb (eqb x s)) l.

(** [QString::startsWith]. *)
Fixpoint startsWith (prefix s : QString) : bool :=
  match prefix, s with
  | [], _ => true
  | p :: prefix', c :: s' => (p =? c) && startsWith prefix' s'
  | _ :: _, [] => false
  end.

(** [QString::split(sep)] with the default [Qt::KeepEmptyParts]: the pieces
    between the separators, an empty string giving one empty piece. *)
Fixpoint split (sep : Z) (s : QString) : QStringList :=
  match s with
  | [] => [[]]
  | c :: s' =>
      if c =? sep then [] :: split sep s'
      else match split sep s' with
           | w :: ws => (c :: w) :: ws
           | [] => [[c]]
           end
  end.

(** [QString::split(sep, Qt::SkipEmptyParts)]. *)
Definition split_SkipEmptyParts (sep : Z) (s : QString) : QStringList :=
  filter (fun w => negb (isEmpty w)) (split sep s).

(** [QString::contains(QString)]: occurrence as a substring. *)
Fixpoint containsSubstring (s sub : QString) : bool :=
  startsWith sub s ||
  match s with
  | [] => false
  | _ :: s' => containsSubstring s' sub
  end.

Definition endsWith (suffix s : QString) : bool :=
  startsWith (rev suffix) (rev s).

(** *** UTF-8 *)

Definition ReplacementCharacter : Z := 0xFFFD.
Definition isContinuationByte (b : Z) : bool := Z.land b 0xC0 =? 0x80.
Definition isSurrogate (uc : Z) : bool := (0xD800 <=? uc) && (uc <=? 0xDFFF).
Definition isHighSurrogate (uc : Z) : bool := (0xD800 <=? uc) && (uc <=? 0xDBFF).
Definition isLowSurrogate (uc : Z) : bool := (0xDC00 <=? uc) && (uc <=? 0xDFFF).
Definition LastValidCodePoint : Z := 0x10FFFF.

(** The UTF-16 form of a code point. *)
Definition appendUcs4 (uc : Z) : QString :=
  if uc <? 0x10000 then [uc]
  else [Z.shiftr uc 10 + 0xD7C0; uc mod 0x400 + 0xDC00].

Definition cont (uc b : Z) : Z := Z.lor (Z.shiftl uc 6) (Z.land b 0x3F).

(** The check made on a decoded code point: not overlong, not a surrogate,
    not beyond the last code point. *)
Definition acceptable (min_uc uc : Z) : bool :=
  (min_uc <=? uc) && negb (isSurrogate uc) && (uc <=? LastValidCodePoint).

(** The decoding loop of [QString::fromUtf8]: a well-formed sequence gives
    its code point, and a byte that does not start one gives one replacement
    character, after which decoding resumes at the next byte. *)
Fixpoint convertToUnicode (src : QByteArray) : QString :=
  match src with
  | [] => []
  | b :: src1 =>
      if b <? 0x80 then b :: convertToUnicode src1
      else if b <=? 0xC1 then ReplacementCharacter :: convertToUnicode src1
      else if b <? 0xE0 then
        match src1 with
        | c1 :: src2 =>
            let uc := cont (Z.land b 0x1F) c1 in
            if isContinuationByte c1 && acceptable 0x80 uc
            then appendUcs4 uc ++ convertToUnicode src2
            else ReplacementCharacter :: convertToUnicode src1
        | _ => ReplacementCharacter :: convertToUnicode src1
        end
      else if b <? 0xF0 then
        match src1 with
        | c1 :: c2 :: src3 =>
            let uc := cont (cont (Z.land b 0x0F) c1) c2 in
            if isContinuationByte c1 && isContinuationByte c2
               && acceptable 0x800 uc
            then appendUcs4 uc ++ convertToUnicode src3
            else ReplacementCharacter :: convertToUnicode src1
        | _ => ReplacementCharacter :: convertToUnicode src1
        end
      else if b <? 0xF5 then
        match src1 with
        | c1 :: c2 :: c3 :: src4 =>
            let uc := cont (cont (cont (Z.land b 0x07) c1) c2) c3 in
            if isContinuationByte c1 && isContinuationByte c2
               && isContinuationByte c3 && acceptable 0x10000 uc
            then appendUcs4 uc ++ convertToUnicode src4
            else ReplacementCharacter :: convertToUnicode src1
        | _ => ReplacementCharacter :: convertToUnicode src1
        end
      else ReplacementCharacter :: convertToUnicode src1
  end.

(** [QString::fromUtf8(const char *, int)]: a byte order mark at the very
    start is dropped. *)
Definition BOM : QByteArray := [0xEF; 0xBB; 0xBF].

Definition fromUtf8_helper (str : QByteArray) : QString :=
  if startsWith BOM str then convertToUnicode (skipn 3 str)
  else convertToUnicode str.

(** [qstrnlen]: the bytes before the first NUL. *)
Fixpoint qstrn (str : QByteArray) : QByteArray :=
  match str with
  | [] => []
  | b :: str' => if b =? 0 then [] else b :: qstrn str'
  end.

(** [QString::fromUtf8(const QByteArray &)] of Qt 5, which decodes the bytes
    before the first NUL. *)
Definition fromUtf8 (data : QByteArray) : QString :=
  fromUtf8_helper (qstrn data).

(** [QString::toUtf8]; a surrogate that has no partner is written as '?'. *)
Fixpoint toUtf8 (s : QString) : QByteArray :=
  match s with
  | [] => []
  | u :: s1 =>
      if u <? 0x80 then u :: toUtf8 s1
      else if u <? 0x800 then
        Z.lor 0xC0 (Z.shiftr u 6) :: Z.lor 0x80 (Z.land u 0x3F) :: toUtf8 s1
      else if negb (isSurrogate u) then
        Z.lor 0xE0 (Z.shiftr u 12)
          :: Z.lor 0x80 (Z.land (Z.shiftr u 6) 0x3F)
          :: Z.lor 0x80 (Z.land u 0x3F) :: toUtf8 s1
      else
        match s1 with
        | l :: s2 =>
            if isHighSurrogate u && isLowSurrogate l then
              let uc := Z.shiftl (u - 0xD800) 10 + (l - 0xDC00) + 0x10000 in
              Z.lor 0xF0 (Z.shiftr uc 18)
                :: Z.lor 0x80 (Z.land (Z.shiftr uc 12) 0x3F)
                :: Z.lor 0x80 (Z.land (Z.shiftr uc 6) 0x3F)
                :: Z.lor 0x80 (Z.land uc 0x3F) :: toUtf8 s2
            else 0x3F :: toUtf8 s1
        | [] => 0x3F :: toUtf8 s1
        end
  end.

(** The bytes of a string literal of the (UTF-8 encoded) source file, and the
    [QString] the compiler builds from it. *)
Fixpoint bytes (s : string) : QByteArray :=
  match s with
  | EmptyString => []
  | String a s' => Z.of_N (N_of_ascii a) :: bytes s'
  end.

Definition lit (s : string) : QString := fromUtf8 (bytes s).

Definition LF : Z := 10.
Definition PIPE : Z := 124.

End Qt.

Import Qt.

(* ------------------------------------------------------------------ *)
(** ** The state of the main window *)

(** [QPlainTextEdit]: the log area.  The text cursor of the log is at the
    end of the document, where [clear], [appendPlainText] and
    [insertPlainText] leave it. *)
Definition appendPlainText (text doc : QString) : QString :=
  if isEmpty doc then text else doc ++ LF :: text.

Definition insertPlainText (text doc : QString) : QString := doc ++ text.

(** [QProcess], as far as the window drives it. *)
Inductive ExitStatus := NormalExit | CrashExit.

Inductive ProcessError :=
  FailedToStart | Crashed | Timedout | ReadError | WriteError | UnknownError.

(** What was done to the write channel (the worker's standard input). *)
Inductive ChannelOp :=
| Write (data : QByteArray)
| CloseWriteChannel.

Record QProcess := {
  processEnvironment : list (QString * QString);
  property_tasks : QStringList;
  program : QString;
  arguments : QStringList;
  writeChannel : list ChannelOp;
  killed : bool
}.

(** One row of [fileListTableWidget]: the check box of column 0, the text and
    tool tip of the status item (column 1), the file name (column 2) and the
    path (column 3). *)
Record Row := {
  checkBox : bool;
  statusText : QString;
  statusToolTip : QString;
  fileNameText : QString;
  pathText : QString
}.

(** The message boxes put on screen, oldest first. *)
Inductive Dialog :=
| Warning (title text : QString)
| Critical (title text : QString)
| Question (title text : QString).

(** [setEnabled] / [setAcceptDrops] / [setText] state of the controls. *)
Record Controls := {
  startProcessButton_text : QString;
  startProcessButton_enabled : bool;
  useDirectoryModeCheckBox_enabled : bool;
  outputToSourceCheckBox_enabled : bool;
  conflictComboBox_enabled : bool;
  browseInputDirButton_enabled : bool;
  inputDirPathLineEdit_enabled : bool;
  refreshDirButton_enabled : bool;
  addFilesButton_enabled : bool;
  fileListTableWidget_acceptDrops : bool;
  removeSelectedButton_enabled : bool;
  selectAllButton_enabled : bool;
  invertSelectionButton_enabled : bool;
  outputPathLineEdit_enabled : bool;
  browseOutputButton_enabled : bool
}.

(** What the process is given by its host: [QApplication::applicationDirPath]
    and [QProcessEnvironment::systemEnvironment]. *)
Record Host := {
  applicationDirPath : QString;
  systemEnvironment : list (QString * QString)
}.

Record MainWindow := {
  m_process : option QProcess;
  m_isProcessing : bool;
  m_fileList : QStringList;
  m_lastSelectedPath : QString;
  m_dontAskOnModeChange : bool;
  (** the clock reading, in ms, when the timer was last (re)started *)
  m_modeChangeDebounceTimer : Z;
  fileListTableWidget : list Row;
  useDirectoryModeCheckBox : bool;
  inputDirPathLineEdit : QString;
  outputPathLineEdit : QString;
  outputToSourceCheckBox : bool;
  conflictComboBox : Z;
  plainTextEdit : QString;
  statusBar : QString;
  controls : Controls;
  shown : list Dialog;
  host : Host
}.

Definition set_m_process (v : option QProcess) (s : MainWindow) : MainWindow :=
  Build_MainWindow v (m_isProcessing s) (m_fileList s) (m_lastSelectedPath
    s) (m_dontAskOnModeChange s) (m_modeChangeDebounceTimer s)
    (fileListTableWidget s) (useDirectoryModeCheckBox s)
    (inputDirPathLineEdit s) (outputPathLineEdit s) (outputToSourceCheckBox
    s) (conflictComboBox s) (plainTextEdit s) (statusBar s) (controls s)
    (shown s) (host s).

Definition set_m_isProcessing (v : bool) (s : MainWindow) : MainWindow :=
  Build_MainWindow (m_process s) v (m_fileList s) (m_lastSelectedPath s)
    (m_dontAskOnModeChange s) (m_modeChangeDebounceTimer s)
    (fileListTableWidget s) (useDirectoryModeCheckBox s)
    (inputDirPathLineEdit s) (outputPathLineEdit s) (outputToSourceCheckBox
    s) (conflictComboBox s) (plainTextEdit s) (statusBar s) (controls s)
    (shown s) (host s).

Definition set_m_fileList (v : QStringList) (s : MainWindow) : MainWindow :=
  Build_MainWindow (m_process s) (m_isProcessing s) v (m_lastSelectedPath s)
    (m_dontAskOnModeChange s) (m_modeChangeDebounceTimer s)
    (fileListTableWidget s) (useDirectoryModeCheckBox s)
    (inputDirPathLineEdit s) (outputPathLineEdit s) (outputToSourceCheckBox
    s) (conflictComboBox s) (plainTextEdit s) (statusBar s) (controls s)
    (shown s) (host s).

Definition set_m_lastSelectedPath (v : QString) (s : MainWindow) : MainWindow :=
  Build_MainWindow (m_process s) (m_isProcessing s) (m_fileList s) v
    (m_dontAskOnModeChange s) (m_modeChangeDebounceTimer s)
    (fileListTableWidget s) (useDirectoryModeCheckBox s)
    (inputDirPathLineEdit s) (outputPathLineEdit s) (outputToSourceCheckBox
    s) (conflictComboBox s) (plainTextEdit s) (statusBar s) (controls s)
    (shown s) (host s).

Definition set_m_dontAskOnModeChange (v : bool) (s : MainWindow) : MainWindow :=
  Build_MainWindow (m_process s) (m_isProcessing s) (m_fileList s)
    (m_lastSelectedPath s) v (m_modeChangeDebounceTimer s)
    (fileListTableWidget s) (useDirectoryModeCheckBox s)
    (inputDirPathLineEdit s) (outputPathLineEdit s) (outputToSourceCheckBox
    s) (conflictComboBox s) (plainTextEdit s) (statusBar s) (controls s)
    (shown s) (host s).

Definition set_m_modeChangeDebounceTimer (v : Z) (s : MainWindow) : MainWindow :=
  Build_MainWindow (m_process s) (m_isProcessing s) (m_fileList s)
    (m_lastSelectedPath s) (m_dontAskOnModeChange s) v (fileListTableWidget
    s) (useDirectoryModeCheckBox s) (inputDirPathLineEdit s)
    (outputPathLineEdit s) (outputToSourceCheckBox s) (conflictComboBox s)
    (plainTextEdit s) (statusBar s) (controls s) (shown s) (host s).

Definition set_fileListTableWidget (v : list Row) (s : MainWindow) : MainWindow :=
  Build_MainWindow (m_process s) (m_isProcessing s) (m_fileList s)
    (m_lastSelectedPath s) (m_dontAskOnModeChange s)
    (m_modeChangeDebounceTimer s) v (useDirectoryModeCheckBox s)
    (inputDirPathLineEdit s) (outputPathLineEdit s) (outputToSourceCheckBox
    s) (conflictComboBox s) (plainTextEdit s) (statusBar s) (controls s)
    (shown s) (host s).

Definition set_useDirectoryModeCheckBox (v : bool) (s : MainWindow) : MainWindow :=
  Build_MainWindow (m_process s) (m_isProcessing s) (m_fileList s)
    (m_lastSelectedPath s) (m_dontAskOnModeChange s)
    (m_modeChangeDebounceTimer s) (fileListTableWidget s) v
    (inputDirPathLineEdit s) (outputPathLineEdit s) (outputToSourceCheckBox
    s) (conflictComboBox s) (plainTextEdit s) (statusBar s) (controls s)
    (shown s) (host s).

Definition set_inputDirPathLineEdit (v : QString) (s : MainWindow) : MainWindow :=
  Build_MainWindow (m_process s) (m_isProcessing s) (m_fileList s)
    (m_lastSelectedPath s) (m_dontAskOnModeChange s)
    (m_modeChangeDebounceTimer s) (fileListTableWidget s)
    (useDirectoryModeCheckBox s) v (outputPathLineEdit s)
    (outputToSourceCheckBox s) (conflictComboBox s) (plainTextEdit s)
    (statusBar s) (controls s) (shown s) (host s).

Definition set_outputPathLineEdit (v : QString) (s : MainWindow) : MainWindow :=
  Build_MainWindow (m_process s) (m_isProcessing s) (m_fileList s)
    (m_lastSelectedPath s) (m_dontAskOnModeChange s)
    (m_modeChangeDebounceTimer s) (fileListTableWidget s)
    (useDirectoryModeCheckBox s) (inputDirPathLineEdit s) v
    (outputToSourceCheckBox s) (conflictComboBox s) (plainTextEdit s)
    (statusBar s) (controls s) (shown s) (host s).

Definition set_outputToSourceCheckBox (v : bool) (s : MainWindow) : MainWindow :=
  Build_MainWindow (m_process s) (m_isProcessing s) (m_fileList s)
    (m_lastSelectedPath s) (m_dontAskOnModeChange s)
    (m_modeChangeDebounceTimer s) (fileListTableWidget s)
    (useDirectoryModeCheckBox s) (inputDirPathLineEdit s)
    (outputPathLineEdit s) v (conflictComboBox s) (plainTextEdit s)
    (statusBar s) (controls s) (shown s) (host s).

Definition set_conflictComboBox (v : Z) (s : MainWindow) : MainWindow :=
  Build_MainWindow (m_process s) (m_isProcessing s) (m_fileList s)
    (m_lastSelectedPath s) (m_dontAskOnModeChange s)
    (m_modeChangeDebounceTimer s) (fileListTableWidget s)
    (useDirectoryModeCheckBox s) (inputDirPathLineEdit s)
    (outputPathLineEdit s) (outputToSourceCheckBox s) v (plainTextEdit s)
    (statusBar s) (controls s) (shown s) (host s).

Definition set_plainTextEdit (v : QString) (s : MainWindow) : MainWindow :=
  Build_MainWindow (m_process s) (m_isProcessing s) (m_fileList s)
    (m_lastSelectedPath s) (m_dontAskOnModeChange s)
    (m_modeChangeDebounceTimer s) (fileListTableWidget s)
    (useDirectoryModeCheckBox s) (inputDirPathLineEdit s)
    (outputPathLineEdit s) (outputToSourceCheckBox s) (conflictComboBox s) v
    (statusBar s) (controls s) (shown s) (host s).

Definition set_statusBar (v : QString) (s : MainWindow) : MainWindow :=
  Build_MainWindow (m_process s) (m_isProcessing s) (m_fileList s)
    (m_lastSelectedPath s) (m_dontAskOnModeChange s)
    (m_modeChangeDebounceTimer s) (fileListTableWidget s)
    (useDirectoryModeCheckBox s) (inputDirPathLineEdit s)
    (outputPathLineEdit s) (outputToSourceCheckBox s) (conflictComboBox s)
    (plainTextEdit s) v (controls s) (shown s) (host s).

Definition set_controls (v : Controls) (s : MainWindow) : MainWindow :=
  Build_MainWindow (m_process s) (m_isProcessing s) (m_fileList s)
    (m_lastSelectedPath s) (m_dontAskOnModeChange s)
    (m_modeChangeDebounceTimer s) (fileListTableWidget s)
    (useDirectoryModeCheckBox s) (inputDirPathLineEdit s)
    (outputPathLineEdit s) (outputToSourceCheckBox s) (conflictComboBox s)
    (plainTextEdit s) (statusBar s) v (shown s) (host s).

Definition set_shown (v : list Dialog) (s : MainWindow) : MainWindow :=
  Build_MainWindow (m_process s) (m_isProcessing s) (m_fileList s)
    (m_lastSelectedPath s) (m_dontAskOnModeChange s)
    (m_modeChangeDebounceTimer s) (fileListTableWidget s)
    (useDirectoryModeCheckBox s) (inputDirPathLineEdit s)
    (outputPathLineEdit s) (outputToSourceCheckBox s) (conflictComboBox s)
    (plainTextEdit s) (statusBar s) (controls s) v (host s).

(* ------------------------------------------------------------------ *)
(** ** The texts of mainwindow.cpp *)

Module Text.
Definition STATUS_PREFIX : QString := Eval vm_compute in lit "##STATUS##|".
Definition pending : QString := Eval vm_compute in lit "待处理".
Definition processing : QString := Eval vm_compute in lit "正在处理...".
Definition success : QString := Eval vm_compute in lit "处理完成".
Definition failure : QString := Eval vm_compute in lit "处理失败".
Definition skipped : QString := Eval vm_compute in lit "已跳过".
Definition unidentified : QString := Eval vm_compute in lit "未知平台".
Definition cancelled : QString := Eval vm_compute in lit "已取消".
Definition PROCESSING : QString := Eval vm_compute in lit "PROCESSING".
Definition SUCCESS : QString := Eval vm_compute in lit "SUCCESS".
Definition FAILURE : QString := Eval vm_compute in lit "FAILURE".
Definition SKIPPED : QString := Eval vm_compute in lit "SKIPPED".
Definition UNIDENTIFIED : QString := Eval vm_compute in lit "UNIDENTIFIED".
Definition cancelButton : QString := Eval vm_compute in lit "取消处理".
Definition startButton : QString := Eval vm_compute in lit "开始处理".
Definition noTasksTitle : QString := Eval vm_compute in lit "没有任务".
Definition noTasksText : QString :=
  Eval vm_compute in lit "请至少勾选一个要处理的文件！".
Definition noOutputTitle : QString := Eval vm_compute in lit "输出未指定".
Definition noOutputText : QString :=
  Eval vm_compute in lit "请指定一个输出文件夹，或勾选“输出到源文件路径”！".
Definition logStart : QString := Eval vm_compute in lit "--- 开始处理 ---".
Definition barCancelled : QString := Eval vm_compute in lit "处理已由用户取消。".
Definition logCancelled : QString :=
  Eval vm_compute in LF :: lit "--- 处理已取消 ---".
Definition barSuccess : QString := Eval vm_compute in lit "处理成功！".
Definition logSuccess : QString :=
  Eval vm_compute in LF :: lit "--- 处理成功！ ---".
Definition barFailure : QString :=
  Eval vm_compute in lit "处理失败！详情见日志区。".
Definition logFailure : QString :=
  Eval vm_compute in LF :: lit "--- 处理失败！ ---".
Definition logExitCode : QString :=
  Eval vm_compute in lit "后端进程异常退出，错误码: ".
Definition startFailedTitle : QString := Eval vm_compute in lit "启动失败".
Definition startFailedText : QString :=
  Eval vm_compute in
    lit "无法启动后端引擎。" ++ LF ::
    lit "请检查程序目录下 'backend_engine' 文件夹及其中的 'main_processor.exe' 是否存在。".
Definition confirmTitle : QString := Eval vm_compute in lit "确认操作".
Definition confirmText : QString :=
  Eval vm_compute in lit "切换模式将清空当前文件列表，是否继续？".
Definition errorMarker : QString := Eval vm_compute in lit "【错误】: ".
Definition barScanning : QString :=
  Eval vm_compute in lit "正在扫描文件夹，请稍候...".
Definition barScanned : QString := Eval vm_compute in lit "扫描完成。".
Definition enginePath : QString :=
  Eval vm_compute in lit "/backend_engine/backend_engine.exe".
Definition PYTHONIOENCODING : QString := Eval vm_compute in lit "PYTHONIOENCODING".
Definition utf_8 : QString := Eval vm_compute in lit "utf-8".
Definition on_conflict : QString := Eval vm_compute in lit "--on-conflict".
Definition output_dir : QString := Eval vm_compute in lit "--output-dir".
Definition rename : QString := Eval vm_compute in lit "rename".
Definition overwrite : QString := Eval vm_compute in lit "overwrite".
Definition skip : QString := Eval vm_compute in lit "skip".
Definition csv : QString := Eval vm_compute in lit "csv".
Definition xlsx : QString := Eval vm_compute in lit "xlsx".
End Text.

(* ------------------------------------------------------------------ *)
(** ** Helpers of the class *)

Definition rowCount (s : MainWindow) : Z :=
  Z.of_nat (List.length (fileListTableWidget s)).

(** [QFileInfo::fileName]: what follows the last '/'. *)
Definition fileName (path : QString) : QString := last (split 47 path) [].

(** [QFileInfo::suffix]: what follows the last '.' of the file name. *)
Definition suffix (path : QString) : QString :=
  match split 46 (fileName path) with
  | (_ :: _ :: _) as parts => last parts []
  | _ => []
  end.

(** [QString::toLower] on the letters A to Z.  No other code unit
    lower-cases to a letter of "csv" or "xlsx", the only strings the result
    is compared with. *)
Definition toLower (s : QString) : QString :=
  map (fun c => if (65 <=? c) && (c <=? 90) then c + 32 else c) s.

(** [QDir::toNativeSeparators] where the engine runs (Windows). *)
Definition toNativeSeparators (path : QString) : QString :=
  map (fun c => if c =? 47 then 92 else c) path.

(** [QString::number(int)]. *)
Definition number (n : Z) : QString :=
  lit (DecimalString.NilZero.string_of_int (Z.to_int n)).

(** [QProcessEnvironment::insert]: the value of a name already present is
    replaced. *)
Fixpoint env_insert (name value : QString) (env : list (QString * QString))
  : list (QString * QString) :=
  match env with
  | [] => [(name, value)]
  | (n, v) :: env' =>
      if eqb n name then (name, value) :: env'
      else (n, v) :: env_insert name value env'
  end.

Definition showDialog (d : Dialog) (s : MainWindow) : MainWindow :=
  set_shown (shown s ++ [d]) s.

Definition updateActionButtonStates (s : MainWindow) : MainWindow :=
  let hasFiles := 0 <? rowCount s in
  let c := controls s in
  set_controls
    {| startProcessButton_text := startProcessButton_text c;
       startProcessButton_enabled := hasFiles;
       useDirectoryModeCheckBox_enabled := useDirectoryModeCheckBox_enabled c;
       outputToSourceCheckBox_enabled := outputToSourceCheckBox_enabled c;
       conflictComboBox_enabled := conflictComboBox_enabled c;
       browseInputDirButton_enabled := browseInputDirButton_enabled c;
       inputDirPathLineEdit_enabled := inputDirPathLineEdit_enabled c;
       refreshDirButton_enabled := refreshDirButton_enabled c;
       addFilesButton_enabled := addFilesButton_enabled c;
       fileListTableWidget_acceptDrops := fileListTableWidget_acceptDrops c;
       removeSelectedButton_enabled := hasFiles;
       selectAllButton_enabled := hasFiles;
       invertSelectionButton_enabled := hasFiles;
       outputPathLineEdit_enabled := outputPathLineEdit_enabled c;
       browseOutputButton_enabled := browseOutputButton_enabled c |} s.

Definition updateUiForMode (isDirectoryMode : bool) (s : MainWindow)
  : MainWindow :=
  let c := controls s in
  set_controls
    {| startProcessButton_text := startProcessButton_text c;
       startProcessButton_enabled := startProcessButton_enabled c;
       useDirectoryModeCheckBox_enabled := useDirectoryModeCheckBox_enabled c;
       outputToSourceCheckBox_enabled := outputToSourceCheckBox_enabled c;
       conflictComboBox_enabled := conflictComboBox_enabled c;
       browseInputDirButton_enabled := isDirectoryMode;
       inputDirPathLineEdit_enabled := isDirectoryMode;
       refreshDirButton_enabled := isDirectoryMode;
       addFilesButton_enabled := negb isDirectoryMode;
       fileListTableWidget_acceptDrops := negb isDirectoryMode;
       removeSelectedButton_enabled := removeSelectedButton_enabled c;
       selectAllButton_enabled := selectAllButton_enabled c;
       invertSelectionButton_enabled := invertSelectionButton_enabled c;
       outputPathLineEdit_enabled := outputPathLineEdit_enabled c;
       browseOutputButton_enabled := browseOutputButton_enabled c |} s.

Definition updateUiForProcessingState (isProcessing : bool) (s : MainWindow)
  : MainWindow :=
  let s := set_m_isProcessing isProcessing s in
  let c := controls s in
  let dirMode := useDirectoryModeCheckBox s in
  let hasFiles := 0 <? rowCount s in
  let toSource := outputToSourceCheckBox s in
  set_controls
    {| startProcessButton_text :=
         if isProcessing then Text.cancelButton else Text.startButton;
       startProcessButton_enabled := startProcessButton_enabled c;
       useDirectoryModeCheckBox_enabled := negb isProcessing;
       outputToSourceCheckBox_enabled := negb isProcessing;
       conflictComboBox_enabled := negb isProcessing;
       browseInputDirButton_enabled := negb isProcessing && dirMode;
       inputDirPathLineEdit_enabled := negb isProcessing && dirMode;
       refreshDirButton_enabled := negb isProcessing && dirMode;
       addFilesButton_enabled := negb isProcessing && negb dirMode;
       fileListTableWidget_acceptDrops := negb isProcessing && negb dirMode;
       removeSelectedButton_enabled := negb isProcessing && hasFiles;
       selectAllButton_enabled := negb isProcessing && hasFiles;
       invertSelectionButton_enabled := negb isProcessing && hasFiles;
       outputPathLineEdit_enabled :=
         if negb toSource then negb isProcessing
         else outputPathLineEdit_enabled c;
       browseOutputButton_enabled :=
         if negb toSource then negb isProcessing
         else browseOutputButton_enabled c |} s.

(** The slot of the check box' [stateChanged]; the argument tells whether
    the new state is [Qt::Unchecked]. *)
Definition on_outputToSourceCheckBox_stateChanged (unchecked : bool)
  (s : MainWindow) : MainWindow :=
  let c := controls s in
  set_controls
    {| startProcessButton_text := startProcessButton_text c;
       startProcessButton_enabled := startProcessButton_enabled c;
       useDirectoryModeCheckBox_enabled := useDirectoryModeCheckBox_enabled c;
       outputToSourceCheckBox_enabled := outputToSourceCheckBox_enabled c;
       conflictComboBox_enabled := conflictComboBox_enabled c;
       browseInputDirButton_enabled := browseInputDirButton_enabled c;
       inputDirPathLineEdit_enabled := inputDirPathLineEdit_enabled c;
       refreshDirButton_enabled := refreshDirButton_enabled c;
       addFilesButton_enabled := addFilesButton_enabled c;
       fileListTableWidget_acceptDrops := fileListTableWidget_acceptDrops c;
       removeSelectedButton_enabled := removeSelectedButton_enabled c;
       selectAllButton_enabled := selectAllButton_enabled c;
       invertSelectionButton_enabled := invertSelectionButton_enabled c;
       outputPathLineEdit_enabled := unchecked;
       browseOutputButton_enabled := unchecked |} s.

(* ------------------------------------------------------------------ *)
(** ** The file list *)

Definition newRow (filePath : QString) : Row :=
  {| checkBox := true;
     statusText := Text.pending;
     statusToolTip := [];
     fileNameText := fileName filePath;
     pathText := filePath |}.

Definition addFileToList (filePath : QString) (s : MainWindow) : MainWindow :=
  if contains (m_fileList s) filePath then s
  else
    let s := set_m_fileList (m_fileList s ++ [filePath]) s in
    let s := set_fileListTableWidget (fileListTableWidget s ++ [newRow filePath]) s in
    updateActionButtonStates s.

Definition addFilesToList (files : QStringList) (s : MainWindow) : MainWindow :=
  fold_left (fun st file => addFileToList file st) files s.

(** The file dialog returns [files]; [firstDir] is
    [QFileInfo(files.first()).absolutePath()]. *)
Definition on_addFilesButton_clicked (files : QStringList) (firstDir : QString)
  (s : MainWindow) : MainWindow :=
  if negb (isEmpty files) then
    addFilesToList files (set_m_lastSelectedPath firstDir s)
  else s.

(** A dropped URL, with what the file system says of it: whether it is a
    directory or a file, and what the recursive traversal of the directory
    yields. *)
Inductive DroppedUrl :=
| RemoteUrl
| LocalFile (path : QString) (isDir isFile : bool) (found : QStringList).

Definition dropUrl (st : MainWindow) (url : DroppedUrl) : MainWindow :=
  match url with
  | RemoteUrl => st
  | LocalFile path isDir isFile found =>
      if isDir then addFilesToList found st
      else if isFile then
        if eqb (toLower (suffix path)) Text.csv
           || eqb (toLower (suffix path)) Text.xlsx
        then addFileToList path st else st
      else st
  end.

Definition dropEvent (urls : list DroppedUrl) (s : MainWindow) : MainWindow :=
  if useDirectoryModeCheckBox s || m_isProcessing s then s
  else fold_left dropUrl urls s.

Definition removeRow {A} (i : nat) (rows : list A) : list A :=
  firstn i rows ++ skipn (S i) rows.

(** The loop of [on_removeSelectedButton_clicked], from row [n - 1] down to
    row 0. *)
Fixpoint removeSelected_loop (n : nat) (s : MainWindow) : MainWindow :=
  match n with
  | O => s
  | S i =>
      removeSelected_loop i
        match nth_error (fileListTableWidget s) i with
        | Some row =>
            if checkBox row then
              let filePath := pathText row in
              let s := set_m_fileList (removeAll filePath (m_fileList s)) s in
              set_fileListTableWidget (removeRow i (fileListTableWidget s)) s
            else s
        | None => s
        end
  end.

Definition on_removeSelectedButton_clicked (s : MainWindow) : MainWindow :=
  updateActionButtonStates
    (removeSelected_loop (List.length (fileListTableWidget s)) s).

Definition setChecked (b : bool) (r : Row) : Row :=
  {| checkBox := b;
     statusText := statusText r;
     statusToolTip := statusToolTip r;
     fileNameText := fileNameText r;
     pathText := pathText r |}.

Definition on_selectAllButton_clicked (s : MainWindow) : MainWindow :=
  let shouldSelectAll :=
    existsb (fun r => negb (checkBox r)) (fileListTableWidget s) in
  set_fileListTableWidget
    (map (setChecked shouldSelectAll) (fileListTableWidget s)) s.

Definition on_invertSelectionButton_clicked (s : MainWindow) : MainWindow :=
  set_fileListTableWidget
    (map (fun r => setChecked (negb (checkBox r)) r) (fileListTableWidget s)) s.

(** A click on the check box of row [i]. *)
Definition rowCheckBox_clicked (i : nat) (s : MainWindow) : MainWindow :=
  match nth_error (fileListTableWidget s) i with
  | Some r =>
      set_fileListTableWidget
        (firstn i (fileListTableWidget s)
           ++ setChecked (negb (checkBox r)) r
           :: skipn (S i) (fileListTableWidget s)) s
  | None => s
  end.

(** What the file system answers to a scan: whether the directory exists,
    and the files the recursive traversal yields. *)
Record DirectoryScan := {
  dir_exists : bool;
  dir_entries : QStringList
}.

Definition clearFileList (s : MainWindow) : MainWindow :=
  set_fileListTableWidget [] (set_m_fileList [] s).

Definition scanAndPopulateFiles (dirPath : QString) (scan : DirectoryScan)
  (s : MainWindow) : MainWindow :=
  if isEmpty dirPath || negb (dir_exists scan) then
    updateActionButtonStates (clearFileList s)
  else
    let s := clearFileList s in
    let s := set_statusBar Text.barScanning s in
    let s := addFilesToList (dir_entries scan) s in
    let s := set_statusBar Text.barScanned s in
    updateActionButtonStates s.

(* ------------------------------------------------------------------ *)
(** ** The mode switch *)

Definition DEBOUNCE_INTERVAL_MS : Z := 300.

(** [QElapsedTimer::elapsed] when the clock reads [now]. *)
Definition elapsed (now : Z) (s : MainWindow) : Z :=
  now - m_modeChangeDebounceTimer s.

(** The user's answer to the confirmation: the value [exec] returns (1 for
    the second button, "no") and the state of the "do not ask again" box. *)
Record Confirmation := {
  exec_result : Z;
  dontAskAgain_isChecked : bool
}.

Definition handleModeChangeRequest (now : Z) (answer : Confirmation)
  (scan : DirectoryScan) (s : MainWindow) : MainWindow :=
  if elapsed now s <? DEBOUNCE_INTERVAL_MS then s
  else
    let s := set_m_modeChangeDebounceTimer now s in
    let currentState := useDirectoryModeCheckBox s in
    let intendedState := negb currentState in
    if rowCount s =? 0 then
      let s := set_useDirectoryModeCheckBox intendedState s in
      let s := updateUiForMode intendedState s in
      let s := if intendedState
               then scanAndPopulateFiles (inputDirPathLineEdit s) scan s
               else s in
      updateActionButtonStates s
    else
      let ask := negb (m_dontAskOnModeChange s) in
      let s := if ask
               then showDialog (Question Text.confirmTitle Text.confirmText) s
               else s in
      if ask && (exec_result answer =? 1) then s
      else
        let s := if ask && dontAskAgain_isChecked answer
                 then set_m_dontAskOnModeChange true s else s in
        let s := set_useDirectoryModeCheckBox intendedState s in
        let s := clearFileList s in
        let s := updateUiForMode intendedState s in
        let s := if intendedState
                 then scanAndPopulateFiles (inputDirPathLineEdit s) scan s
                 else s in
        updateActionButtonStates s.

Definition on_browseInputDirButton_clicked (dir : QString)
  (scan : DirectoryScan) (s : MainWindow) : MainWindow :=
  if negb (isEmpty dir) then
    let s := set_inputDirPathLineEdit dir s in
    let s := set_m_lastSelectedPath dir s in
    scanAndPopulateFiles dir scan s
  else s.

Definition on_inputDirPathLineEdit_editingFinished (scan : DirectoryScan)
  (s : MainWindow) : MainWindow :=
  scanAndPopulateFiles (inputDirPathLineEdit s) scan s.

Definition on_refreshDirButton_clicked (scan : DirectoryScan)
  (s : MainWindow) : MainWindow :=
  scanAndPopulateFiles (inputDirPathLineEdit s) scan s.

Definition on_browseOutputButton_clicked (dir : QString) (s : MainWindow)
  : MainWindow :=
  if negb (isEmpty dir) then
    set_m_lastSelectedPath dir (set_outputPathLineEdit dir s)
  else s.

(* ------------------------------------------------------------------ *)
(** ** The worker process *)

(** The tasks the start button collects: the path of every row whose check
    box is set, in row order. *)
Definition checkedTasks (s : MainWindow) : QStringList :=
  fold_left
    (fun tasks row => if checkBox row then tasks ++ [pathText row] else tasks)
    (fileListTableWidget s) [].

Definition programPath (s : MainWindow) : QString :=
  toNativeSeparators (applicationDirPath (host s) ++ Text.enginePath).

Definition conflictPolicy (index : Z) : QString :=
  if index =? 0 then Text.rename
  else if index =? 1 then Text.overwrite
  else if index =? 2 then Text.skip
  else Text.skip.

Definition kill (p : QProcess) : QProcess :=
  {| processEnvironment := processEnvironment p;
     property_tasks := property_tasks p;
     program := program p;
     arguments := arguments p;
     writeChannel := writeChannel p;
     killed := true |}.

Definition channel (ops : list ChannelOp) (p : QProcess) : QProcess :=
  {| processEnvironment := processEnvironment p;
     property_tasks := property_tasks p;
     program := program p;
     arguments := arguments p;
     writeChannel := writeChannel p ++ ops;
     killed := killed p |}.

Definition on_startProcessButton_clicked (s : MainWindow) : MainWindow :=
  if m_isProcessing s then
    match m_process s with
    | Some p => set_m_process (Some (kill p)) s
    | None => s
    end
  else
    let tasks := checkedTasks s in
    if isEmpty tasks then
      showDialog (Warning Text.noTasksTitle Text.noTasksText) s
    else if negb (outputToSourceCheckBox s) && isEmpty (outputPathLineEdit s)
    then showDialog (Warning Text.noOutputTitle Text.noOutputText) s
    else
      let s := updateUiForProcessingState true s in
      let s := set_plainTextEdit (appendPlainText Text.logStart []) s in
      let env :=
        env_insert Text.PYTHONIOENCODING Text.utf_8
          (systemEnvironment (host s)) in
      let arguments := [Text.on_conflict; conflictPolicy (conflictComboBox s)] in
      let arguments :=
        if negb (outputToSourceCheckBox s)
        then arguments ++ [Text.output_dir; outputPathLineEdit s]
        else arguments in
      set_m_process
        (Some {| processEnvironment := env;
                 property_tasks := tasks;
                 program := programPath s;
                 arguments := arguments;
                 writeChannel := [];
                 killed := false |}) s.

(** The slots below are connected to the signals of the process object
    [m_process] points to; without one there is no signal to deliver. *)
Definition onProcessStarted (s : MainWindow) : MainWindow :=
  match m_process s with
  | Some p =>
      let tasks := property_tasks p in
      if negb (isEmpty tasks) then
        let data :=
          fold_left (fun data task => data ++ (toUtf8 task ++ [LF])) tasks [] in
        set_m_process (Some (channel [Write data; CloseWriteChannel] p)) s
      else s
  | None => s
  end.

Definition setStatusText (text : QString) (r : Row) : Row :=
  {| checkBox := checkBox r;
     statusText := text;
     statusToolTip := statusToolTip r;
     fileNameText := fileNameText r;
     pathText := pathText r |}.

Definition setStatusToolTip (text : QString) (r : Row) : Row :=
  {| checkBox := checkBox r;
     statusText := statusText r;
     statusToolTip := text;
     fileNameText := fileNameText r;
     pathText := pathText r |}.

Definition cancelIfProcessing (r : Row) : Row :=
  if eqb (statusText r) Text.processing
  then setStatusText Text.cancelled r else r.

Definition onProcessFinished (exitCode : Z) (exitStatus : ExitStatus)
  (s : MainWindow) : MainWindow :=
  match m_process s with
  | Some _ =>
      let s :=
        match exitStatus with
        | CrashExit =>
            let s := set_statusBar Text.barCancelled s in
            let s := set_plainTextEdit
                       (appendPlainText Text.logCancelled (plainTextEdit s)) s in
            set_fileListTableWidget
              (map cancelIfProcessing (fileListTableWidget s)) s
        | NormalExit =>
            if exitCode =? 0 then
              let s := set_statusBar Text.barSuccess s in
              set_plainTextEdit
                (appendPlainText Text.logSuccess (plainTextEdit s)) s
            else
              let s := set_statusBar Text.barFailure s in
              let s := set_plainTextEdit
                         (appendPlainText Text.logFailure (plainTextEdit s)) s in
              set_plainTextEdit
                (appendPlainText (Text.logExitCode ++ number exitCode)
                   (plainTextEdit s)) s
        end in
      let s := updateUiForProcessingState false s in
      set_m_process None s
  | None => s
  end.

Definition onProcessError (error : ProcessError) (s : MainWindow) : MainWindow :=
  match error, m_process s with
  | FailedToStart, Some _ =>
      let s := showDialog
                 (Critical Text.startFailedTitle Text.startFailedText) s in
      let s := updateUiForProcessingState false s in
      set_m_process None s
  | _, _ => s
  end.

Definition displayedStatus (status : QString) : QString :=
  if eqb status Text.PROCESSING then Text.processing
  else if eqb status Text.SUCCESS then Text.success
  else if eqb status Text.FAILURE then Text.failure
  else if eqb status Text.SKIPPED then Text.skipped
  else if eqb status Text.UNIDENTIFIED then Text.unidentified
  else status.

(** The loop of [findAndUpdatetTableRow]: the first row with the path is
    updated and the search ends. *)
Fixpoint updateFirstRow (filePath status message : QString) (rows : list Row)
  : list Row :=
  match rows with
  | [] => []
  | r :: rows' =>
      if eqb (pathText r) filePath then
        setStatusToolTip message (setStatusText (displayedStatus status) r)
          :: rows'
      else r :: updateFirstRow filePath status message rows'
  end.

Definition findAndUpdatetTableRow (filePath status message : QString)
  (s : MainWindow) : MainWindow :=
  set_fileListTableWidget
    (updateFirstRow filePath status message (fileListTableWidget s)) s.

(** The body of the loop of [readProcessOutput]. *)
Definition processLine (s : MainWindow) (line : QString) : MainWindow :=
  if startsWith Text.STATUS_PREFIX line then
    let parts := split PIPE line in
    if 4 <=? Z.of_nat (List.length parts) then
      findAndUpdatetTableRow (nth 1 parts []) (nth 2 parts []) (nth 3 parts []) s
    else s
  else set_plainTextEdit (insertPlainText (line ++ [LF]) (plainTextEdit s)) s.

(** [data] is what [readAllStandardOutput] returns. *)
Definition readProcessOutput (data : QByteArray) (s : MainWindow) : MainWindow :=
  match m_process s with
  | None => s
  | Some _ =>
      let output := fromUtf8 data in
      let lines := split_SkipEmptyParts LF output in
      fold_left processLine lines s
  end.

(** [text] is [QString::fromLocal8Bit] of what [readAllStandardError]
    returns, in the codec of the host's locale. *)
Definition readProcessError (text : QString) (s : MainWindow) : MainWindow :=
  match m_process s with
  | None => s
  | Some _ =>
      set_plainTextEdit
        (appendPlainText (Text.errorMarker ++ text) (plainTextEdit s)) s
  end.

(* ------------------------------------------------------------------ *)
(** ** Construction, and the window as a machine driven by events *)

(** The values [loadSettings] reads from config.ini, defaults applied. *)
Record Settings := {
  paths_outputPath : QString;
  paths_inputPath : QString;
  paths_lastSelectedPath : QString;
  options_conflictIndex : Z;
  options_outputToSource : bool;
  options_useDirectoryMode : bool;
  options_dontAskOnModeChange : bool
}.

Definition loadSettings (cfg : Settings) (s : MainWindow) : MainWindow :=
  let s := set_outputPathLineEdit (paths_outputPath cfg) s in
  let s := set_inputDirPathLineEdit (paths_inputPath cfg) s in
  let s := set_m_lastSelectedPath (paths_lastSelectedPath cfg) s in
  let s := set_conflictComboBox (options_conflictIndex cfg) s in
  let s := set_outputToSourceCheckBox (options_outputToSource cfg) s in
  let s := set_useDirectoryModeCheckBox (options_useDirectoryMode cfg) s in
  set_m_dontAskOnModeChange (options_dontAskOnModeChange cfg) s.

(** The window [setupUi] builds from the form: no row, an empty log, and
    the control states of the form. *)
Definition setupUi (form : Controls) (h : Host) : MainWindow :=
  {| m_process := None;
     m_isProcessing := false;
     m_fileList := [];
     m_lastSelectedPath := [];
     m_dontAskOnModeChange := false;
     m_modeChangeDebounceTimer := 0;
     fileListTableWidget := [];
     useDirectoryModeCheckBox := false;
     inputDirPathLineEdit := [];
     outputPathLineEdit := [];
     outputToSourceCheckBox := false;
     conflictComboBox := 0;
     plainTextEdit := [];
     statusBar := [];
     controls := form;
     shown := [];
     host := h |}.

(** The constructor, run when the clock reads [now]. *)
Definition MainWindow_new (form : Controls) (h : Host) (cfg : Settings)
  (scan : DirectoryScan) (now : Z) : MainWindow :=
  let s := setupUi form h in
  let s := loadSettings cfg s in
  let s := updateUiForMode (useDirectoryModeCheckBox s) s in
  let s := if useDirectoryModeCheckBox s
           then scanAndPopulateFiles (inputDirPathLineEdit s) scan s
           else s in
  let s := updateActionButtonStates s in
  let s := on_outputToSourceCheckBox_stateChanged
             (negb (outputToSourceCheckBox s)) s in
  set_m_modeChangeDebounceTimer now s.

(** What can happen to the window: the user's actions on its controls and
    the signals of the process. *)
Inductive Event :=
| AddFilesClicked (files : QStringList) (firstDir : QString)
| Dropped (urls : list DroppedUrl)
| RemoveSelectedClicked
| SelectAllClicked
| InvertSelectionClicked
| RowCheckBoxClicked (i : nat)
| ModeCheckBoxPressed (now : Z) (answer : Confirmation) (scan : DirectoryScan)
| BrowseInputDirClicked (dir : QString) (scan : DirectoryScan)
| InputDirTyped (text : QString)
| InputDirEditingFinished (scan : DirectoryScan)
| RefreshDirClicked (scan : DirectoryScan)
| BrowseOutputClicked (dir : QString)
| OutputPathTyped (text : QString)
| OutputToSourceClicked
| ConflictSelected (index : Z)
| StartProcessClicked
| ProcessStarted
| ProcessFinished (exitCode : Z) (exitStatus : ExitStatus)
| ProcessErrorOccurred (error : ProcessError)
| ReadyReadStandardOutput (data : QByteArray)
| ReadyReadStandardError (text : QString)
| ModeCheckBoxKeyPressed.

(** The slot an event runs.  A slot is run whatever the enabled state of its
    control; a disabled control sends no event, so the runs of the window
    are among those of [run].  The event filter takes the mouse away from
    the mode check box, not the keyboard: on the space bar the box toggles
    itself, and no slot runs. *)
Definition handle (s : MainWindow) (e : Event) : MainWindow :=
  match e with
  | AddFilesClicked files firstDir => on_addFilesButton_clicked files firstDir s
  | Dropped urls => dropEvent urls s
  | RemoveSelectedClicked => on_removeSelectedButton_clicked s
  | SelectAllClicked => on_selectAllButton_clicked s
  | InvertSelectionClicked => on_invertSelectionButton_clicked s
  | RowCheckBoxClicked i => rowCheckBox_clicked i s
  | ModeCheckBoxPressed now answer scan =>
      handleModeChangeRequest now answer scan s
  | BrowseInputDirClicked dir scan => on_browseInputDirButton_clicked dir scan s
  | InputDirTyped text => set_inputDirPathLineEdit text s
  | InputDirEditingFinished scan =>
      on_inputDirPathLineEdit_editingFinished scan s
  | RefreshDirClicked scan => on_refreshDirButton_clicked scan s
  | BrowseOutputClicked dir => on_browseOutputButton_clicked dir s
  | OutputPathTyped text => set_outputPathLineEdit text s
  | OutputToSourceClicked =>
      let s := set_outputToSourceCheckBox (negb (outputToSourceCheckBox s)) s in
      on_outputToSourceCheckBox_stateChanged (negb (outputToSourceCheckBox s)) s
  | ConflictSelected index => set_conflictComboBox index s
  | StartProcessClicked => on_startProcessButton_clicked s
  | ProcessStarted => onProcessStarted s
  | ProcessFinished exitCode exitStatus => onProcessFinished exitCode exitStatus s
  | ProcessErrorOccurred error => onProcessError error s
  | ReadyReadStandardOutput data => readProcessOutput data s
  | ReadyReadStandardError text => readProcessError text s
  | ModeCheckBoxKeyPressed =>
      set_useDirectoryModeCheckBox (negb (useDirectoryModeCheckBox s)) s
  end.

Definition run (events : list Event) (s : MainWindow) : MainWindow :=
  fold_left handle events s.

(* ------------------------------------------------------------------ *)
(** ** Vocabulary of the properties *)

(** The path column of the table. *)
Definition paths (s : MainWindow) : QStringList :=
  map pathText (fileListTableWidget s).

(** The list mirrors the path column, and holds no path twice. *)
Definition consistent (s : MainWindow) : Prop :=
  m_fileList s = paths s /\ NoDup (m_fileList s).

Definition QString_eq_dec : forall a b : QString, {a = b} + {a <> b} :=
  list_eq_dec Z.eq_dec.

(** The standard output of the worker arriving in several chunks, one
    [readyReadStandardOutput] each. *)
Definition deliver (chunks : list QByteArray) (s : MainWindow) : MainWindow :=
  fold_left (fun st data => readProcessOutput data st) chunks s.




(** A click on the mode check box: when it happens, and what the user and
    the file system answer if asked. *)
Record Request := {
  at_ms : Z;
  confirmation : Confirmation;
  scanned : DirectoryScan
}.

Definition requestModeToggle (s : MainWindow) (r : Request) : MainWindow :=
  handleModeChangeRequest (at_ms r) (confirmation r) (scanned r) s.

(** Every request comes at least the debounce interval after the one before
    it, the first one after the clock reading [last]. *)
Fixpoint spaced (last : Z) (reqs : list Request) : Prop :=
  match reqs with
  | [] => True
  | r :: reqs' => DEBOUNCE_INTERVAL_MS <= at_ms r - last /\ spaced (at_ms r) reqs'
  end.

(** Nothing stands between an accepted request and the switch: there is no
    file to lose, or the user is not asked, or does not answer "no". *)
Definition notDeclined (r : Request) (s : MainWindow) : Prop :=
  fileListTableWidget s = [] \/ m_dontAskOnModeChange s = true
  \/ exec_result (confirmation r) <> 1.

(** [s'] differs from [s] at most by the file list, the table, the states
    of the controls and the message of the status bar. *)
Definition listOnly (s s' : MainWindow) : Prop :=
  exists l t c b,
    s' = set_controls c (set_statusBar b
           (set_fileListTableWidget t (set_m_fileList l s))).

(** The task list as the worker is to read it: one path a line. *)
Definition taskLines (tasks : QStringList) : QByteArray :=
  concat (map (fun task => toUtf8 task ++ [LF]) tasks).

Definition isProcessStarted (e : Event) : bool :=
  match e with ProcessStarted => true | _ => false end.

(** Nothing has been written to, and nothing closed on, the process at
    hand. *)
Definition untouchedChannel (s : MainWindow) : Prop :=
  forall p, m_process s = Some p -> writeChannel p = [].

(** The events that neither are the started signal nor end the session:
    whatever else can come between the start of the process and its started
    signal. *)
Definition keepsSession (e : Event) : bool :=
  match e with
  | ProcessStarted | ProcessFinished _ _
  | ProcessErrorOccurred FailedToStart => false
  | _ => true
  end.

(** A session is on, for a process that was given [tasks] and whose
    standard input has not been touched. *)
Definition awaitsStarted (tasks : QStringList) (s : MainWindow) : Prop :=
  m_isProcessing s = true
  /\ exists p, m_process s = Some p
               /\ property_tasks p = tasks /\ writeChannel p = [].

(** UTF-8 in the words of RFC 3629, to compare [toUtf8] with.  The code
    points of a text held in UTF-16: a high surrogate and the low surrogate
    after it stand for one code point above the basic plane. *)
Fixpoint spec_codePoints (s : QString) : list Z :=
  match s with
  | [] => []
  | u :: s1 =>
      match s1 with
      | l :: s2 =>
          if isHighSurrogate u && isLowSurrogate l
          then 0x10000 + (u - 0xD800) * 0x400 + (l - 0xDC00)
                 :: spec_codePoints s2
          else u :: spec_codePoints s1
      | [] => [u]
      end
  end.

(** The one to four bytes of a code point. *)
Definition spec_utf8 (c : Z) : QByteArray :=
  if c <? 0x80 then [c]
  else if c <? 0x800 then [0xC0 + c / 0x40; 0x80 + c mod 0x40]
  else if c <? 0x10000 then
    [0xE0 + c / 0x1000; 0x80 + (c / 0x40) mod 0x40; 0x80 + c mod 0x40]
  else
    [0xF0 + c / 0x40000; 0x80 + (c / 0x1000) mod 0x40;
     0x80 + (c / 0x40) mod 0x40; 0x80 + c mod 0x40].

(** A text of 16-bit units in which every surrogate is half of a pair. *)
Fixpoint wellFormedUtf16 (s : QString) : bool :=
  match s with
  | [] => true
  | u :: s1 =>
      (0 <=? u) && (u <=? 0xFFFF)
      && if isSurrogate u then
           match s1 with
           | l :: s2 =>
               isHighSurrogate u && isLowSurrogate l && wellFormedUtf16 s2
           | [] => false
           end
         else wellFormedUtf16 s1
  end.

(** An absolute path: one from the root ('/'), or from the root of a drive
    (a letter, ':' and '/'). *)
Definition isAbsolutePath (path : QString) : bool :=
  startsWith [47] path || startsWith [58; 47] (skipn 1 path).

(** The controls as [updateUiForProcessingState(false)] leaves them. *)
Definition unlocked (s : MainWindow) : Prop :=
  m_isProcessing s = false
  /\ startProcessButton_text (controls s) = Text.startButton
  /\ useDirectoryModeCheckBox_enabled (controls s) = true
  /\ outputToSourceCheckBox_enabled (controls s) = true
  /\ conflictComboBox_enabled (controls s) = true
  /\ browseInputDirButton_enabled (controls s) = useDirectoryModeCheckBox s
  /\ inputDirPathLineEdit_enabled (controls s) = useDirectoryModeCheckBox s
  /\ refreshDirButton_enabled (controls s) = useDirectoryModeCheckBox s
  /\ addFilesButton_enabled (controls s) = negb (useDirectoryModeCheckBox s)
  /\ fileListTableWidget_acceptDrops (controls s)
     = negb (useDirectoryModeCheckBox s)
  /\ removeSelectedButton_enabled (controls s) = (0 <? rowCount s)
  /\ selectAllButton_enabled (controls s) = (0 <? rowCount s)
  /\ invertSelectionButton_enabled (controls s) = (0 <? rowCount s)
  /\ (outputToSourceCheckBox s = false ->
      outputPathLineEdit_enabled (controls s) = true
      /\ browseOutputButton_enabled (controls s) = true).

(** One case of the decoding of a text that holds a newline: once the bytes
    the decoder looks at are known, what remains is decoded by the
    induction hypothesis [IH]. *)
Ltac decode_case IH :=
  cbn [app]; cbv zeta;
  repeat match goal with
  | |- context [match ?l with [] => _ | _ :: _ => _ end] =>
      is_var l; destruct l
  end;
  change (isContinuationByte LF) with false;
  rewrite ?andb_false_r; cbn [andb];
  repeat match goal with
  | |- context [if ?c then _ else _] => destruct c
  end;
  repeat match goal with
  | |- context [convertToUnicode (LF :: ?r)] =>
      change (convertToUnicode (LF :: r)) with (LF :: convertToUnicode r)
  | |- context [convertToUnicode (?x :: LF :: ?r)] =>
      change (x :: LF :: r) with ([x] ++ LF :: r)
  | |- context [convertToUnicode (?x :: ?y :: LF :: ?r)] =>
      change (x :: y :: LF :: r) with ([x; y] ++ LF :: r)
  end;
  rewrite ?app_comm_cons;
  rewrite ?IH by (simpl; lia);
  rewrite <- ?app_assoc; reflexivity.

(** *** Sample data *)

Module Sample.

Definition form : Controls :=
  {| startProcessButton_text := Text.startButton;
     startProcessButton_enabled := true;
     useDirectoryModeCheckBox_enabled := true;
     outputToSourceCheckBox_enabled := true;
     conflictComboBox_enabled := true;
     browseInputDirButton_enabled := true;
     inputDirPathLineEdit_enabled := true;
     refreshDirButton_enabled := true;
     addFilesButton_enabled := true;
     fileListTableWidget_acceptDrops := true;
     removeSelectedButton_enabled := true;
     selectAllButton_enabled := true;
     invertSelectionButton_enabled := true;
     outputPathLineEdit_enabled := true;
     browseOutputButton_enabled := true |}.

Definition pc : Host :=
  {| applicationDirPath := lit "C:/tool"; systemEnvironment := [] |}.

Definition config : Settings :=
  {| paths_outputPath := [];
     paths_inputPath := [];
     paths_lastSelectedPath := lit "C:/Users/u";
     options_conflictIndex := 2;
     options_outputToSource := false;
     options_useDirectoryMode := false;
     options_dontAskOnModeChange := false |}.

Definition noDirectory : DirectoryScan :=
  {| dir_exists := false; dir_entries := [] |}.

(** The window just opened, at clock reading 0. *)
Definition opened : MainWindow := MainWindow_new form pc config noDirectory 0.

Definition a_b_csv : QString := lit "/a/b.csv".

Definition addOne : list Event := [AddFilesClicked [a_b_csv] (lit "/a")].

(** One file in the list, nothing running. *)
Definition idle : MainWindow := run addOne opened.

(** The same, with output to the source directory chosen. *)
Definition ready : MainWindow := run [OutputToSourceClicked] idle.

(** A session running on that file. *)
Definition running : MainWindow :=
  run [StartProcessClicked; ProcessStarted] ready.

Definition no : Confirmation :=
  {| exec_result := 1; dontAskAgain_isChecked := true |}.

Definition yes : Confirmation :=
  {| exec_result := 0; dontAskAgain_isChecked := false |}.

Definition click (t : Z) (c : Confirmation) : Request :=
  {| at_ms := t; confirmation := c; scanned := noDirectory |}.

Definition sales_xlsx : QString := lit "/数据/销售.xlsx".

(** Two files in the list, output to the source directory chosen. *)
Definition two : MainWindow :=
  run [AddFilesClicked [a_b_csv; sales_xlsx] (lit "/a"); OutputToSourceClicked]
    opened.

(** A session on the two files: the worker is done with the first and at
    work on the second. *)
Definition working : MainWindow :=
  run [StartProcessClicked; ProcessStarted;
       ReadyReadStandardOutput
         (bytes "##STATUS##|/a/b.csv|SUCCESS|ok" ++ [LF]
          ++ bytes "##STATUS##|/数据/销售.xlsx|PROCESSING|" ++ [LF])]
    two.

(** The window opened in directory mode on the directory "data" of
    config.ini, in which the traversal finds one file. *)
Definition relativeConfig : Settings :=
  {| paths_outputPath := [];
     paths_inputPath := lit "data";
     paths_lastSelectedPath := [];
     options_conflictIndex := 0;
     options_outputToSource := true;
     options_useDirectoryMode := true;
     options_dontAskOnModeChange := false |}.

Definition relative : MainWindow :=
  MainWindow_new form pc relativeConfig
    {| dir_exists := true; dir_entries := [lit "data/x.csv"] |} 0.

End Sample.

(* ------------------------------------------------------------------ *)
(** ** The rest of the class, and more vocabulary *)

(** What [saveSettings] writes to config.ini. *)
Definition saveSettings (s : MainWindow) : Settings :=
  {| paths_outputPath := outputPathLineEdit s;
     paths_inputPath := inputDirPathLineEdit s;
     paths_lastSelectedPath := m_lastSelectedPath s;
     options_conflictIndex := conflictComboBox s;
     options_outputToSource := outputToSourceCheckBox s;
     options_useDirectoryMode := useDirectoryModeCheckBox s;
     options_dontAskOnModeChange := m_dontAskOnModeChange s |}.

(** The elements of a list, each once, in the order of their first
    occurrence. *)
Definition firstOccurrences (l : QStringList) : QStringList :=
  rev (nodup QString_eq_dec (rev l)).

(** The four buttons [updateActionButtonStates] sets. *)
Definition actionButtons (hasFiles : bool) (c : Controls) : Controls :=
  {| startProcessButton_text := startProcessButton_text c;
     startProcessButton_enabled := hasFiles;
     useDirectoryModeCheckBox_enabled := useDirectoryModeCheckBox_enabled c;
     outputToSourceCheckBox_enabled := outputToSourceCheckBox_enabled c;
     conflictComboBox_enabled := conflictComboBox_enabled c;
     browseInputDirButton_enabled := browseInputDirButton_enabled c;
     inputDirPathLineEdit_enabled := inputDirPathLineEdit_enabled c;
     refreshDirButton_enabled := refreshDirButton_enabled c;
     addFilesButton_enabled := addFilesButton_enabled c;
     fileListTableWidget_acceptDrops := fileListTableWidget_acceptDrops c;
     removeSelectedButton_enabled := hasFiles;
     selectAllButton_enabled := hasFiles;
     invertSelectionButton_enabled := hasFiles;
     outputPathLineEdit_enabled := outputPathLineEdit_enabled c;
     browseOutputButton_enabled := browseOutputButton_enabled c |}.

(** What a dropped URL may add: the files found under a directory, or the
    file itself when its suffix, in lower case, is csv or xlsx. *)
Definition droppable (url : DroppedUrl) (p : QString) : Prop :=
  match url with
  | RemoteUrl => False
  | LocalFile path isDir isFile found =>
      if isDir then In p found
      else isFile = true /\ p = path
           /\ (toLower (suffix path) = Text.csv
               \/ toLower (suffix path) = Text.xlsx)
  end.

(** The files a scan lists: none for an empty path or a directory that does
    not exist. *)
Definition scannedFiles (dirPath : QString) (scan : DirectoryScan)
  : QStringList :=
  if isEmpty dirPath || negb (dir_exists scan) then []
  else firstOccurrences (dir_entries scan).

Definition unchecked (r : Row) : bool := negb (checkBox r).

Definition isQuestion (d : Dialog) : bool :=
  match d with Question _ _ => true | _ => false end.

Definition isStartProcessClicked (e : Event) : bool :=
  match e with StartProcessClicked => true | _ => false end.

(** The session flag and the process handle go together, and a process at
    hand was given at least one task and no task twice. *)
Definition sessionOK (s : MainWindow) : Prop :=
  (m_isProcessing s = true <-> m_process s <> None)
  /\ forall p, m_process s = Some p ->
       property_tasks p <> [] /\ NoDup (property_tasks p)
       /\ program p = programPath s.

(** What identifies a row and tells whether it is to be processed: all of
    it but the status. *)
Definition rowKey (r : Row) : bool * QString * QString :=
  (checkBox r, fileNameText r, pathText r).

(** The events that are neither a click on the start button nor a signal of
    the process. *)
Definition isEditing (e : Event) : bool :=
  match e with
  | StartProcessClicked | ProcessStarted | ProcessFinished _ _
  | ProcessErrorOccurred _ | ReadyReadStandardOutput _
  | ReadyReadStandardError _ => false
  | _ => true
  end.

Definition isModeCheckBoxPressed (e : Event) : bool :=
  match e with ModeCheckBoxPressed _ _ _ => true | _ => false end.

(* ------------------------------------------------------------------ *)
(** * Properties *)

(** ** Strings and lists *)

Lemma eqb_eq (a b : QString) : eqb a b = true <-> a = b.
Proof.
  revert b; induction a as [|x a IH]; intros [|y b]; simpl; split; try easy.
  - rewrite andb_true_iff, Z.eqb_eq, IH. intros [-> ->]; reflexivity.
  - intros H; injection H as -> ->. rewrite Z.eqb_refl. apply IH. reflexivity.
Qed.

Lemma eqb_refl (a : QString) : eqb a a = true.
Proof. apply eqb_eq; reflexivity. Qed.

Lemma eqb_neq (a b : QString) : eqb a b = false <-> a <> b.
Proof.
  rewrite <- eqb_eq. destruct (eqb a b); split; congruence.
Qed.

Lemma contains_In (l : QStringList) (s : QString) :
  contains l s = true <-> In s l.
Proof.
  unfold contains. rewrite existsb_exists. split.
  - intros (x & Hin & Heq). apply eqb_eq in Heq. subst; assumption.
  - intros Hin. exists s. split; [assumption | apply eqb_refl].
Qed.

Lemma contains_not_In (l : QStringList) (s : QString) :
  contains l s = false <-> ~ In s l.
Proof.
  rewrite <- contains_In. destruct (contains l s); split; congruence.
Qed.

Lemma removeAll_absent (p : QString) (l : QStringList) :
  ~ In p l -> removeAll p l = l.
Proof.
  induction l as [|x l IH]; simpl; intros Hn; [reflexivity|].
  destruct (eqb x p) eqn:E.
  - apply eqb_eq in E. subst. exfalso. apply Hn. now left.
  - simpl. f_equal. apply IH. intros H. apply Hn. now right.
Qed.

(** In a list without duplicates, removing all occurrences of the element at
    index [i] is removing position [i]. *)
Lemma removeAll_removeRow (l : QStringList) (i : nat) (p : QString) :
  NoDup l -> nth_error l i = Some p -> removeAll p l = removeRow i l.
Proof.
  revert i. induction l as [|x l IH]; intros [|i] Hnd Hi; simpl in *;
    try discriminate; inversion Hnd as [|? ? Hx Hl]; subst.
  - injection Hi as ->. rewrite eqb_refl. simpl.
    unfold removeRow. simpl. apply removeAll_absent. assumption.
  - destruct (eqb x p) eqn:E.
    + apply eqb_eq in E. subst. exfalso. apply Hx.
      eapply nth_error_In; eassumption.
    + simpl. unfold removeRow in *. simpl. f_equal. apply IH; assumption.
Qed.

Lemma map_removeRow {A B} (f : A -> B) (i : nat) (l : list A) :
  map f (removeRow i l) = removeRow i (map f l).
Proof.
  unfold removeRow. rewrite map_app, firstn_map, skipn_map. reflexivity.
Qed.

Lemma In_removeRow {A} (i : nat) (l : list A) (x : A) :
  In x (removeRow i l) -> In x l.
Proof.
  revert i. induction l as [|y l IH]; intros i.
  - unfold removeRow. rewrite firstn_nil, skipn_nil. trivial.
  - destruct i as [|i]; unfold removeRow in *; simpl.
    + intros H. now right.
    + intros [H|H]; [now left | right; eapply IH; exact H].
Qed.

Lemma NoDup_removeRow {A} (i : nat) (l : list A) :
  NoDup l -> NoDup (removeRow i l).
Proof.
  revert i. induction l as [|x l IH]; intros i Hnd.
  - unfold removeRow. rewrite firstn_nil, skipn_nil. constructor.
  - inversion Hnd as [|? ? Hx Hl]; subst. destruct i as [|i].
    + unfold removeRow. simpl. assumption.
    + change (removeRow (S i) (x :: l)) with (x :: removeRow i l).
      constructor; [|apply IH; assumption].
      intros Hin. apply Hx. eapply In_removeRow; eassumption.
Qed.

Lemma rowCount_zero (s : MainWindow) :
  rowCount s = 0 <-> fileListTableWidget s = [].
Proof.
  unfold rowCount. destruct (fileListTableWidget s); simpl; split;
    intros; try reflexivity; try discriminate; lia.
Qed.

(** ** The file list and the table agree, and hold no path twice *)

(** A slot that touches neither the list nor the path column keeps them
    consistent. *)
Lemma consistent_frame (s s' : MainWindow) :
  m_fileList s' = m_fileList s -> paths s' = paths s ->
  consistent s -> consistent s'.
Proof. unfold consistent. intros -> ->. trivial. Qed.

Lemma consistent_addFileToList (p : QString) (s : MainWindow) :
  consistent s -> consistent (addFileToList p s).
Proof.
  intros [Hl Hnd]. unfold addFileToList.
  destruct (contains (m_fileList s) p) eqn:E; [split; assumption|].
  apply contains_not_In in E.
  unfold consistent, paths. simpl. split.
  - rewrite map_app. simpl. f_equal. exact Hl.
  - apply NoDup_app; [assumption | repeat constructor; intros [] | ].
    intros x Hx [<-|[]]. contradiction.
Qed.

Lemma consistent_addFilesToList (files : QStringList) (s : MainWindow) :
  consistent s -> consistent (addFilesToList files s).
Proof.
  unfold addFilesToList. revert s.
  induction files as [|f files IH]; intros s Hs; simpl; [assumption|].
  apply IH, consistent_addFileToList, Hs.
Qed.

Lemma consistent_clearFileList (s : MainWindow) : consistent (clearFileList s).
Proof. split; [reflexivity | constructor]. Qed.

Lemma consistent_updateActionButtonStates (s : MainWindow) :
  consistent s -> consistent (updateActionButtonStates s).
Proof. apply consistent_frame; reflexivity. Qed.

Lemma consistent_scanAndPopulateFiles dirPath scan (s : MainWindow) :
  consistent (scanAndPopulateFiles dirPath scan s).
Proof.
  unfold scanAndPopulateFiles.
  destruct (isEmpty dirPath || negb (dir_exists scan)).
  - apply consistent_updateActionButtonStates, consistent_clearFileList.
  - apply consistent_updateActionButtonStates.
    eapply consistent_frame; [reflexivity | reflexivity |].
    apply consistent_addFilesToList.
    eapply consistent_frame; [reflexivity | reflexivity |].
    apply consistent_clearFileList.
Qed.

Lemma consistent_removeSelected_loop (n : nat) (s : MainWindow) :
  consistent s -> consistent (removeSelected_loop n s).
Proof.
  revert s. induction n as [|i IH]; intros s Hs; simpl; [assumption|].
  apply IH.
  destruct (nth_error (fileListTableWidget s) i) as [row|] eqn:Hrow;
    [|assumption].
  destruct (checkBox row); [|assumption].
  destruct Hs as [Hl Hnd]. unfold consistent, paths. simpl.
  assert (Hp : nth_error (m_fileList s) i = Some (pathText row)).
  { rewrite Hl. unfold paths. rewrite nth_error_map, Hrow. reflexivity. }
  rewrite (removeAll_removeRow _ _ _ Hnd Hp). split.
  - rewrite map_removeRow. f_equal. exact Hl.
  - apply NoDup_removeRow. assumption.
Qed.

Lemma pathText_setChecked b r : pathText (setChecked b r) = pathText r.
Proof. reflexivity. Qed.

Lemma paths_updateFirstRow filePath status message rows :
  map pathText (updateFirstRow filePath status message rows) = map pathText rows.
Proof.
  induction rows as [|r rows IH]; simpl; [reflexivity|].
  destruct (eqb (pathText r) filePath); simpl; [reflexivity|].
  f_equal. exact IH.
Qed.

Lemma paths_cancelIfProcessing rows :
  map pathText (map cancelIfProcessing rows) = map pathText rows.
Proof.
  rewrite map_map. apply map_ext. intros r. unfold cancelIfProcessing.
  destruct (eqb (statusText r) Text.processing); reflexivity.
Qed.

Lemma consistent_processLine (s : MainWindow) (line : QString) :
  consistent s -> consistent (processLine s line).
Proof.
  unfold processLine.
  destruct (startsWith Text.STATUS_PREFIX line).
  - destruct (4 <=? _); [|trivial].
    apply consistent_frame; [reflexivity|].
    unfold paths. simpl. apply paths_updateFirstRow.
  - apply consistent_frame; reflexivity.
Qed.

Lemma consistent_handleModeChangeRequest now answer scan (s : MainWindow) :
  consistent s -> consistent (handleModeChangeRequest now answer scan s).
Proof.
  intros Hs. unfold handleModeChangeRequest.
  destruct (elapsed now s <? DEBOUNCE_INTERVAL_MS); [assumption|].
  destruct (rowCount _ =? 0).
  - apply consistent_updateActionButtonStates.
    destruct (negb (useDirectoryModeCheckBox _));
      [apply consistent_scanAndPopulateFiles|].
    revert Hs. apply consistent_frame; reflexivity.
  - match goal with |- consistent (if ?c then _ else _) => destruct c end.
    + destruct (negb (m_dontAskOnModeChange _));
        revert Hs; apply consistent_frame; reflexivity.
    + apply consistent_updateActionButtonStates.
      destruct (negb (useDirectoryModeCheckBox _));
        [apply consistent_scanAndPopulateFiles|].
      split; [reflexivity | constructor].
Qed.

Lemma consistent_handle (s : MainWindow) (e : Event) :
  consistent s -> consistent (handle s e).
Proof.
  intros Hs. destruct e; simpl.
  - unfold on_addFilesButton_clicked. destruct (negb (isEmpty files)); [|assumption].
    apply consistent_addFilesToList. revert Hs. apply consistent_frame; reflexivity.
  - unfold dropEvent.
    destruct (useDirectoryModeCheckBox s || m_isProcessing s); [assumption|].
    revert s Hs. induction urls as [|u urls IH]; intros s Hs; simpl; [assumption|].
    apply IH. destruct u as [|path isDir isFile found]; simpl; [assumption|].
    destruct isDir; [apply consistent_addFilesToList, Hs|].
    destruct isFile; [|assumption].
    destruct (_ || _); [apply consistent_addFileToList, Hs | assumption].
  - apply consistent_updateActionButtonStates, consistent_removeSelected_loop, Hs.
  - revert Hs. apply consistent_frame; [reflexivity|].
    unfold paths. simpl. rewrite map_map. reflexivity.
  - revert Hs. apply consistent_frame; [reflexivity|].
    unfold paths. simpl. rewrite map_map. reflexivity.
  - unfold rowCheckBox_clicked.
    destruct (nth_error (fileListTableWidget s) i) as [r|] eqn:Hr; [|assumption].
    revert Hs. apply consistent_frame; [reflexivity|].
    unfold paths. simpl. rewrite map_app. simpl.
    rewrite <- (firstn_skipn_middle i (fileListTableWidget s) Hr) at 3.
    rewrite map_app. reflexivity.
  - apply consistent_handleModeChangeRequest, Hs.
  - unfold on_browseInputDirButton_clicked. destruct (negb (isEmpty dir)); [|assumption].
    apply consistent_scanAndPopulateFiles.
  - revert Hs. apply consistent_frame; reflexivity.
  - apply consistent_scanAndPopulateFiles.
  - apply consistent_scanAndPopulateFiles.
  - unfold on_browseOutputButton_clicked. destruct (negb (isEmpty dir)); [|assumption].
    revert Hs. apply consistent_frame; reflexivity.
  - revert Hs. apply consistent_frame; reflexivity.
  - revert Hs. apply consistent_frame; reflexivity.
  - revert Hs. apply consistent_frame; reflexivity.
  - unfold on_startProcessButton_clicked.
    destruct (m_isProcessing s).
    + destruct (m_process s); [|assumption].
      revert Hs. apply consistent_frame; reflexivity.
    + destruct (isEmpty (checkedTasks s));
        [revert Hs; apply consistent_frame; reflexivity|].
      destruct (_ && _); revert Hs; apply consistent_frame; reflexivity.
  - unfold onProcessStarted. destruct (m_process s); [|assumption].
    destruct (negb _); [|assumption].
    revert Hs. apply consistent_frame; reflexivity.
  - unfold onProcessFinished. destruct (m_process s); [|assumption].
    destruct exitStatus; [destruct (exitCode =? 0)|];
      revert Hs; apply consistent_frame; try reflexivity.
    unfold paths. simpl. apply paths_cancelIfProcessing.
  - unfold onProcessError. destruct error; try assumption.
    destruct (m_process s); [|assumption].
    revert Hs. apply consistent_frame; reflexivity.
  - unfold readProcessOutput. destruct (m_process s); [|assumption].
    generalize (split_SkipEmptyParts LF (fromUtf8 data)). intros lines.
    revert s Hs. induction lines as [|l lines IH]; intros s Hs; simpl; [assumption|].
    apply IH, consistent_processLine, Hs.
  - unfold readProcessError. destruct (m_process s); [|assumption].
    revert Hs. apply consistent_frame; reflexivity.
  - revert Hs. apply consistent_frame; reflexivity.
Qed.

Lemma consistent_run (events : list Event) (s : MainWindow) :
  consistent s -> consistent (run events s).
Proof.
  unfold run. revert s.
  induction events as [|e events IH]; intros s Hs; simpl; [assumption|].
  apply IH, consistent_handle, Hs.
Qed.

Lemma consistent_MainWindow_new form h cfg scan now :
  consistent (MainWindow_new form h cfg scan now).
Proof.
  unfold MainWindow_new.
  eapply consistent_frame; [reflexivity | reflexivity |].
  eapply consistent_frame; [reflexivity | reflexivity |].
  apply consistent_updateActionButtonStates.
  destruct (useDirectoryModeCheckBox _);
    [apply consistent_scanAndPopulateFiles|].
  split; [reflexivity | constructor].
Qed.

Lemma consistent_reachable form h cfg scan now events :
  consistent (run events (MainWindow_new form h cfg scan now)).
Proof. apply consistent_run, consistent_MainWindow_new. Qed.

(** C10: after the constructor and after every handler, the internal list
    [m_fileList] is, element for element and in the same order, the
    sequence of texts of the path column of the table. *)
Theorem fileList_mirrors_path_column form h cfg scan now events :
  m_fileList (run events (MainWindow_new form h cfg scan now))
  = map pathText
      (fileListTableWidget (run events (MainWindow_new form h cfg scan now))).
Proof. apply (consistent_reachable form h cfg scan now events). Qed.

(** C8: whatever the user and the process do, the table never holds two
    entries with the same path; adding a path that is present changes
    nothing and leaves one entry for it; adding a path that is absent
    appends one checked entry in the pending state. *)
Theorem fileSet_has_unique_paths form h cfg scan now events :
  let s := run events (MainWindow_new form h cfg scan now) in
  NoDup (paths s)
  /\ (forall p, In p (paths s) ->
        addFileToList p s = s
        /\ count_occ QString_eq_dec (paths s) p = 1%nat)
  /\ (forall p, ~ In p (paths s) ->
        fileListTableWidget (addFileToList p s)
        = fileListTableWidget s
            ++ [{| checkBox := true; statusText := Text.pending;
                   statusToolTip := []; fileNameText := fileName p;
                   pathText := p |}]
        /\ NoDup (paths (addFileToList p s))).
Proof.
  intros s.
  pose proof (consistent_reachable form h cfg scan now events) as Hc.
  fold s in Hc.
  assert (Hnd : NoDup (paths s)) by (destruct Hc as [<- ?]; assumption).
  split; [assumption|]. split.
  - intros p Hp. split.
    + unfold addFileToList.
      destruct Hc as [Hl _]. rewrite <- Hl in Hp.
      apply contains_In in Hp. rewrite Hp. reflexivity.
    + apply NoDup_count_occ'; assumption.
  - intros p Hp.
    pose proof (consistent_addFileToList p s Hc) as [Hl' Hnd'].
    rewrite Hl' in Hnd'. split; [|assumption].
    unfold addFileToList.
    destruct Hc as [Hl _]. rewrite <- Hl in Hp.
    apply contains_not_In in Hp. rewrite Hp. reflexivity.
Qed.

Lemma fileSet_has_unique_paths_witness :
  addFileToList Sample.a_b_csv Sample.idle = Sample.idle.
Proof.
  unfold Sample.idle, Sample.opened.
  refine (proj1 (proj1 (proj2
    (fileSet_has_unique_paths Sample.form Sample.pc Sample.config
       Sample.noDirectory 0 Sample.addOne))
    Sample.a_b_csv _)).
  vm_compute. left. reflexivity.
Defined.

(** ** The lines of the worker's standard output *)

Lemma startsWith_app (p s : QString) :
  startsWith p s = true -> s = p ++ skipn (List.length p) s.
Proof.
  revert s. induction p as [|x p IH]; intros s; simpl; [reflexivity|].
  destruct s as [|c s]; [discriminate|].
  rewrite andb_true_iff, Z.eqb_eq. intros [-> H].
  simpl. f_equal. apply IH, H.
Qed.







(** ** Chunks of standard output *)

Lemma split_nonempty (sep : Z) (s : QString) : split sep s <> [].
Proof.
  destruct s as [|c s]; simpl; [discriminate|].
  destruct (c =? sep); [discriminate|].
  destruct (split sep s); discriminate.
Qed.

Lemma split_app_sep (sep : Z) (a b : QString) :
  split sep (a ++ sep :: b) = split sep a ++ split sep b.
Proof.
  induction a as [|c a IH]; simpl.
  - rewrite Z.eqb_refl. reflexivity.
  - destruct (c =? sep); [rewrite IH; reflexivity|].
    rewrite IH. pose proof (split_nonempty sep a) as Hne.
    destruct (split sep a); [contradiction | reflexivity].
Qed.

Lemma lines_app_LF (a b : QString) :
  split_SkipEmptyParts LF (a ++ LF :: b)
  = split_SkipEmptyParts LF a ++ split_SkipEmptyParts LF b.
Proof.
  unfold split_SkipEmptyParts. rewrite split_app_sep. apply filter_app.
Qed.

Lemma lines_LF (a : QString) :
  split_SkipEmptyParts LF (a ++ [LF]) = split_SkipEmptyParts LF a.
Proof. rewrite lines_app_LF. apply app_nil_r. Qed.

Lemma convertToUnicode_cons (b : Z) (src1 : QByteArray) :
  convertToUnicode (b :: src1) =
      if b <? 0x80 then b :: convertToUnicode src1
      else if b <=? 0xC1 then ReplacementCharacter :: convertToUnicode src1
      else if b <? 0xE0 then
        match src1 with
        | c1 :: src2 =>
            let uc := cont (Z.land b 0x1F) c1 in
            if isContinuationByte c1 && acceptable 0x80 uc
            then appendUcs4 uc ++ convertToUnicode src2
            else ReplacementCharacter :: convertToUnicode src1
        | _ => ReplacementCharacter :: convertToUnicode src1
        end
      else if b <? 0xF0 then
        match src1 with
        | c1 :: c2 :: src3 =>
            let uc := cont (cont (Z.land b 0x0F) c1) c2 in
            if isContinuationByte c1 && isContinuationByte c2
               && acceptable 0x800 uc
            then appendUcs4 uc ++ convertToUnicode src3
            else ReplacementCharacter :: convertToUnicode src1
        | _ => ReplacementCharacter :: convertToUnicode src1
        end
      else if b <? 0xF5 then
        match src1 with
        | c1 :: c2 :: c3 :: src4 =>
            let uc := cont (cont (cont (Z.land b 0x07) c1) c2) c3 in
            if isContinuationByte c1 && isContinuationByte c2
               && isContinuationByte c3 && acceptable 0x10000 uc
            then appendUcs4 uc ++ convertToUnicode src4
            else ReplacementCharacter :: convertToUnicode src1
        | _ => ReplacementCharacter :: convertToUnicode src1
        end
      else ReplacementCharacter :: convertToUnicode src1.
Proof. reflexivity. Qed.

(** A newline ends whatever sequence is being decoded: the text before it
    and the text after it are decoded apart. *)
Lemma convertToUnicode_LF (a b : QByteArray) :
  convertToUnicode (a ++ LF :: b)
  = convertToUnicode a ++ LF :: convertToUnicode b.
Proof.
  remember (List.length a) as n eqn:Hn.
  assert (Hle : (List.length a <= n)%nat) by lia. clear Hn.
  revert a Hle. induction n as [|n IH]; intros a Hle.
  - destruct a; [reflexivity | simpl in Hle; lia].
  - destruct a as [|b0 a]; [reflexivity|].
    simpl in Hle.
    assert (IH1 : forall x, (List.length x <= List.length a)%nat ->
              convertToUnicode (x ++ LF :: b)
              = convertToUnicode x ++ LF :: convertToUnicode b)
      by (intros x Hx; apply IH; lia).
    clear IH.
    rewrite <- app_comm_cons, !convertToUnicode_cons.
    destruct (b0 <? 0x80); [decode_case IH1|].
    destruct (b0 <=? 0xC1); [decode_case IH1|].
    destruct (b0 <? 0xE0);
      [destruct a as [|c1 a]; decode_case IH1|].
    destruct (b0 <? 0xF0);
      [destruct a as [|c1 [|c2 a]]; decode_case IH1|].
    destruct (b0 <? 0xF5);
      [destruct a as [|c1 [|c2 [|c3 a]]]; decode_case IH1|].
    decode_case IH1.
Qed.

Lemma convertToUnicode_after_line (c rest : QByteArray) :
  last c 0 = LF ->
  convertToUnicode (c ++ rest) = convertToUnicode c ++ convertToUnicode rest
  /\ exists t, convertToUnicode c = t ++ [LF].
Proof.
  intros Hlast.
  assert (Hne : c <> []) by (intros ->; discriminate Hlast).
  rewrite (app_removelast_last 0 Hne), Hlast, <- app_assoc. cbn [app].
  rewrite !convertToUnicode_LF. cbn [convertToUnicode].
  rewrite <- app_assoc. split; [reflexivity|].
  exists (convertToUnicode (removelast c)). reflexivity.
Qed.

Lemma startsWith_BOM_app (c rest : QByteArray) :
  last c 0 = LF -> startsWith BOM (c ++ rest) = startsWith BOM c.
Proof.
  destruct c as [|x [|y [|z c]]]; cbn [last app].
  - discriminate.
  - intros ->. reflexivity.
  - intros ->. cbn. destruct (239 =? x); reflexivity.
  - intros _. cbn. reflexivity.
Qed.

Lemma fromUtf8_helper_after_line (c rest : QByteArray) :
  last c 0 = LF -> startsWith BOM rest = false ->
  exists t, fromUtf8_helper c = t ++ [LF]
            /\ fromUtf8_helper (c ++ rest) = t ++ LF :: fromUtf8_helper rest.
Proof.
  intros Hlast Hrest. unfold fromUtf8_helper at 3. rewrite Hrest.
  unfold fromUtf8_helper. rewrite (startsWith_BOM_app c rest Hlast).
  destruct (startsWith BOM c) eqn:HB.
  - apply startsWith_app in HB. cbn [List.length BOM] in HB.
    remember (skipn 3 c) as c' eqn:Ec'. clear Ec'. subst c.
    change (skipn 3 (BOM ++ c')) with c'.
    change (skipn 3 ((BOM ++ c') ++ rest)) with (c' ++ rest).
    assert (Hc' : last c' 0 = LF).
    { cbn [BOM app] in Hlast.
      destruct c' as [|w c']; [discriminate Hlast | exact Hlast]. }
    destruct (convertToUnicode_after_line c' rest Hc') as [E [t Ht]].
    exists t. rewrite E, Ht, <- app_assoc. split; reflexivity.
  - destruct (convertToUnicode_after_line c rest Hlast) as [E [t Ht]].
    exists t. rewrite E, Ht, <- app_assoc. split; reflexivity.
Qed.

Lemma qstrn_app (c rest : QByteArray) :
  ~ In 0 c -> qstrn (c ++ rest) = c ++ qstrn rest.
Proof.
  induction c as [|b c IH]; intros Hc; simpl; [reflexivity|].
  destruct (b =? 0) eqn:E.
  - apply Z.eqb_eq in E. exfalso. apply Hc. left. exact E.
  - f_equal. apply IH. intros Hin. apply Hc. right. exact Hin.
Qed.

Lemma qstrn_id (c : QByteArray) : ~ In 0 c -> qstrn c = c.
Proof.
  intros Hc. pose proof (qstrn_app c [] Hc) as H.
  cbn [qstrn] in H. rewrite !app_nil_r in H. exact H.
Qed.

Lemma startsWith_qstrn (p str : QByteArray) :
  startsWith p str = false -> startsWith p (qstrn str) = false.
Proof.
  revert str. induction p as [|x p IH]; intros str; simpl; [trivial|].
  destruct str as [|c str]; simpl; [trivial|].
  destruct (c =? 0); [reflexivity|]. simpl.
  destruct (x =? c); [apply IH | reflexivity].
Qed.

(** A chunk without NUL that ends with a newline is decoded on its own. *)
Lemma fromUtf8_after_line (c rest : QByteArray) :
  last c 0 = LF -> ~ In 0 c -> startsWith BOM rest = false ->
  exists t, fromUtf8 c = t ++ [LF]
            /\ fromUtf8 (c ++ rest) = t ++ LF :: fromUtf8 rest.
Proof.
  intros Hlast Hnul Hrest. unfold fromUtf8.
  rewrite (qstrn_app c rest Hnul), (qstrn_id c Hnul).
  apply fromUtf8_helper_after_line; [assumption|].
  apply startsWith_qstrn, Hrest.
Qed.

Lemma m_process_processLine (s : MainWindow) (line : QString) :
  m_process (processLine s line) = m_process s.
Proof.
  unfold processLine. destruct (startsWith _ _); [|reflexivity].
  destruct (4 <=? _); reflexivity.
Qed.

Lemma m_process_processLines (lines : QStringList) (s : MainWindow) :
  m_process (fold_left processLine lines s) = m_process s.
Proof.
  revert s. induction lines as [|l lines IH]; intros s; simpl; [reflexivity|].
  rewrite IH. apply m_process_processLine.
Qed.

Lemma readProcessOutput_after_line (c rest : QByteArray) (s : MainWindow) :
  last c 0 = LF -> ~ In 0 c -> startsWith BOM rest = false ->
  readProcessOutput (c ++ rest) s
  = readProcessOutput rest (readProcessOutput c s).
Proof.
  intros Hlast Hnul Hrest.
  destruct (fromUtf8_after_line c rest Hlast Hnul Hrest) as (t & Hc & Happ).
  unfold readProcessOutput.
  destruct (m_process s) eqn:Hp.
  - rewrite m_process_processLines, Hp, Happ, Hc.
    rewrite lines_app_LF, lines_LF, fold_left_app. reflexivity.
  - rewrite Hp. reflexivity.
Qed.

Lemma concat_not_BOM (chunks : list QByteArray) :
  Forall (fun c => last c 0 = LF) (removelast chunks) ->
  Forall (fun c => startsWith BOM c = false) chunks ->
  startsWith BOM (concat chunks) = false.
Proof.
  destruct chunks as [|c [|c' chunks]]; intros Hends Hbom.
  - reflexivity.
  - simpl. rewrite app_nil_r. inversion Hbom; assumption.
  - change (concat (c :: c' :: chunks)) with (c ++ concat (c' :: chunks)).
    change (removelast (c :: c' :: chunks))
      with (c :: removelast (c' :: chunks)) in Hends.
    inversion Hends; subst. inversion Hbom; subst.
    rewrite startsWith_BOM_app; assumption.
Qed.

(** C9, as the code has it: the chunks are split into lines one by one, so
    the outcome is that of the whole stream delivered at once when every
    chunk but the last ends with a newline (and holds no NUL, at which the
    decoder stops, and no later chunk starts with a byte order mark, which
    the decoder drops at the start of a chunk). *)
Theorem chunks_cut_at_line_ends (chunks : list QByteArray) (s : MainWindow) :
  Forall (fun c => last c 0 = LF /\ ~ In 0 c) (removelast chunks) ->
  Forall (fun c => startsWith BOM c = false) (tl chunks) ->
  deliver chunks s = deliver [concat chunks] s.
Proof.
  revert s. induction chunks as [|c chunks IH]; intros s Hends Hbom.
  - simpl. unfold readProcessOutput. destruct (m_process s); reflexivity.
  - destruct chunks as [|c' chunks].
    + simpl. rewrite app_nil_r. reflexivity.
    + change (removelast (c :: c' :: chunks))
        with (c :: removelast (c' :: chunks)) in Hends.
      inversion Hends as [|? ? [Hc Hnul] Hends']; subst.
      cbn [tl] in Hbom.
      change (deliver (c :: c' :: chunks) s)
        with (deliver (c' :: chunks) (readProcessOutput c s)).
      rewrite IH; [|assumption | inversion Hbom; assumption].
      change (concat (c :: c' :: chunks)) with (c ++ concat (c' :: chunks)).
      cbn [deliver fold_left].
      symmetry. apply readProcessOutput_after_line; [assumption..|].
      apply concat_not_BOM; [|assumption].
      revert Hends'. apply Forall_impl. intros a [Ha _]. exact Ha.
Qed.

Lemma chunks_cut_at_line_ends_witness :
  deliver [bytes "hello" ++ [LF]; bytes "world" ++ [LF]] Sample.running
  = deliver [concat [bytes "hello" ++ [LF]; bytes "world" ++ [LF]]]
      Sample.running.
Proof.
  apply (chunks_cut_at_line_ends
           [bytes "hello" ++ [LF]; bytes "world" ++ [LF]] Sample.running).
  - repeat constructor. vm_compute. intuition discriminate.
  - repeat constructor.
Defined.

(** C9, as stated, fails when a chunk ends inside a line: the two halves of
    "hello" are logged as two lines, and a status record cut in two is
    lost, its second half being logged. *)
Lemma chunk_boundary_inside_a_line :
  plainTextEdit (deliver [bytes "hel"; bytes "lo" ++ [LF]] Sample.running)
  = plainTextEdit Sample.running ++ lit "hel" ++ [LF] ++ lit "lo" ++ [LF]
  /\ plainTextEdit
       (deliver [concat [bytes "hel"; bytes "lo" ++ [LF]]] Sample.running)
     = plainTextEdit Sample.running ++ lit "hello" ++ [LF]
  /\ deliver [bytes "hel"; bytes "lo" ++ [LF]] Sample.running
     <> deliver [concat [bytes "hel"; bytes "lo" ++ [LF]]] Sample.running
  /\ map statusText
       (fileListTableWidget
          (deliver [bytes "##STATUS##|/a/b.csv|SUCC"; bytes "ESS|done" ++ [LF]]
             Sample.running))
     = [Text.pending]
  /\ map statusText
       (fileListTableWidget
          (deliver
             [concat [bytes "##STATUS##|/a/b.csv|SUCC"; bytes "ESS|done" ++ [LF]]]
             Sample.running))
     = [Text.success].
Proof.
  repeat split; try (vm_compute; reflexivity).
  intros H. apply (f_equal plainTextEdit) in H. vm_compute in H. discriminate H.
Qed.

(** ** What the file list operations leave alone *)

Lemma listOnly_intro (s s' : MainWindow) :
  m_process s' = m_process s ->
  m_isProcessing s' = m_isProcessing s ->
  m_lastSelectedPath s' = m_lastSelectedPath s ->
  m_dontAskOnModeChange s' = m_dontAskOnModeChange s ->
  m_modeChangeDebounceTimer s' = m_modeChangeDebounceTimer s ->
  useDirectoryModeCheckBox s' = useDirectoryModeCheckBox s ->
  inputDirPathLineEdit s' = inputDirPathLineEdit s ->
  outputPathLineEdit s' = outputPathLineEdit s ->
  outputToSourceCheckBox s' = outputToSourceCheckBox s ->
  conflictComboBox s' = conflictComboBox s ->
  plainTextEdit s' = plainTextEdit s ->
  shown s' = shown s ->
  host s' = host s ->
  listOnly s s'.
Proof.
  intros. exists (m_fileList s'), (fileListTableWidget s'), (controls s'),
    (statusBar s').
  destruct s, s'; simpl in *; subst; reflexivity.
Qed.

Lemma listOnly_refl (s : MainWindow) : listOnly s s.
Proof. apply listOnly_intro; reflexivity. Qed.

Lemma listOnly_trans (s1 s2 s3 : MainWindow) :
  listOnly s1 s2 -> listOnly s2 s3 -> listOnly s1 s3.
Proof.
  intros (l & t & c & b & ->) (l' & t' & c' & b' & ->).
  exists l', t', c', b'. reflexivity.
Qed.

Lemma listOnly_addFileToList p s : listOnly s (addFileToList p s).
Proof.
  unfold addFileToList. destruct (contains _ _); [apply listOnly_refl|].
  apply listOnly_intro; reflexivity.
Qed.

Lemma listOnly_addFilesToList files s : listOnly s (addFilesToList files s).
Proof.
  unfold addFilesToList. revert s.
  induction files as [|f files IH]; intros s; simpl; [apply listOnly_refl|].
  eapply listOnly_trans; [apply listOnly_addFileToList | apply IH].
Qed.

Lemma listOnly_scanAndPopulateFiles dirPath scan s :
  listOnly s (scanAndPopulateFiles dirPath scan s).
Proof.
  unfold scanAndPopulateFiles. destruct (_ || _).
  - apply listOnly_intro; reflexivity.
  - match goal with |- listOnly _ (updateActionButtonStates
                         (set_statusBar _ (addFilesToList ?f ?x))) =>
      destruct (listOnly_addFilesToList f x) as (l & t & c & b & ->) end.
    apply listOnly_intro; reflexivity.
Qed.

Lemma listOnly_removeSelected_loop (n : nat) (s : MainWindow) :
  listOnly s (removeSelected_loop n s).
Proof.
  revert s. induction n as [|i IH]; intros s; cbn [removeSelected_loop];
    [apply listOnly_refl|].
  eapply listOnly_trans; [|apply IH].
  destruct (nth_error _ _) as [row|]; [|apply listOnly_refl].
  destruct (checkBox row); [|apply listOnly_refl].
  apply listOnly_intro; reflexivity.
Qed.

Lemma listOnly_dropEvent urls (s : MainWindow) : listOnly s (dropEvent urls s).
Proof.
  unfold dropEvent. destruct (_ || _); [apply listOnly_refl|].
  revert s. induction urls as [|u urls IH]; intros s; cbn [fold_left];
    [apply listOnly_refl|].
  eapply listOnly_trans; [|apply IH].
  destruct u as [|path isDir isFile found]; cbn [dropUrl];
    [apply listOnly_refl|].
  destruct isDir; [apply listOnly_addFilesToList|].
  destruct isFile; [|apply listOnly_refl].
  destruct (_ || _); [apply listOnly_addFileToList | apply listOnly_refl].
Qed.

(** An event of the user other than a click on the start button or on the
    mode check box leaves the session, the log, the dialogs shown and the
    "do not ask again" flag as they are; a click on the mode check box
    leaves the session and the log as they are. *)
Lemma editing_frame (s : MainWindow) (e : Event) :
  isEditing e = true ->
  m_process (handle s e) = m_process s
  /\ m_isProcessing (handle s e) = m_isProcessing s
  /\ host (handle s e) = host s
  /\ plainTextEdit (handle s e) = plainTextEdit s
  /\ (isModeCheckBoxPressed e = false ->
      m_dontAskOnModeChange (handle s e) = m_dontAskOnModeChange s
      /\ shown (handle s e) = shown s).
Proof.
  intros He.
  assert (Hlist : forall s', listOnly s s' ->
            m_process s' = m_process s
            /\ m_isProcessing s' = m_isProcessing s
            /\ host s' = host s
            /\ plainTextEdit s' = plainTextEdit s
            /\ (isModeCheckBoxPressed e = false ->
                m_dontAskOnModeChange s' = m_dontAskOnModeChange s
                /\ shown s' = shown s)).
  { intros s' (l & t & c & b & ->). repeat split. }
  destruct e; try discriminate He; cbn [handle].
  - unfold on_addFilesButton_clicked.
    destruct (negb _); [|apply Hlist, listOnly_refl].
    match goal with |- context [addFilesToList ?f ?x] =>
      destruct (listOnly_addFilesToList f x) as (?l & ?t & ?c & ?b & ->) end.
    repeat split.
  - apply Hlist, listOnly_dropEvent.
  - apply Hlist. unfold on_removeSelectedButton_clicked.
    eapply listOnly_trans; [apply listOnly_removeSelected_loop|].
    apply listOnly_intro; reflexivity.
  - apply Hlist, listOnly_intro; reflexivity.
  - apply Hlist, listOnly_intro; reflexivity.
  - apply Hlist. unfold rowCheckBox_clicked.
    destruct (nth_error _ _); [apply listOnly_intro; reflexivity|].
    apply listOnly_refl.
  - unfold handleModeChangeRequest.
    repeat match goal with
    | |- context [scanAndPopulateFiles ?d ?sc ?x] =>
        destruct (listOnly_scanAndPopulateFiles d sc x)
          as (?l & ?t & ?c & ?b & ->)
    | |- context [if ?c then _ else _] => destruct c
    end; repeat split; discriminate.
  - unfold on_browseInputDirButton_clicked.
    destruct (negb _); [|apply Hlist, listOnly_refl].
    match goal with |- context [scanAndPopulateFiles ?d ?sc ?x] =>
      destruct (listOnly_scanAndPopulateFiles d sc x)
        as (?l & ?t & ?c & ?b & ->) end.
    repeat split.
  - repeat split.
  - apply Hlist, listOnly_scanAndPopulateFiles.
  - apply Hlist, listOnly_scanAndPopulateFiles.
  - unfold on_browseOutputButton_clicked. destruct (negb _); repeat split.
  - repeat split.
  - repeat split.
  - repeat split.
  - repeat split.
Qed.

(** ** The mode switch and its debounce *)

Lemma debounced now answer scan s :
  now - m_modeChangeDebounceTimer s < DEBOUNCE_INTERVAL_MS ->
  handleModeChangeRequest now answer scan s = s.
Proof.
  intros H. unfold handleModeChangeRequest, elapsed.
  apply Z.ltb_lt in H. rewrite H. reflexivity.
Qed.

Lemma accepted_restarts_timer now answer scan s :
  DEBOUNCE_INTERVAL_MS <= now - m_modeChangeDebounceTimer s ->
  m_modeChangeDebounceTimer (handleModeChangeRequest now answer scan s) = now.
Proof.
  intros H. unfold handleModeChangeRequest, elapsed.
  apply Z.ltb_ge in H. rewrite H.
  repeat match goal with
  | |- context [scanAndPopulateFiles ?d ?sc ?x] =>
      destruct (listOnly_scanAndPopulateFiles d sc x) as (?l & ?t & ?c & ?b & ->)
  | |- context [if ?c then _ else _] => destruct c
  end; reflexivity.
Qed.

Lemma accepted_switches_mode now answer scan s :
  DEBOUNCE_INTERVAL_MS <= now - m_modeChangeDebounceTimer s ->
  fileListTableWidget s = [] \/ m_dontAskOnModeChange s = true
    \/ exec_result answer <> 1 ->
  useDirectoryModeCheckBox (handleModeChangeRequest now answer scan s)
  = negb (useDirectoryModeCheckBox s).
Proof.
  intros H Hgo. unfold handleModeChangeRequest, elapsed.
  apply Z.ltb_ge in H. rewrite H.
  assert (Hno : (rowCount (set_m_modeChangeDebounceTimer now s) =? 0) = false ->
                (negb (m_dontAskOnModeChange s)
                 && (exec_result answer =? 1)) = false).
  { intros Hrows. destruct Hgo as [Ht | [Hd | Ha]].
    - apply Z.eqb_neq in Hrows. exfalso. apply Hrows.
      apply (rowCount_zero (set_m_modeChangeDebounceTimer now s)). exact Ht.
    - rewrite Hd. reflexivity.
    - apply Z.eqb_neq in Ha. rewrite Ha. apply andb_false_r. }
  change (useDirectoryModeCheckBox (set_m_modeChangeDebounceTimer now s))
    with (useDirectoryModeCheckBox s).
  destruct (rowCount _ =? 0).
  - destruct (useDirectoryModeCheckBox s); cbn [negb];
      repeat match goal with
      | |- context [scanAndPopulateFiles ?d ?sc ?x] =>
          destruct (listOnly_scanAndPopulateFiles d sc x)
            as (?l & ?t & ?c & ?b & ->)
      end; reflexivity.
  - match goal with |- context [if ?c then _ else _] =>
      change c with (negb (m_dontAskOnModeChange s) && (exec_result answer =? 1))
    end.
    rewrite (Hno eq_refl).
    destruct (useDirectoryModeCheckBox s); cbn [negb];
      repeat match goal with
      | |- context [scanAndPopulateFiles ?d ?sc ?x] =>
          destruct (listOnly_scanAndPopulateFiles d sc x)
            as (?l & ?t & ?c & ?b & ->)
      end; reflexivity.
Qed.

Lemma spaced_requests (reqs : list Request) :
  forall s, spaced (m_modeChangeDebounceTimer s) reqs ->
  forall pre r post, reqs = pre ++ r :: post ->
    m_modeChangeDebounceTimer
      (requestModeToggle (fold_left requestModeToggle pre s) r) = at_ms r
    /\ (notDeclined r (fold_left requestModeToggle pre s) ->
        useDirectoryModeCheckBox
          (requestModeToggle (fold_left requestModeToggle pre s) r)
        = negb (useDirectoryModeCheckBox (fold_left requestModeToggle pre s))).
Proof.
  induction reqs as [|r0 reqs IH]; intros s Hsp pre r post E.
  - destruct pre; discriminate E.
  - destruct Hsp as [H0 Hsp]. destruct pre as [|r1 pre]; simpl in E.
    + injection E as <- _. simpl. split.
      * apply accepted_restarts_timer, H0.
      * apply accepted_switches_mode, H0.
    + injection E as <- E. simpl.
      eapply (IH (requestModeToggle s r0)); [|exact E].
      unfold requestModeToggle. rewrite accepted_restarts_timer; assumption.
Qed.

Lemma timer_listOnly (s s' : MainWindow) :
  listOnly s s' ->
  m_modeChangeDebounceTimer s' = m_modeChangeDebounceTimer s.
Proof. intros (l & t & c & b & ->). reflexivity. Qed.

Lemma timer_processLines (lines : QStringList) (s : MainWindow) :
  m_modeChangeDebounceTimer (fold_left processLine lines s)
  = m_modeChangeDebounceTimer s.
Proof.
  revert s. induction lines as [|l lines IH]; intros s; simpl; [reflexivity|].
  rewrite IH. unfold processLine. destruct (startsWith _ _); [|reflexivity].
  destruct (4 <=? _); reflexivity.
Qed.

(** The constructor starts the timer. *)
Lemma timer_MainWindow_new form h cfg scan now :
  m_modeChangeDebounceTimer (MainWindow_new form h cfg scan now) = now.
Proof. reflexivity. Qed.

(** Nothing but a click on the mode check box restarts it. *)
Lemma timer_handle (s : MainWindow) (e : Event) :
  isModeCheckBoxPressed e = false ->
  m_modeChangeDebounceTimer (handle s e) = m_modeChangeDebounceTimer s.
Proof.
  intros He. destruct e; try discriminate He; cbn [handle].
  - unfold on_addFilesButton_clicked. destruct (negb _); [|reflexivity].
    match goal with |- context [addFilesToList ?f ?x] =>
      destruct (listOnly_addFilesToList f x) as (?l & ?t & ?c & ?b & ->) end.
    reflexivity.
  - apply timer_listOnly, listOnly_dropEvent.
  - apply timer_listOnly. unfold on_removeSelectedButton_clicked.
    eapply listOnly_trans; [apply listOnly_removeSelected_loop|].
    apply listOnly_intro; reflexivity.
  - reflexivity.
  - reflexivity.
  - unfold rowCheckBox_clicked. destruct (nth_error _ _); reflexivity.
  - unfold on_browseInputDirButton_clicked. destruct (negb _); [|reflexivity].
    match goal with |- context [scanAndPopulateFiles ?d ?sc ?x] =>
      destruct (listOnly_scanAndPopulateFiles d sc x)
        as (?l & ?t & ?c & ?b & ->) end.
    reflexivity.
  - reflexivity.
  - apply timer_listOnly, listOnly_scanAndPopulateFiles.
  - apply timer_listOnly, listOnly_scanAndPopulateFiles.
  - unfold on_browseOutputButton_clicked. destruct (negb _); reflexivity.
  - reflexivity.
  - reflexivity.
  - reflexivity.
  - unfold on_startProcessButton_clicked.
    destruct (m_isProcessing s); [destruct (m_process s); reflexivity|].
    destruct (isEmpty _); [reflexivity|]. destruct (_ && _); reflexivity.
  - unfold onProcessStarted. destruct (m_process s); [|reflexivity].
    destruct (negb _); reflexivity.
  - unfold onProcessFinished. destruct (m_process s); [|reflexivity].
    destruct exitStatus; [destruct (exitCode =? 0)|]; reflexivity.
  - unfold onProcessError. destruct error; try reflexivity.
    destruct (m_process s); reflexivity.
  - unfold readProcessOutput. destruct (m_process s); [|reflexivity].
    apply timer_processLines.
  - unfold readProcessError. destruct (m_process s); reflexivity.
  - reflexivity.
Qed.

(** C4, as amended.  The debounce timer is started by the constructor and
    restarted by nothing but a request (a click on the mode check box) that
    passes the debounce.  A request that comes less than 300 ms after the
    timer was last started, that is after the last accepted request or,
    before any, after the opening of the window, leaves the window as it
    is and shows no dialog; of two requests less than 300 ms apart, the
    first of which is accepted, the second changes nothing; and of requests
    at least 300 ms apart, the first of them at least 300 ms after the timer
    was last started, each is accepted: it restarts the timer and, unless
    the user declines, switches the mode. *)
Theorem mode_requests_are_debounced :
  (forall form h cfg scan now,
      m_modeChangeDebounceTimer (MainWindow_new form h cfg scan now) = now)
  /\ (forall s e,
        isModeCheckBoxPressed e = false ->
        m_modeChangeDebounceTimer (handle s e) = m_modeChangeDebounceTimer s)
  /\ (forall now answer scan s,
        now - m_modeChangeDebounceTimer s < 300 ->
        handleModeChangeRequest now answer scan s = s)
  /\ (forall first second s,
        300 <= at_ms first - m_modeChangeDebounceTimer s ->
        at_ms second - at_ms first < 300 ->
        requestModeToggle (requestModeToggle s first) second
        = requestModeToggle s first)
  /\ (forall reqs s,
        spaced (m_modeChangeDebounceTimer s) reqs ->
        forall pre r post, reqs = pre ++ r :: post ->
          let before := fold_left requestModeToggle pre s in
          let after := requestModeToggle before r in
          m_modeChangeDebounceTimer after = at_ms r
          /\ (notDeclined r before ->
              useDirectoryModeCheckBox after
              = negb (useDirectoryModeCheckBox before))).
Proof.
  split; [|split; [|split; [|split]]].
  - apply timer_MainWindow_new.
  - apply timer_handle.
  - intros. apply debounced. assumption.
  - intros first second s H1 H2. unfold requestModeToggle at 1.
    apply debounced.
    unfold requestModeToggle. rewrite accepted_restarts_timer; assumption.
  - intros reqs s Hsp pre r post E. cbv zeta.
    apply (spaced_requests reqs s Hsp pre r post E).
Qed.

Lemma mode_requests_are_debounced_witness :
  requestModeToggle
    (requestModeToggle Sample.idle (Sample.click 1000 Sample.yes))
    (Sample.click 1200 Sample.yes)
  = requestModeToggle Sample.idle (Sample.click 1000 Sample.yes)
  /\ useDirectoryModeCheckBox
       (requestModeToggle
          (fold_left requestModeToggle [Sample.click 1000 Sample.yes] Sample.idle)
          (Sample.click 1300 Sample.yes))
     = negb (useDirectoryModeCheckBox
               (fold_left requestModeToggle [Sample.click 1000 Sample.yes]
                  Sample.idle)).
Proof.
  split.
  - apply (proj1 (proj2 (proj2 (proj2 mode_requests_are_debounced)))).
    + vm_compute. discriminate.
    + vm_compute. reflexivity.
  - refine (proj2 (proj2 (proj2 (proj2 (proj2 mode_requests_are_debounced)))
             [Sample.click 1000 Sample.yes; Sample.click 1300 Sample.yes]
             Sample.idle _ [Sample.click 1000 Sample.yes]
             (Sample.click 1300 Sample.yes) [] eq_refl) _).
    + vm_compute. repeat split; discriminate.
    + right. right. vm_compute. discriminate.
Defined.

(** C4, as stated, fails for the first requests after the window was
    opened (here at clock reading 0, with no file in the list, so that no
    confirmation is asked).  Of the requests at 100 ms and 350 ms, less
    than 300 ms apart, the first changes nothing and the second switches
    the mode: the one change is not the first request's.  Of the requests
    at 100 ms, 400 ms and 700 ms, each 300 ms after the one before, the
    first changes nothing: the mode is switched twice, not three times. *)
Lemma first_request_after_opening :
  m_modeChangeDebounceTimer Sample.opened = 0
  /\ fileListTableWidget Sample.opened = []
  /\ requestModeToggle Sample.opened (Sample.click 100 Sample.yes)
     = Sample.opened
  /\ useDirectoryModeCheckBox
       (fold_left requestModeToggle
          [Sample.click 100 Sample.yes; Sample.click 350 Sample.yes]
          Sample.opened)
     = negb (useDirectoryModeCheckBox Sample.opened)
  /\ useDirectoryModeCheckBox
       (fold_left requestModeToggle
          [Sample.click 100 Sample.yes; Sample.click 400 Sample.yes]
          Sample.opened)
     = negb (useDirectoryModeCheckBox Sample.opened)
  /\ useDirectoryModeCheckBox
       (fold_left requestModeToggle
          [Sample.click 100 Sample.yes; Sample.click 400 Sample.yes;
           Sample.click 700 Sample.yes]
          Sample.opened)
     = useDirectoryModeCheckBox Sample.opened.
Proof.
  split; [|split; [|split; [|split; [|split]]]]; vm_compute; reflexivity.
Qed.

(** C5: with files in the table and the user still to be asked, a request
    answered "no" leaves the mode, the list, every entry of the table and
    the "do not ask again" flag as they were, whether or not the box of the
    dialog was ticked (and whether or not the request passed the
    debounce); the window differs at most by the restarted timer and the
    dialog shown. *)
Theorem declined_mode_change (now : Z) (answer : Confirmation)
  (scan : DirectoryScan) (s : MainWindow) :
  fileListTableWidget s <> [] ->
  m_dontAskOnModeChange s = false ->
  exec_result answer = 1 ->
  let s' := handleModeChangeRequest now answer scan s in
  useDirectoryModeCheckBox s' = useDirectoryModeCheckBox s
  /\ m_fileList s' = m_fileList s
  /\ fileListTableWidget s' = fileListTableWidget s
  /\ m_dontAskOnModeChange s' = false
  /\ (s' = s
      \/ s' = showDialog (Question Text.confirmTitle Text.confirmText)
                (set_m_modeChangeDebounceTimer now s)).
Proof.
  intros Hrows Hask Hno s'. subst s'. unfold handleModeChangeRequest.
  destruct (elapsed now s <? DEBOUNCE_INTERVAL_MS).
  - repeat split; try assumption. left. reflexivity.
  - destruct (rowCount _ =? 0) eqn:E.
    + apply Z.eqb_eq in E. exfalso. apply Hrows.
      apply (rowCount_zero (set_m_modeChangeDebounceTimer now s)), E.
    + cbn [m_dontAskOnModeChange set_m_modeChangeDebounceTimer].
      rewrite Hask, Hno. cbn [negb andb Z.eqb Pos.eqb].
      repeat split; try assumption. right. reflexivity.
Qed.

Lemma declined_mode_change_witness :
  fileListTableWidget
    (handleModeChangeRequest 1000 Sample.no Sample.noDirectory Sample.idle)
  = fileListTableWidget Sample.idle.
Proof.
  refine (proj1 (proj2 (proj2
    (declined_mode_change 1000 Sample.no Sample.noDirectory Sample.idle
       _ _ _)))).
  - vm_compute. discriminate.
  - vm_compute. reflexivity.
  - reflexivity.
Defined.

(** ** Starting, feeding and ending the worker *)

Lemma checkedTasks_filter (s : MainWindow) :
  checkedTasks s = map pathText (filter checkBox (fileListTableWidget s)).
Proof.
  unfold checkedTasks.
  enough (H : forall rows acc,
             fold_left (fun tasks row =>
                          if checkBox row then tasks ++ [pathText row] else tasks)
               rows acc
             = acc ++ map pathText (filter checkBox rows))
    by apply (H _ []).
  induction rows as [|r rows IH]; intros acc; simpl.
  - symmetry. apply app_nil_r.
  - rewrite IH. destruct (checkBox r); [|reflexivity].
    rewrite <- app_assoc. reflexivity.
Qed.

Lemma taskLines_fold (tasks : QStringList) :
  fold_left (fun data task => data ++ (toUtf8 task ++ [LF])) tasks []
  = taskLines tasks.
Proof.
  unfold taskLines.
  enough (H : forall acc,
             fold_left (fun data task => data ++ (toUtf8 task ++ [LF])) tasks acc
             = acc ++ concat (map (fun task => toUtf8 task ++ [LF]) tasks))
    by apply (H []).
  induction tasks as [|t tasks IH]; intros acc; simpl.
  - symmetry. apply app_nil_r.
  - rewrite IH, <- app_assoc. reflexivity.
Qed.

(** The start button starts a session when no session runs, a task is
    checked and the output is known. *)
Lemma start_accepted (s : MainWindow) :
  m_isProcessing s = false ->
  checkedTasks s <> [] ->
  outputToSourceCheckBox s = true \/ outputPathLineEdit s <> [] ->
  exists p,
    on_startProcessButton_clicked s
    = set_m_process (Some p)
        (set_plainTextEdit Text.logStart (updateUiForProcessingState true s))
    /\ property_tasks p = checkedTasks s
    /\ program p = programPath s
    /\ writeChannel p = []
    /\ killed p = false.
Proof.
  intros Hidle Htasks Hout. unfold on_startProcessButton_clicked.
  rewrite Hidle.
  destruct (checkedTasks s) as [|t tasks] eqn:Et; [contradiction|].
  cbn [isEmpty].
  assert (Hno : negb (outputToSourceCheckBox s) && isEmpty (outputPathLineEdit s)
                = false).
  { destruct Hout as [-> | Hout]; [reflexivity|].
    destruct (outputPathLineEdit s); [contradiction|]. apply andb_false_r. }
  rewrite Hno. eexists. split; [reflexivity|]. repeat split.
Qed.

Lemma m_process_listOnly (s s' : MainWindow) :
  listOnly s s' -> m_process s' = m_process s.
Proof. intros (l & t & c & b & ->). reflexivity. Qed.

Lemma m_process_removeSelected_loop (n : nat) (s : MainWindow) :
  m_process (removeSelected_loop n s) = m_process s.
Proof.
  revert s. induction n as [|i IH]; intros s; simpl; [reflexivity|].
  rewrite IH. destruct (nth_error _ _) as [row|]; [|reflexivity].
  destruct (checkBox row); reflexivity.
Qed.

Lemma m_process_handleModeChangeRequest now answer scan (s : MainWindow) :
  m_process (handleModeChangeRequest now answer scan s) = m_process s.
Proof.
  unfold handleModeChangeRequest.
  repeat match goal with
  | |- context [scanAndPopulateFiles ?d ?sc ?x] =>
      destruct (listOnly_scanAndPopulateFiles d sc x) as (?l & ?t & ?c & ?b & ->)
  | |- context [if ?c then _ else _] => destruct c
  end; reflexivity.
Qed.

Lemma untouchedChannel_handle (s : MainWindow) (e : Event) :
  isProcessStarted e = false ->
  untouchedChannel s -> untouchedChannel (handle s e).
Proof.
  intros He Hs.
  assert (Hsame : forall s', m_process s' = m_process s -> untouchedChannel s')
    by (intros s' E p; rewrite E; apply Hs).
  destruct e; try discriminate He; cbn [handle].
  - apply Hsame. unfold on_addFilesButton_clicked.
    destruct (negb _); [|reflexivity].
    rewrite (m_process_listOnly _ _ (listOnly_addFilesToList _ _)). reflexivity.
  - apply Hsame. unfold dropEvent. destruct (_ || _); [reflexivity|].
    clear. revert s. induction urls as [|u urls IH]; intros s; simpl;
      [reflexivity|].
    rewrite IH. destruct u as [|path isDir isFile found]; simpl; [reflexivity|].
    destruct isDir;
      [apply m_process_listOnly, listOnly_addFilesToList|].
    destruct isFile; [|reflexivity].
    destruct (_ || _); [|reflexivity].
    apply m_process_listOnly, listOnly_addFileToList.
  - apply Hsame. unfold on_removeSelectedButton_clicked.
    cbn [m_process updateActionButtonStates set_controls].
    apply m_process_removeSelected_loop.
  - apply Hsame. reflexivity.
  - apply Hsame. reflexivity.
  - apply Hsame. unfold rowCheckBox_clicked.
    destruct (nth_error _ _); reflexivity.
  - apply Hsame, m_process_handleModeChangeRequest.
  - apply Hsame. unfold on_browseInputDirButton_clicked.
    destruct (negb _); [|reflexivity].
    rewrite (m_process_listOnly _ _ (listOnly_scanAndPopulateFiles _ _ _)).
    reflexivity.
  - apply Hsame. reflexivity.
  - apply Hsame, m_process_listOnly, listOnly_scanAndPopulateFiles.
  - apply Hsame, m_process_listOnly, listOnly_scanAndPopulateFiles.
  - apply Hsame. unfold on_browseOutputButton_clicked.
    destruct (negb _); reflexivity.
  - apply Hsame. reflexivity.
  - apply Hsame. reflexivity.
  - apply Hsame. reflexivity.
  - unfold on_startProcessButton_clicked.
    destruct (m_isProcessing s).
    + destruct (m_process s) as [p0|] eqn:Ep; [|assumption].
      intros p. cbn. intros E. injection E as <-. cbn. apply Hs, Ep.
    + destruct (isEmpty (checkedTasks s)); [apply Hsame; reflexivity|].
      destruct (_ && _); [apply Hsame; reflexivity|].
      intros p. cbn. intros E. injection E as <-. reflexivity.
  - unfold onProcessFinished. destruct (m_process s); [|assumption].
    intros p. cbn. discriminate.
  - unfold onProcessError. destruct error; try assumption.
    destruct (m_process s); [|assumption].
    intros p. cbn. discriminate.
  - apply Hsame. unfold readProcessOutput.
    destruct (m_process s) eqn:Ep; [|assumption].
    rewrite m_process_processLines. assumption.
  - apply Hsame. unfold readProcessError.
    destruct (m_process s) eqn:Ep; exact Ep.
  - apply Hsame. reflexivity.
Qed.

Lemma untouchedChannel_run (events : list Event) (s : MainWindow) :
  forallb (fun e => negb (isProcessStarted e)) events = true ->
  untouchedChannel s -> untouchedChannel (run events s).
Proof.
  unfold run. revert s.
  induction events as [|e events IH]; intros s He Hs; simpl; [assumption|].
  simpl in He. apply andb_true_iff in He as [He Hes].
  apply IH; [assumption|]. apply untouchedChannel_handle; [|assumption].
  destruct (isProcessStarted e); [discriminate He | reflexivity].
Qed.

(** *** The bytes of a path *)

Lemma lor_add (q n x : Z) :
  0 <= n -> 0 <= x < 2 ^ n -> Z.lor (q * 2 ^ n) x = q * 2 ^ n + x.
Proof.
  intros Hn Hx.
  assert (H0 : Z.land (q * 2 ^ n) x = 0).
  { apply Z.bits_inj'. intros i Hi. rewrite Z.land_spec, Z.bits_0.
    destruct (Z.lt_ge_cases i n) as [Hlt | Hge].
    - rewrite Z.mul_pow2_bits_low by lia. reflexivity.
    - rewrite <- (Z.mod_small x (2 ^ n)) by lia.
      rewrite Z.mod_pow2_bits_high by lia. apply andb_false_r. }
  rewrite <- Z.lxor_lor by exact H0.
  symmetry. apply Z.add_nocarry_lxor. exact H0.
Qed.

(** A continuation byte: the mark 10 and six bits. *)
Lemma continuation_byte (y : Z) :
  Z.lor 0x80 (Z.land y 0x3F) = 0x80 + y mod 0x40.
Proof.
  replace (Z.land y 0x3F) with (y mod 0x40)
    by (symmetry; exact (Z.land_ones y 6 ltac:(lia))).
  apply (lor_add 2 6); [lia|]. apply (Z.mod_pos_bound y 0x40). lia.
Qed.

Lemma shiftr_6 (u : Z) : Z.shiftr u 6 = u / 0x40.
Proof. exact (Z.shiftr_div_pow2 u 6 ltac:(lia)). Qed.

Lemma shiftr_12 (u : Z) : Z.shiftr u 12 = u / 0x1000.
Proof. exact (Z.shiftr_div_pow2 u 12 ltac:(lia)). Qed.

Lemma shiftr_18 (u : Z) : Z.shiftr u 18 = u / 0x40000.
Proof. exact (Z.shiftr_div_pow2 u 18 ltac:(lia)). Qed.

(** The first byte of a sequence of two, three and four bytes. *)
Lemma leading_byte_2 (u : Z) :
  0 <= u < 0x800 -> Z.lor 0xC0 (Z.shiftr u 6) = 0xC0 + u / 0x40.
Proof.
  intros H. rewrite shiftr_6. apply (lor_add 6 5); [lia|].
  split; [apply Z.div_pos; lia | apply Z.div_lt_upper_bound; lia].
Qed.

Lemma leading_byte_3 (u : Z) :
  0 <= u < 0x10000 -> Z.lor 0xE0 (Z.shiftr u 12) = 0xE0 + u / 0x1000.
Proof.
  intros H. rewrite shiftr_12. apply (lor_add 14 4); [lia|].
  split; [apply Z.div_pos; lia | apply Z.div_lt_upper_bound; lia].
Qed.

Lemma leading_byte_4 (u : Z) :
  0 <= u < 0x200000 -> Z.lor 0xF0 (Z.shiftr u 18) = 0xF0 + u / 0x40000.
Proof.
  intros H. rewrite shiftr_18. apply (lor_add 30 3); [lia|].
  split; [apply Z.div_pos; lia | apply Z.div_lt_upper_bound; lia].
Qed.

Lemma spec_codePoints_cons (u : Z) (s1 : QString) :
  isHighSurrogate u = false ->
  spec_codePoints (u :: s1) = u :: spec_codePoints s1.
Proof.
  intros H. cbn [spec_codePoints]. destruct s1; [reflexivity|].
  rewrite H. reflexivity.
Qed.

(** On well-formed text, [toUtf8] is the encoding of RFC 3629. *)
Lemma toUtf8_spec (s : QString) :
  wellFormedUtf16 s = true ->
  toUtf8 s = concat (map spec_utf8 (spec_codePoints s)).
Proof.
  remember (List.length s) as n eqn:Hn.
  assert (Hle : (List.length s <= n)%nat) by lia. clear Hn.
  revert s Hle. induction n as [|n IH]; intros s Hle Hs.
  - destruct s; [reflexivity | simpl in Hle; lia].
  - destruct s as [|u s1]; [reflexivity|]. simpl in Hle.
    cbn [wellFormedUtf16] in Hs.
    apply andb_true_iff in Hs as [Hu Hs].
    apply andb_true_iff in Hu as [Hu0 Hu16].
    apply Z.leb_le in Hu0, Hu16.
    destruct (isSurrogate u) eqn:Es.
    + destruct s1 as [|l s2]; [discriminate Hs|].
      apply andb_true_iff in Hs as [Hp Hs2].
      apply andb_true_iff in Hp as [Hh Hl].
      cbn [toUtf8 spec_codePoints]. rewrite Hh, Hl, Es. cbn [andb negb].
      cbv zeta.
      unfold isHighSurrogate in Hh. unfold isLowSurrogate in Hl.
      apply andb_true_iff in Hh as [Hh1 Hh2].
      apply andb_true_iff in Hl as [Hl1 Hl2].
      apply Z.leb_le in Hh1, Hh2, Hl1, Hl2.
      replace (u <? 0x80) with false by (symmetry; apply Z.ltb_ge; lia).
      replace (u <? 0x800) with false by (symmetry; apply Z.ltb_ge; lia).
      replace (Z.shiftl (u - 0xD800) 10 + (l - 0xDC00) + 0x10000)
        with (0x10000 + (u - 0xD800) * 0x400 + (l - 0xDC00))
        by (rewrite Z.shiftl_mul_pow2 by lia; change (2 ^ 10) with 0x400; lia).
      set (c := 0x10000 + (u - 0xD800) * 0x400 + (l - 0xDC00)).
      assert (Hc : 0x10000 <= c < 0x110000) by (subst c; lia).
      cbn [map concat]. rewrite (IH s2) by (simpl in Hle; lia || exact Hs2).
      generalize (concat (map spec_utf8 (spec_codePoints s2))) as rest.
      intros rest. unfold spec_utf8.
      replace (c <? 0x80) with false by (symmetry; apply Z.ltb_ge; lia).
      replace (c <? 0x800) with false by (symmetry; apply Z.ltb_ge; lia).
      replace (c <? 0x10000) with false by (symmetry; apply Z.ltb_ge; lia).
      rewrite leading_byte_4 by lia.
      rewrite !continuation_byte, shiftr_12, shiftr_6. reflexivity.
    + assert (Hh : isHighSurrogate u = false).
      { unfold isSurrogate in Es. unfold isHighSurrogate.
        apply andb_false_iff in Es as [E | E]; [rewrite E; reflexivity|].
        apply Z.leb_gt in E. apply andb_false_iff. right. apply Z.leb_gt. lia. }
      rewrite (spec_codePoints_cons u s1 Hh). cbn [toUtf8 map concat].
      rewrite Es. cbn [negb]. rewrite (IH s1) by (lia || exact Hs).
      generalize (concat (map spec_utf8 (spec_codePoints s1))) as rest.
      intros rest. unfold spec_utf8.
      destruct (u <? 0x80) eqn:E1; [reflexivity|].
      apply Z.ltb_ge in E1.
      destruct (u <? 0x800) eqn:E2.
      * apply Z.ltb_lt in E2.
        rewrite leading_byte_2, continuation_byte by lia. reflexivity.
      * replace (u <? 0x10000) with true by (symmetry; apply Z.ltb_lt; lia).
        rewrite leading_byte_3 by lia.
        rewrite !continuation_byte, shiftr_6. reflexivity.
Qed.

(** *** The write *)

Lemma m_isProcessing_processLines (lines : QStringList) (s : MainWindow) :
  m_isProcessing (fold_left processLine lines s) = m_isProcessing s.
Proof.
  revert s. induction lines as [|l lines IH]; intros s; simpl; [reflexivity|].
  rewrite IH. unfold processLine. destruct (startsWith _ _); [|reflexivity].
  destruct (4 <=? _); reflexivity.
Qed.

(** Until the started signal comes, or the session ends, the process keeps
    its tasks and nothing is written to it. *)
Lemma awaitsStarted_handle (tasks : QStringList) (s : MainWindow) (e : Event) :
  keepsSession e = true ->
  awaitsStarted tasks s -> awaitsStarted tasks (handle s e).
Proof.
  intros He (Hi & p & Hp & Ht & Hw).
  assert (Hsame : forall s', m_process s' = m_process s ->
            m_isProcessing s' = m_isProcessing s -> awaitsStarted tasks s').
  { intros s' Ep Ei. split; [rewrite Ei; exact Hi|].
    exists p. rewrite Ep. repeat split; assumption. }
  destruct (isEditing e) eqn:Ee.
  - destruct (editing_frame s e Ee) as (Ep & Ei & _). apply Hsame; assumption.
  - destruct e; try discriminate Ee; try discriminate He; cbn [handle].
    + unfold on_startProcessButton_clicked. rewrite Hi, Hp.
      split; [exact Hi|]. exists (kill p). repeat split; assumption.
    + unfold onProcessError. destruct error; try discriminate He;
        apply Hsame; reflexivity.
    + unfold readProcessOutput. rewrite Hp. apply Hsame.
      * apply m_process_processLines.
      * apply m_isProcessing_processLines.
    + unfold readProcessError. rewrite Hp. apply Hsame; reflexivity.
Qed.

Lemma awaitsStarted_run (tasks : QStringList) (events : list Event)
  (s : MainWindow) :
  forallb keepsSession events = true ->
  awaitsStarted tasks s -> awaitsStarted tasks (run events s).
Proof.
  unfold run. revert s.
  induction events as [|e events IH]; intros s He Hs; simpl; [assumption|].
  simpl in He. apply andb_true_iff in He as [He Hes].
  apply IH; [assumption|]. apply awaitsStarted_handle; assumption.
Qed.

(** C2, as amended.  A start that is accepted hands the checked paths, as
    they stand in the path column and in row order, to a new process and
    writes nothing; nothing is written, and nothing closed, on whatever
    happens before the started signal; whenever the started signal comes
    while the session lasts, its slot writes the paths in that order, each
    encoded by [toUtf8] and followed by a newline, in one piece, and closes
    the channel right after; and [toUtf8] of a well-formed text is its
    UTF-8 encoding. *)
Theorem task_list_is_written_on_started (s : MainWindow) :
  m_isProcessing s = false ->
  checkedTasks s <> [] ->
  outputToSourceCheckBox s = true \/ outputPathLineEdit s <> [] ->
  let tasks := map pathText (filter checkBox (fileListTableWidget s)) in
  let started := on_startProcessButton_clicked s in
  (exists p,
      m_process started = Some p
      /\ property_tasks p = tasks
      /\ writeChannel p = [])
  /\ (forall events p',
        forallb (fun e => negb (isProcessStarted e)) events = true ->
        m_process (run events started) = Some p' ->
        writeChannel p' = [])
  /\ (forall events,
        forallb keepsSession events = true ->
        exists p',
          m_process (onProcessStarted (run events started)) = Some p'
          /\ property_tasks p' = tasks
          /\ writeChannel p'
             = [Write (concat (map (fun task => toUtf8 task ++ [LF]) tasks));
                CloseWriteChannel])
  /\ (forall task,
        wellFormedUtf16 task = true ->
        toUtf8 task = concat (map spec_utf8 (spec_codePoints task))).
Proof.
  intros Hidle Htasks Hout tasks started. subst tasks started.
  destruct (start_accepted s Hidle Htasks Hout)
    as (p & Hs & Hp & _ & Hw & _).
  rewrite <- checkedTasks_filter. rewrite Hs.
  split; [exists p; repeat split; assumption|].
  split; [|split; [|exact toUtf8_spec]].
  - intros events p' He Hp'.
    refine (untouchedChannel_run events _ He _ p' Hp').
    intros q. cbn. intros E. injection E as <-. assumption.
  - intros events He.
    assert (Hw0 : awaitsStarted (checkedTasks s)
                    (set_m_process (Some p)
                       (set_plainTextEdit Text.logStart
                          (updateUiForProcessingState true s)))).
    { split; [reflexivity|]. exists p. repeat split; assumption. }
    destruct (awaitsStarted_run _ events _ He Hw0) as (_ & q & Hq & Ht & Hqw).
    unfold onProcessStarted. rewrite Hq, Ht.
    destruct (checkedTasks s) as [|t tasks] eqn:Et; [contradiction|].
    cbn [isEmpty negb]. eexists. split; [reflexivity|].
    cbn [property_tasks writeChannel channel].
    rewrite Ht, Hqw, taskLines_fold. split; reflexivity.
Qed.

Lemma task_list_is_written_on_started_witness :
  exists p',
    m_process
      (onProcessStarted
         (run [RowCheckBoxClicked 0; ReadyReadStandardError (lit "loading")]
            (on_startProcessButton_clicked Sample.two)))
    = Some p'
    /\ writeChannel p'
       = [Write (bytes "/a/b.csv" ++ [LF] ++ bytes "/数据/销售.xlsx" ++ [LF]);
          CloseWriteChannel].
Proof.
  assert (H1 : m_isProcessing Sample.two = false) by (vm_compute; reflexivity).
  assert (H2 : checkedTasks Sample.two <> []) by (vm_compute; discriminate).
  assert (H3 : outputToSourceCheckBox Sample.two = true
               \/ outputPathLineEdit Sample.two <> [])
    by (left; vm_compute; reflexivity).
  destruct (task_list_is_written_on_started Sample.two H1 H2 H3)
    as (_ & _ & Hwrite & _).
  destruct (Hwrite [RowCheckBoxClicked 0;
                    ReadyReadStandardError (lit "loading")] eq_refl)
    as (p' & Hp' & _ & Hw).
  exists p'. split; [exact Hp'|]. rewrite Hw. vm_compute. reflexivity.
Defined.

(** C2, as stated, fails on the word "absolute": nothing between the
    traversal of the directory and the write makes a path absolute.  In a
    window opened in directory mode on the directory "data" of config.ini,
    the traversal yields "data/x.csv", and that is the line the worker is
    sent. *)
Lemma relative_path_is_written :
  map pathText (fileListTableWidget Sample.relative) = [lit "data/x.csv"]
  /\ option_map writeChannel
       (m_process (run [StartProcessClicked; ProcessStarted] Sample.relative))
     = Some [Write (bytes "data/x.csv" ++ [LF]); CloseWriteChannel]
  /\ isAbsolutePath (lit "data/x.csv") = false
  /\ isAbsolutePath Sample.a_b_csv = true
  /\ isAbsolutePath (lit "C:/Users/u/x.csv") = true.
Proof.
  split; [|split; [|split; [|split]]]; vm_compute; reflexivity.
Qed.

(** C3: with no session running, a click on the start button with no task
    checked, or with neither output to the source directory nor an output
    directory, shows a warning and does nothing else: no process, no lock,
    the same list, table, mode and session state. *)
Theorem start_is_refused (s : MainWindow) :
  m_isProcessing s = false ->
  filter checkBox (fileListTableWidget s) = []
  \/ (outputToSourceCheckBox s = false /\ outputPathLineEdit s = []) ->
  exists title text,
    on_startProcessButton_clicked s = showDialog (Warning title text) s
    /\ shown (on_startProcessButton_clicked s)
       = shown s ++ [Warning title text]
    /\ m_process (on_startProcessButton_clicked s) = m_process s
    /\ m_isProcessing (on_startProcessButton_clicked s) = false
    /\ controls (on_startProcessButton_clicked s) = controls s
    /\ m_fileList (on_startProcessButton_clicked s) = m_fileList s
    /\ fileListTableWidget (on_startProcessButton_clicked s)
       = fileListTableWidget s
    /\ useDirectoryModeCheckBox (on_startProcessButton_clicked s)
       = useDirectoryModeCheckBox s.
Proof.
  intros Hidle Hbad.
  assert (H : exists title text,
             on_startProcessButton_clicked s = showDialog (Warning title text) s).
  { unfold on_startProcessButton_clicked. rewrite Hidle.
    rewrite checkedTasks_filter.
    destruct (isEmpty (map pathText (filter checkBox (fileListTableWidget s))))
      eqn:Et; [eexists _, _; reflexivity|].
    destruct Hbad as [Hnone | [Hsrc Hdir]].
    - rewrite Hnone in Et. discriminate Et.
    - rewrite Hsrc, Hdir. eexists _, _; reflexivity. }
  destruct H as (title & text & ->). exists title, text.
  repeat split; assumption.
Qed.

Lemma start_is_refused_witness :
  exists title text,
    on_startProcessButton_clicked Sample.idle
    = showDialog (Warning title text) Sample.idle.
Proof.
  destruct (start_is_refused Sample.idle) as (title & text & H & _).
  - vm_compute. reflexivity.
  - right. split; vm_compute; reflexivity.
  - exists title, text. exact H.
Defined.

Lemma unlocked_updateUiForProcessingState (s : MainWindow) :
  unlocked (updateUiForProcessingState false s).
Proof.
  unfold unlocked, updateUiForProcessingState; cbn.
  repeat split; try (destruct (useDirectoryModeCheckBox s); reflexivity).
  all: match goal with H : outputToSourceCheckBox _ = false |- _ => rewrite H end;
    reflexivity.
Qed.

Lemma unlocked_released (s : MainWindow) :
  unlocked s -> unlocked (set_m_process None s).
Proof. trivial. Qed.

(** C6: when the process ends with [CrashExit] (the way a kill ends it), the
    status bar and the log say "cancelled", in words other than those of a
    failure, and no dialog is shown; the table keeps its rows, each with its
    check box, tool tip, file name and path; a row whose status reads
    "processing" reads "cancelled" afterwards, which is another text, so
    that no row reads "processing" any more; every other row keeps its
    status; the controls are unlocked and the process handle is null. *)
Theorem abnormal_exit_is_a_cancellation (exitCode : Z) (s : MainWindow)
  (p : QProcess) :
  m_process s = Some p ->
  let s' := onProcessFinished exitCode CrashExit s in
  statusBar s' = Text.barCancelled
  /\ plainTextEdit s' = appendPlainText Text.logCancelled (plainTextEdit s)
  /\ Text.barCancelled <> Text.barFailure
  /\ Text.logCancelled <> Text.logFailure
  /\ shown s' = shown s
  /\ List.length (fileListTableWidget s') = List.length (fileListTableWidget s)
  /\ (forall i r, nth_error (fileListTableWidget s) i = Some r ->
        exists r', nth_error (fileListTableWidget s') i = Some r'
          /\ checkBox r' = checkBox r
          /\ statusToolTip r' = statusToolTip r
          /\ fileNameText r' = fileNameText r
          /\ pathText r' = pathText r
          /\ (statusText r = Text.processing -> statusText r' = Text.cancelled)
          /\ (statusText r <> Text.processing -> statusText r' = statusText r))
  /\ Text.cancelled <> Text.processing
  /\ (forall r', In r' (fileListTableWidget s') ->
        statusText r' <> Text.processing)
  /\ unlocked s'
  /\ m_process s' = None.
Proof.
  intros Hp s'. subst s'. unfold onProcessFinished. rewrite Hp.
  assert (Hne : Text.cancelled <> Text.processing) by discriminate.
  split; [reflexivity|]. split; [reflexivity|].
  split; [discriminate|]. split; [discriminate|].
  split; [reflexivity|].
  split; [cbn; apply length_map|].
  split; [|split; [exact Hne|split; [|split; [|reflexivity]]]].
  - intros i r Hr. cbn. rewrite nth_error_map, Hr. cbn.
    eexists. split; [reflexivity|]. unfold cancelIfProcessing.
    destruct (eqb (statusText r) Text.processing) eqn:E.
    + repeat (split; [reflexivity|]).
      apply eqb_eq in E. intros Hn. contradiction.
    + repeat (split; [reflexivity|]). split; [|reflexivity].
      apply eqb_neq in E. intros He. contradiction.
  - intros r' Hr'. cbn in Hr'. apply in_map_iff in Hr' as (r & <- & _).
    unfold cancelIfProcessing.
    destruct (eqb (statusText r) Text.processing) eqn:E.
    + exact Hne.
    + apply eqb_neq in E. exact E.
  - apply unlocked_released, unlocked_updateUiForProcessingState.
Qed.

Lemma abnormal_exit_is_a_cancellation_witness :
  map statusText (fileListTableWidget Sample.working)
  = [Text.success; Text.processing]
  /\ exists r',
       nth_error
         (fileListTableWidget (onProcessFinished 62097 CrashExit Sample.working))
         1
       = Some r'
       /\ statusText r' = Text.cancelled
       /\ pathText r' = Sample.sales_xlsx.
Proof.
  split; [vm_compute; reflexivity|].
  assert (Hp : exists p, m_process Sample.working = Some p)
    by (vm_compute; eexists; reflexivity).
  destruct Hp as (p & Hp).
  assert (Hr : exists r, nth_error (fileListTableWidget Sample.working) 1 = Some r
                         /\ statusText r = Text.processing
                         /\ pathText r = Sample.sales_xlsx)
    by (vm_compute; eexists; repeat split).
  destruct Hr as (r & Hr & Hst & Hpath).
  destruct (abnormal_exit_is_a_cancellation 62097 Sample.working p Hp)
    as (_ & _ & _ & _ & _ & _ & Hrows & _).
  destruct (Hrows 1%nat r Hr) as (r' & Hr' & _ & _ & _ & Hp' & Hc & _).
  exists r'. split; [exact Hr'|]. split; [exact (Hc Hst)|].
  rewrite Hp'. exact Hpath.
Defined.

Lemma startsWith_app_l (p a b : QString) :
  startsWith p a = true -> startsWith p (a ++ b) = true.
Proof.
  revert a. induction p as [|x p IH]; intros a; simpl; [reflexivity|].
  destruct a as [|c a]; [discriminate|]. simpl.
  rewrite !andb_true_iff. intros [-> H]. split; [reflexivity | apply IH, H].
Qed.

(** C7, what the code does: the program launched is
    backend_engine\backend_engine.exe under the application directory; on
    [FailedToStart] a critical dialog is shown whose text names
    'main_processor.exe' and nowhere 'backend_engine.exe'; the controls are
    unlocked and the handle is null; any other error leaves the window as
    it is. *)
Theorem start_failure_dialog (s : MainWindow) :
  m_isProcessing s = false ->
  checkedTasks s <> [] ->
  outputToSourceCheckBox s = true \/ outputPathLineEdit s <> [] ->
  let started := on_startProcessButton_clicked s in
  let failed := onProcessError FailedToStart started in
  (exists p, m_process started = Some p
             /\ program p
                = toNativeSeparators
                    (applicationDirPath (host s)
                       ++ lit "/backend_engine/backend_engine.exe")
             /\ endsWith (lit "backend_engine.exe") (program p) = true)
  /\ shown failed
     = shown s ++ [Critical Text.startFailedTitle Text.startFailedText]
  /\ containsSubstring Text.startFailedText (lit "backend_engine.exe") = false
  /\ containsSubstring Text.startFailedText (lit "main_processor.exe") = true
  /\ unlocked failed
  /\ m_process failed = None
  /\ (forall error, error <> FailedToStart ->
        onProcessError error started = started).
Proof.
  intros Hidle Htasks Hout started failed. subst failed started.
  destruct (start_accepted s Hidle Htasks Hout)
    as (p & -> & _ & Hprog & _ & _).
  split; [|split; [|split; [|split; [|split; [|split]]]]].
  - exists p. split; [reflexivity|]. split; [exact Hprog|].
    rewrite Hprog. unfold programPath, toNativeSeparators, endsWith.
    rewrite map_app, rev_app_distr. apply startsWith_app_l.
    vm_compute. reflexivity.
  - reflexivity.
  - vm_compute. reflexivity.
  - vm_compute. reflexivity.
  - unfold onProcessError. cbn [m_process set_m_process].
    apply unlocked_released, unlocked_updateUiForProcessingState.
  - reflexivity.
  - intros error Herr. destruct error; try reflexivity. contradiction.
Qed.

Lemma start_failure_dialog_witness :
  shown (onProcessError FailedToStart
           (on_startProcessButton_clicked Sample.ready))
  = shown Sample.ready
      ++ [Critical Text.startFailedTitle Text.startFailedText].
Proof.
  refine (proj1 (proj2 (start_failure_dialog Sample.ready _ _ _))).
  - vm_compute. reflexivity.
  - vm_compute. discriminate.
  - left. vm_compute. reflexivity.
Defined.


(* ------------------------------------------------------------------ *)
(** * More properties of the class *)

(** ** Records *)

Lemma MainWindow_ext (s s' : MainWindow) :
  m_process s = m_process s' ->
  m_isProcessing s = m_isProcessing s' ->
  m_fileList s = m_fileList s' ->
  m_lastSelectedPath s = m_lastSelectedPath s' ->
  m_dontAskOnModeChange s = m_dontAskOnModeChange s' ->
  m_modeChangeDebounceTimer s = m_modeChangeDebounceTimer s' ->
  fileListTableWidget s = fileListTableWidget s' ->
  useDirectoryModeCheckBox s = useDirectoryModeCheckBox s' ->
  inputDirPathLineEdit s = inputDirPathLineEdit s' ->
  outputPathLineEdit s = outputPathLineEdit s' ->
  outputToSourceCheckBox s = outputToSourceCheckBox s' ->
  conflictComboBox s = conflictComboBox s' ->
  plainTextEdit s = plainTextEdit s' ->
  statusBar s = statusBar s' ->
  controls s = controls s' ->
  shown s = shown s' ->
  host s = host s' ->
  s = s'.
Proof. destruct s, s'; simpl; intros; subst; reflexivity. Qed.

Lemma Row_eta (r : Row) :
  {| checkBox := checkBox r; statusText := statusText r;
     statusToolTip := statusToolTip r; fileNameText := fileNameText r;
     pathText := pathText r |} = r.
Proof. destruct r; reflexivity. Qed.

Lemma controls_updateActionButtonStates (s : MainWindow) :
  controls (updateActionButtonStates s)
  = actionButtons (0 <? rowCount s) (controls s).
Proof. reflexivity. Qed.

Lemma actionButtons_twice b b' c :
  actionButtons b (actionButtons b' c) = actionButtons b c.
Proof. reflexivity. Qed.

(** ** Selection *)

Lemma checkedTasks_of_table (s : MainWindow) (rows : list Row) :
  checkedTasks (set_fileListTableWidget rows s)
  = map pathText (filter checkBox rows).
Proof. apply (checkedTasks_filter (set_fileListTableWidget rows s)). Qed.

(** The loop of the remove button, seen from the row it has reached: the
    rows above are filtered, the rows below are as they were. *)
Lemma removeSelected_loop_table (above below : list Row) (s : MainWindow) :
  fileListTableWidget s = above ++ below ->
  fileListTableWidget (removeSelected_loop (List.length above) s)
  = filter unchecked above ++ below.
Proof.
  revert below s. induction above as [|r above IH] using rev_ind;
    intros below s Ht; [exact Ht|].
  rewrite length_app, Nat.add_comm. cbn [List.length Nat.add removeSelected_loop].
  assert (Hr : nth_error (fileListTableWidget s) (List.length above) = Some r).
  { rewrite Ht, <- app_assoc. rewrite nth_error_app2 by lia.
    rewrite Nat.sub_diag. reflexivity. }
  rewrite Hr, filter_app. cbn [filter]. unfold unchecked at 2.
  destruct (checkBox r); cbn [negb].
  - rewrite app_nil_r. apply IH. cbn.
    rewrite Ht, <- app_assoc. unfold removeRow.
    rewrite firstn_app, Nat.sub_diag, firstn_all, firstn_O, app_nil_r.
    change (S (List.length above)) with (1 + List.length above)%nat.
    rewrite <- skipn_skipn, skipn_app, Nat.sub_diag, skipn_all. reflexivity.
  - rewrite <- app_assoc. apply IH. rewrite Ht, <- app_assoc. reflexivity.
Qed.

(** X1: the remove button deletes the rows whose check box is set and no
    other: the rows that stay are the unchecked ones, in their order and as
    they were.  When the list mirrored the table without duplicates, it
    mirrors what stays; nothing is left to process. *)
Theorem removeSelected_keeps_unchecked (s : MainWindow) :
  fileListTableWidget (on_removeSelectedButton_clicked s)
  = filter unchecked (fileListTableWidget s)
  /\ checkedTasks (on_removeSelectedButton_clicked s) = []
  /\ (consistent s ->
      m_fileList (on_removeSelectedButton_clicked s)
      = map pathText (filter unchecked (fileListTableWidget s))).
Proof.
  assert (Ht : fileListTableWidget (on_removeSelectedButton_clicked s)
               = filter unchecked (fileListTableWidget s)).
  { unfold on_removeSelectedButton_clicked.
    cbn [fileListTableWidget updateActionButtonStates set_controls].
    rewrite (removeSelected_loop_table (fileListTableWidget s) [] s)
      by (symmetry; apply app_nil_r).
    apply app_nil_r. }
  split; [exact Ht|]. split.
  - rewrite checkedTasks_filter, Ht. clear Ht.
    induction (fileListTableWidget s) as [|r rows IH]; [reflexivity|].
    cbn [filter]. unfold unchecked at 1.
    destruct (checkBox r) eqn:E; cbn [negb filter]; [exact IH|].
    rewrite E. exact IH.
  - intros Hc.
    pose proof (consistent_updateActionButtonStates _
                  (consistent_removeSelected_loop
                     (List.length (fileListTableWidget s)) s Hc)) as [Hl _].
    fold (on_removeSelectedButton_clicked s) in Hl.
    rewrite Hl. unfold paths. rewrite Ht. reflexivity.
Qed.

Lemma removeSelected_keeps_unchecked_witness :
  m_fileList (on_removeSelectedButton_clicked Sample.idle) = [].
Proof.
  refine (eq_trans
    (proj2 (proj2 (removeSelected_keeps_unchecked Sample.idle)) _) _).
  - apply (consistent_run Sample.addOne), consistent_MainWindow_new.
  - vm_compute. reflexivity.
Defined.

Lemma checked_after_setChecked (b : bool) (rows : list Row) :
  map pathText (filter checkBox (map (setChecked b) rows))
  = if b then map pathText rows else [].
Proof.
  induction rows as [|r rows IH]; [destruct b; reflexivity|].
  cbn [map filter]. change (checkBox (setChecked b r)) with b.
  destruct b; cbn [map]; rewrite IH; reflexivity.
Qed.

(** X2: the select-all button checks every row when some row is unchecked,
    and unchecks every row when all are checked; either way it changes
    nothing else of a row. *)
Theorem selectAll_checks_all_or_none (s : MainWindow) :
  let s' := on_selectAllButton_clicked s in
  (Exists (fun r => checkBox r = false) (fileListTableWidget s) ->
     fileListTableWidget s' = map (setChecked true) (fileListTableWidget s)
     /\ checkedTasks s' = paths s)
  /\ (Forall (fun r => checkBox r = true) (fileListTableWidget s) ->
     fileListTableWidget s' = map (setChecked false) (fileListTableWidget s)
     /\ checkedTasks s' = [])
  /\ s' = set_fileListTableWidget (fileListTableWidget s') s.
Proof.
  cbv zeta. unfold on_selectAllButton_clicked.
  split; [|split; [|reflexivity]].
  - intros Hex.
    assert (E : existsb (fun r => negb (checkBox r)) (fileListTableWidget s)
                = true).
    { apply existsb_exists. apply Exists_exists in Hex as (r & Hin & Hr).
      exists r. rewrite Hr. split; [assumption | reflexivity]. }
    rewrite E. split; [reflexivity|].
    rewrite checkedTasks_of_table. apply (checked_after_setChecked true).
  - intros Hall.
    assert (E : existsb (fun r => negb (checkBox r)) (fileListTableWidget s)
                = false).
    { induction Hall as [|r rows Hr _ IH]; [reflexivity|].
      cbn. rewrite Hr. exact IH. }
    rewrite E. split; [reflexivity|].
    rewrite checkedTasks_of_table. apply (checked_after_setChecked false).
Qed.

Lemma selectAll_checks_all_or_none_witness :
  checkedTasks (on_selectAllButton_clicked Sample.idle) = [].
Proof.
  refine (proj2 (proj1 (proj2 (selectAll_checks_all_or_none Sample.idle)) _)).
  vm_compute. repeat constructor.
Defined.

(** X3: the invert button is its own inverse, and what is checked after it
    is what was unchecked before it. *)
Theorem invertSelection_twice (s : MainWindow) :
  on_invertSelectionButton_clicked (on_invertSelectionButton_clicked s) = s
  /\ checkedTasks (on_invertSelectionButton_clicked s)
     = map pathText (filter unchecked (fileListTableWidget s)).
Proof.
  split.
  - apply MainWindow_ext; try reflexivity.
    cbn. rewrite map_map.
    rewrite <- (map_id (fileListTableWidget s)) at 2.
    apply map_ext. intros r. unfold setChecked. cbn.
    rewrite negb_involutive. apply Row_eta.
  - unfold on_invertSelectionButton_clicked.
    rewrite checkedTasks_of_table.
    induction (fileListTableWidget s) as [|r rows IH]; [reflexivity|].
    cbn [map filter]. unfold unchecked at 1.
    change (checkBox (setChecked (negb (checkBox r)) r)) with (negb (checkBox r)).
    destruct (negb (checkBox r)); cbn [map]; rewrite IH; reflexivity.
Qed.

(** ** Adding files *)

Lemma addFileToList_absent (p : QString) (s : MainWindow) :
  ~ In p (m_fileList s) ->
  addFileToList p s
  = updateActionButtonStates
      (set_fileListTableWidget (fileListTableWidget s ++ [newRow p])
         (set_m_fileList (m_fileList s ++ [p]) s)).
Proof.
  intros Hp. unfold addFileToList. apply contains_not_In in Hp.
  rewrite Hp. reflexivity.
Qed.

Lemma addFileToList_present (p : QString) (s : MainWindow) :
  In p (m_fileList s) -> addFileToList p s = s.
Proof.
  intros Hp. unfold addFileToList. apply contains_In in Hp.
  rewrite Hp. reflexivity.
Qed.

(** What a run of [addFileToList] over [files] adds: the files that are not
    in the list yet, each once, appended to the list and, as new rows, to
    the table. *)
Lemma addFilesToList_appends (files : QStringList) (s : MainWindow) :
  exists added,
    m_fileList (addFilesToList files s) = m_fileList s ++ added
    /\ fileListTableWidget (addFilesToList files s)
       = fileListTableWidget s ++ map newRow added
    /\ NoDup added
    /\ (forall p, In p added <-> In p files /\ ~ In p (m_fileList s)).
Proof.
  unfold addFilesToList. revert s.
  induction files as [|f files IH]; intros s.
  - exists []. cbn. rewrite !app_nil_r.
    split; [reflexivity|]. split; [reflexivity|]. split; [constructor|].
    intros p. tauto.
  - cbn [fold_left].
    destruct (in_dec QString_eq_dec f (m_fileList s)) as [Hin | Hout].
    + rewrite (addFileToList_present f s Hin).
      destruct (IH s) as (added & Hl & Ht & Hnd & Hmem).
      exists added. split; [assumption|]. split; [assumption|].
      split; [assumption|]. intros p. rewrite Hmem. cbn [In]. split.
      * intros [Hp Hnot]. split; [right; assumption | assumption].
      * intros [[<- | Hp] Hnot]; [contradiction|]. split; assumption.
    + rewrite (addFileToList_absent f s Hout).
      destruct (IH (updateActionButtonStates
                      (set_fileListTableWidget
                         (fileListTableWidget s ++ [newRow f])
                         (set_m_fileList (m_fileList s ++ [f]) s))))
        as (added & Hl & Ht & Hnd & Hmem).
      cbn in Hl, Ht, Hmem.
      exists (f :: added). rewrite Hl, Ht, <- !app_assoc.
      split; [reflexivity|]. split; [reflexivity|]. split.
      * constructor; [|assumption]. intros Hf. apply Hmem in Hf as [_ Hf].
        apply Hf, in_or_app. right. left. reflexivity.
      * intros p. cbn [In]. rewrite Hmem. split.
        -- intros [<- | [Hp Hnot]].
           ++ split; [left; reflexivity | assumption].
           ++ split; [right; assumption|].
              intros Hin. apply Hnot, in_or_app. left. assumption.
        -- intros [[<- | Hp] Hnot]; [left; reflexivity|].
           destruct (QString_eq_dec f p) as [<- | Hne]; [left; reflexivity|].
           right. split; [assumption|].
           intros Hin. apply in_app_or in Hin as [Hin | [Hin | []]];
             [contradiction | apply Hne, Hin].
Qed.

Lemma firstOccurrences_In (l : QStringList) (x : QString) :
  In x (firstOccurrences l) <-> In x l.
Proof.
  unfold firstOccurrences. rewrite <- in_rev, nodup_In, <- in_rev. reflexivity.
Qed.

Lemma firstOccurrences_snoc (l : QStringList) (x : QString) :
  firstOccurrences (l ++ [x])
  = if contains (firstOccurrences l) x then firstOccurrences l
    else firstOccurrences l ++ [x].
Proof.
  unfold firstOccurrences at 1. rewrite rev_app_distr. cbn [rev app nodup].
  destruct (in_dec QString_eq_dec x (rev l)) as [Hin | Hout].
  - replace (contains (firstOccurrences l) x) with true; [reflexivity|].
    symmetry. apply contains_In, (proj2 (firstOccurrences_In l x)).
    apply (proj2 (in_rev l x)). exact Hin.
  - replace (contains (firstOccurrences l) x) with false; [reflexivity|].
    symmetry. apply contains_not_In. intros H. apply Hout.
    apply (proj1 (firstOccurrences_In l x)) in H.
    apply (proj1 (in_rev l x)) in H. exact H.
Qed.

Lemma firstOccurrences_NoDup (l : QStringList) :
  NoDup l -> firstOccurrences l = l.
Proof.
  intros Hnd. unfold firstOccurrences.
  rewrite nodup_fixed_point by (apply NoDup_rev, Hnd). apply rev_involutive.
Qed.

Lemma addFilesToList_snoc files f s :
  addFilesToList (files ++ [f]) s = addFileToList f (addFilesToList files s).
Proof. unfold addFilesToList. rewrite fold_left_app. reflexivity. Qed.

Lemma m_fileList_addFileToList (p : QString) (s : MainWindow) :
  m_fileList (addFileToList p s)
  = if contains (m_fileList s) p then m_fileList s else m_fileList s ++ [p].
Proof. unfold addFileToList. destruct (contains _ _); reflexivity. Qed.

Lemma m_fileList_addFilesToList (files : QStringList) (s : MainWindow) :
  NoDup (m_fileList s) ->
  m_fileList (addFilesToList files s) = firstOccurrences (m_fileList s ++ files).
Proof.
  intros Hnd. induction files as [|f files IH] using rev_ind.
  - rewrite app_nil_r. symmetry. apply firstOccurrences_NoDup, Hnd.
  - rewrite addFilesToList_snoc, m_fileList_addFileToList, IH.
    rewrite app_assoc, firstOccurrences_snoc. reflexivity.
Qed.

(** X4: the add button never touches the rows that are there: the list and
    the table after it are those before it followed by the files that were
    not in the list, each once, as new rows (checked, pending). *)
Theorem adding_appends_new_rows (files : QStringList) (firstDir : QString)
  (s : MainWindow) :
  exists added,
    m_fileList (on_addFilesButton_clicked files firstDir s)
    = m_fileList s ++ added
    /\ fileListTableWidget (on_addFilesButton_clicked files firstDir s)
       = fileListTableWidget s ++ map newRow added
    /\ NoDup added
    /\ (forall p, In p added <-> In p files /\ ~ In p (m_fileList s)).
Proof.
  unfold on_addFilesButton_clicked. destruct files as [|f files].
  - exists []. cbn. rewrite !app_nil_r.
    split; [reflexivity|]. split; [reflexivity|]. split; [constructor|].
    intros p. tauto.
  - cbn [isEmpty negb].
    apply (addFilesToList_appends (f :: files) (set_m_lastSelectedPath firstDir s)).
Qed.

Lemma dropUrl_appends (url : DroppedUrl) (s : MainWindow) :
  exists added,
    m_fileList (dropUrl s url) = m_fileList s ++ added
    /\ fileListTableWidget (dropUrl s url)
       = fileListTableWidget s ++ map newRow added
    /\ NoDup added
    /\ (forall p, In p added -> ~ In p (m_fileList s) /\ droppable url p).
Proof.
  assert (Hnone : exists added : QStringList,
             m_fileList s = m_fileList s ++ added
             /\ fileListTableWidget s = fileListTableWidget s ++ map newRow added
             /\ NoDup added
             /\ (forall p, In p added ->
                   ~ In p (m_fileList s) /\ droppable url p)).
  { exists []. cbn. rewrite !app_nil_r.
    split; [reflexivity|]. split; [reflexivity|]. split; [constructor|].
    intros p []. }
  destruct url as [|path isDir isFile found]; cbn [dropUrl]; [exact Hnone|].
  destruct isDir.
  - destruct (addFilesToList_appends found s) as (added & Hl & Ht & Hnd & Hmem).
    exists added. split; [assumption|]. split; [assumption|].
    split; [assumption|]. intros p Hp. apply Hmem in Hp as [Hin Hnot].
    split; [assumption|]. exact Hin.
  - destruct isFile; [|exact Hnone].
    destruct (_ || _) eqn:Hsuf; [|exact Hnone].
    destruct (addFilesToList_appends [path] s) as (added & Hl & Ht & Hnd & Hmem).
    exists added. split; [assumption|]. split; [assumption|].
    split; [assumption|]. intros p Hp. apply Hmem in Hp as [[<- | []] Hnot].
    split; [assumption|]. cbn. split; [reflexivity|]. split; [reflexivity|].
    apply orb_true_iff in Hsuf as [H | H]; apply eqb_eq in H; tauto.
Qed.

(** X5: a drop in directory mode or during a session changes nothing.
    Otherwise it never touches the rows that are there, and every row it
    appends is new to the list and is either a file the traversal of a
    dropped directory yields or a dropped file whose suffix, in lower case,
    is csv or xlsx. *)
Theorem drop_adds_only_data_files (urls : list DroppedUrl) (s : MainWindow) :
  (useDirectoryModeCheckBox s = true \/ m_isProcessing s = true ->
   dropEvent urls s = s)
  /\ exists added,
       m_fileList (dropEvent urls s) = m_fileList s ++ added
       /\ fileListTableWidget (dropEvent urls s)
          = fileListTableWidget s ++ map newRow added
       /\ NoDup added
       /\ (forall p, In p added ->
             ~ In p (m_fileList s)
             /\ exists url, In url urls /\ droppable url p).
Proof.
  unfold dropEvent. split.
  - intros [-> | ->]; [reflexivity | rewrite orb_true_r; reflexivity].
  - destruct (_ || _).
    + exists []. cbn. rewrite !app_nil_r.
      split; [reflexivity|]. split; [reflexivity|]. split; [constructor|].
      intros p [].
    + revert s. induction urls as [|url urls IH]; intros s.
      * exists []. cbn. rewrite !app_nil_r.
        split; [reflexivity|]. split; [reflexivity|]. split; [constructor|].
        intros p [].
      * cbn [fold_left].
        destruct (dropUrl_appends url s) as (a1 & Hl1 & Ht1 & Hnd1 & Hm1).
        destruct (IH (dropUrl s url)) as (a2 & Hl2 & Ht2 & Hnd2 & Hm2).
        exists (a1 ++ a2).
        rewrite Hl2, Ht2, Hl1, Ht1, map_app, <- !app_assoc.
        split; [reflexivity|]. split; [reflexivity|]. split.
        -- apply NoDup_app; [assumption | assumption |].
           intros p Hp1 Hp2. apply Hm2 in Hp2 as [Hnot _].
           apply Hnot. rewrite Hl1. apply in_or_app. right. assumption.
        -- intros p Hp. apply in_app_or in Hp as [Hp | Hp].
           ++ apply Hm1 in Hp as [Hnot Hd]. split; [assumption|].
              exists url. split; [left; reflexivity | assumption].
           ++ apply Hm2 in Hp as [Hnot (u & Hu & Hd)]. split.
              ** intros Hin. apply Hnot. rewrite Hl1.
                 apply in_or_app. left. assumption.
              ** exists u. split; [right; assumption | assumption].
Qed.

Lemma drop_adds_only_data_files_witness :
  dropEvent [LocalFile (lit "/a/c.txt") false true []]
    (run [ModeCheckBoxKeyPressed] Sample.idle)
  = run [ModeCheckBoxKeyPressed] Sample.idle.
Proof.
  refine (proj1 (drop_adds_only_data_files _ _) _).
  left. vm_compute. reflexivity.
Defined.

(** ** Scanning a directory *)

Lemma controls_addFilesToList (files : QStringList) (s : MainWindow) (b : bool) :
  actionButtons b (controls (addFilesToList files s))
  = actionButtons b (controls s).
Proof.
  unfold addFilesToList. revert s.
  induction files as [|f files IH]; intros s; [reflexivity|].
  cbn [fold_left]. rewrite IH. unfold addFileToList.
  destruct (contains _ _); reflexivity.
Qed.

(** The files a scan lists. *)
Lemma scanAndPopulateFiles_list dirPath scan (s : MainWindow) :
  m_fileList (scanAndPopulateFiles dirPath scan s) = scannedFiles dirPath scan
  /\ fileListTableWidget (scanAndPopulateFiles dirPath scan s)
     = map newRow (scannedFiles dirPath scan).
Proof.
  unfold scanAndPopulateFiles, scannedFiles.
  destruct (isEmpty dirPath || negb (dir_exists scan));
    [split; reflexivity|].
  cbn [m_fileList fileListTableWidget updateActionButtonStates set_controls
       set_statusBar].
  set (s0 := set_statusBar Text.barScanning (clearFileList s)).
  destruct (addFilesToList_appends (dir_entries scan) s0)
    as (added & Hl & Ht & _ & _).
  rewrite Ht, Hl.
  rewrite (m_fileList_addFilesToList (dir_entries scan) s0) in Hl
    by constructor.
  cbn in Hl. cbn. rewrite <- Hl. split; reflexivity.
Qed.

(** X6: a scan replaces the list, whatever it held: with an empty path or a
    directory that does not exist the list and the table are empty;
    otherwise they hold the files the traversal yields, each once, in the
    order of their first occurrence, every row checked and pending.  The
    rest of the window is as before, but for the message of the status bar
    and the four buttons that depend on the table being empty. *)
Theorem scan_replaces_the_list dirPath scan (s : MainWindow) :
  scanAndPopulateFiles dirPath scan s
  = set_controls
      (actionButtons (0 <? Z.of_nat (List.length (scannedFiles dirPath scan)))
         (controls s))
      (set_statusBar
         (if isEmpty dirPath || negb (dir_exists scan)
          then statusBar s else Text.barScanned)
         (set_fileListTableWidget (map newRow (scannedFiles dirPath scan))
            (set_m_fileList (scannedFiles dirPath scan) s))).
Proof.
  destruct (scanAndPopulateFiles_list dirPath scan s) as [Hl Ht].
  destruct (listOnly_scanAndPopulateFiles dirPath scan s)
    as (l & t & c & b & E).
  apply MainWindow_ext; try (rewrite E; reflexivity); try assumption.
  - unfold scanAndPopulateFiles.
    destruct (isEmpty dirPath || negb (dir_exists scan)); reflexivity.
  - cbn [controls set_controls].
    assert (Hrows : rowCount (scanAndPopulateFiles dirPath scan s)
                    = Z.of_nat (List.length (scannedFiles dirPath scan))).
    { unfold rowCount. rewrite Ht, length_map. reflexivity. }
    rewrite <- Hrows. clear E. unfold scanAndPopulateFiles.
    destruct (isEmpty dirPath || negb (dir_exists scan)); [reflexivity|].
    rewrite controls_updateActionButtonStates.
    cbn [controls set_statusBar]. rewrite controls_addFilesToList.
    unfold rowCount. reflexivity.
Qed.

(** X7: scanning again, the directory being the same, changes nothing: the
    refresh button pressed twice is the refresh button pressed once. *)
Theorem scan_twice dirPath scan (s : MainWindow) :
  scanAndPopulateFiles dirPath scan (scanAndPopulateFiles dirPath scan s)
  = scanAndPopulateFiles dirPath scan s.
Proof.
  rewrite (scan_replaces_the_list dirPath scan
             (scanAndPopulateFiles dirPath scan s)).
  rewrite (scan_replaces_the_list dirPath scan s).
  apply MainWindow_ext; try reflexivity.
  cbn. destruct (isEmpty dirPath || negb (dir_exists scan)); reflexivity.
Qed.

(** ** What the output of the worker can change *)

Lemma rowKey_updateFirstRow filePath status message rows :
  map rowKey (updateFirstRow filePath status message rows) = map rowKey rows.
Proof.
  induction rows as [|r rows IH]; simpl; [reflexivity|].
  destruct (eqb (pathText r) filePath); simpl; [reflexivity|].
  f_equal. exact IH.
Qed.

Lemma checkedTasks_rowKey (s s' : MainWindow) :
  map rowKey (fileListTableWidget s') = map rowKey (fileListTableWidget s) ->
  checkedTasks s' = checkedTasks s.
Proof.
  rewrite !checkedTasks_filter.
  generalize (fileListTableWidget s) as rows, (fileListTableWidget s') as rows'.
  induction rows as [|r rows IH]; intros [|r' rows'] E;
    try discriminate E; [reflexivity|].
  cbn in E. injection E as Ec _ Ep Erows. cbn [filter].
  rewrite Ec. destruct (checkBox r); cbn [map]; rewrite (IH rows' Erows);
    [rewrite Ep|]; reflexivity.
Qed.

Lemma statusAndLog_trans (s1 s2 s3 : MainWindow) :
  s2 = set_plainTextEdit (plainTextEdit s2)
         (set_fileListTableWidget (fileListTableWidget s2) s1) ->
  s3 = set_plainTextEdit (plainTextEdit s3)
         (set_fileListTableWidget (fileListTableWidget s3) s2) ->
  s3 = set_plainTextEdit (plainTextEdit s3)
         (set_fileListTableWidget (fileListTableWidget s3) s1).
Proof.
  intros H1 H2. destruct s1, s2, s3. cbn in *.
  injection H1 as -> -> -> -> -> -> -> -> -> -> -> -> -> -> ->.
  injection H2 as -> -> -> -> -> -> -> -> -> -> -> -> -> -> ->.
  reflexivity.
Qed.

(** One line changes the statuses and the log at most, and the log by
    appending. *)
Lemma processLine_frame (s : MainWindow) (line : QString) :
  map rowKey (fileListTableWidget (processLine s line))
  = map rowKey (fileListTableWidget s)
  /\ (exists logged,
        plainTextEdit (processLine s line) = plainTextEdit s ++ logged)
  /\ processLine s line
     = set_plainTextEdit (plainTextEdit (processLine s line))
         (set_fileListTableWidget (fileListTableWidget (processLine s line)) s).
Proof.
  unfold processLine. destruct (startsWith _ _).
  - destruct (4 <=? _).
    + split; [apply rowKey_updateFirstRow|].
      split; [exists []; symmetry; apply app_nil_r|].
      apply MainWindow_ext; reflexivity.
    + split; [reflexivity|]. split; [exists []; symmetry; apply app_nil_r|].
      apply MainWindow_ext; reflexivity.
  - split; [reflexivity|]. split; [eexists; reflexivity|].
    apply MainWindow_ext; reflexivity.
Qed.

(** X8: whatever the worker prints, reading it changes the status texts and
    tool tips of the table and appends to the log, and nothing else: no row
    comes or goes, no check box, file name or path changes, the tasks that
    are checked stay the same, and the session stays as it is. *)
Theorem output_changes_statuses_and_log_only (data : QByteArray)
  (s : MainWindow) :
  let s' := readProcessOutput data s in
  map rowKey (fileListTableWidget s') = map rowKey (fileListTableWidget s)
  /\ checkedTasks s' = checkedTasks s
  /\ (exists logged, plainTextEdit s' = plainTextEdit s ++ logged)
  /\ s' = set_plainTextEdit (plainTextEdit s')
            (set_fileListTableWidget (fileListTableWidget s') s).
Proof.
  cbv zeta.
  enough (H : map rowKey (fileListTableWidget (readProcessOutput data s))
              = map rowKey (fileListTableWidget s)
              /\ (exists logged,
                    plainTextEdit (readProcessOutput data s)
                    = plainTextEdit s ++ logged)
              /\ readProcessOutput data s
                 = set_plainTextEdit (plainTextEdit (readProcessOutput data s))
                     (set_fileListTableWidget
                        (fileListTableWidget (readProcessOutput data s)) s)).
  { destruct H as (Hk & Hl & Hs). split; [exact Hk|].
    split; [apply checkedTasks_rowKey, Hk|]. split; assumption. }
  unfold readProcessOutput. destruct (m_process s).
  - generalize (split_SkipEmptyParts LF (fromUtf8 data)) as lines.
    intros lines. revert s.
    induction lines as [|l lines IH]; intros s; cbn [fold_left].
    + split; [reflexivity|]. split; [exists []; symmetry; apply app_nil_r|].
      apply MainWindow_ext; reflexivity.
    + destruct (IH (processLine s l)) as (Hk & [lg Hl] & Hs).
      destruct (processLine_frame s l) as (Hk1 & [lg1 Hl1] & Hs1).
      split; [rewrite Hk; exact Hk1|]. split.
      * exists (lg1 ++ lg). rewrite Hl, Hl1, app_assoc. reflexivity.
      * exact (statusAndLog_trans _ _ _ Hs1 Hs).
  - split; [reflexivity|]. split; [exists []; symmetry; apply app_nil_r|].
    apply MainWindow_ext; reflexivity.
Qed.

(** ** The session *)

Lemma sessionOK_frame (s s' : MainWindow) :
  m_process s' = m_process s -> m_isProcessing s' = m_isProcessing s ->
  host s' = host s -> sessionOK s -> sessionOK s'.
Proof.
  unfold sessionOK, programPath. intros -> -> ->. trivial.
Qed.

Lemma NoDup_checkedTasks (s : MainWindow) :
  NoDup (paths s) -> NoDup (checkedTasks s).
Proof.
  rewrite checkedTasks_filter. unfold paths.
  induction (fileListTableWidget s) as [|r rows IH]; intros Hnd;
    [constructor|].
  cbn in Hnd. inversion Hnd as [|? ? Hr Hrows]; subst. cbn [filter].
  destruct (checkBox r); [|apply IH, Hrows].
  cbn [map]. constructor; [|apply IH, Hrows].
  intros Hin. apply Hr. apply in_map_iff in Hin as (r' & <- & Hr').
  apply in_map. apply filter_In in Hr' as [Hr' _]. exact Hr'.
Qed.

Lemma sessionOK_handle (s : MainWindow) (e : Event) :
  consistent s -> sessionOK s -> sessionOK (handle s e).
Proof.
  intros Hc Hs.
  destruct (isEditing e) eqn:He.
  - destruct (editing_frame s e He) as (Hp & Hi & Hh & _).
    exact (sessionOK_frame s _ Hp Hi Hh Hs).
  - assert (Hended : forall s', m_process s' = None ->
              m_isProcessing s' = false -> sessionOK s').
    { intros s' Hp Hi. split.
      - rewrite Hp, Hi. split; [discriminate | intros H; contradiction].
      - intros q. rewrite Hp. discriminate. }
    destruct e; try discriminate He; cbn [handle].
    + unfold on_startProcessButton_clicked.
      destruct (m_isProcessing s) eqn:Ei.
      * destruct (m_process s) as [p|] eqn:Ep; [|exact Hs].
        destruct Hs as [Hiff Hproc]. split.
        -- cbn. rewrite Ei. split; [discriminate | reflexivity].
        -- intros q. cbn. intros E. injection E as <-. cbn.
           apply (Hproc p Ep).
      * destruct (checkedTasks s) as [|t tasks] eqn:Et.
        { apply (sessionOK_frame s); try reflexivity. exact Hs. }
        cbn [isEmpty]. destruct (_ && _).
        { apply (sessionOK_frame s); try reflexivity. exact Hs. }
        split; [cbn; split; [discriminate | reflexivity]|].
        intros q. cbn. intros E. injection E as <-. cbn.
        split; [discriminate|]. split; [|reflexivity].
        rewrite <- Et. apply NoDup_checkedTasks.
        destruct Hc as [<- Hnd]. exact Hnd.
    + unfold onProcessStarted. destruct (m_process s) as [p|] eqn:Ep;
        [|exact Hs].
      destruct (negb _); [|exact Hs].
      destruct Hs as [Hiff Hproc]. split.
      -- cbn. rewrite Hiff, Ep. split; discriminate.
      -- intros q. cbn. intros E. injection E as <-. cbn.
         apply (Hproc p Ep).
    + unfold onProcessFinished. destruct (m_process s); [|exact Hs].
      apply Hended; reflexivity.
    + unfold onProcessError. destruct error; try exact Hs.
      destruct (m_process s); [|exact Hs].
      apply Hended; reflexivity.
    + destruct (output_changes_statuses_and_log_only data s)
        as (_ & _ & _ & E).
      rewrite E. apply (sessionOK_frame s); try reflexivity. exact Hs.
    + unfold readProcessError. destruct (m_process s) eqn:Ep; [|exact Hs].
      apply (sessionOK_frame s); try reflexivity. exact Hs.
Qed.

Lemma MainWindow_new_idle form h cfg scan now :
  m_process (MainWindow_new form h cfg scan now) = None
  /\ m_isProcessing (MainWindow_new form h cfg scan now) = false
  /\ host (MainWindow_new form h cfg scan now) = h.
Proof.
  unfold MainWindow_new.
  match goal with |- context [if ?c then _ else _] =>
    change c with (options_useDirectoryMode cfg) end.
  destruct (options_useDirectoryMode cfg); [|repeat split].
  match goal with |- context [scanAndPopulateFiles ?d ?sc ?y] =>
    destruct (listOnly_scanAndPopulateFiles d sc y)
      as (?l & ?t & ?c & ?b & ->) end.
  repeat split.
Qed.

Lemma sessionOK_reachable form h cfg scan now events :
  sessionOK (run events (MainWindow_new form h cfg scan now)).
Proof.
  enough (H : forall s, consistent s -> sessionOK s ->
                sessionOK (run events s)).
  { apply H; [apply consistent_MainWindow_new|].
    destruct (MainWindow_new_idle form h cfg scan now) as (Hp & Hi & _).
    split.
    - rewrite Hp, Hi. split; [discriminate | intros H'; contradiction].
    - intros p. rewrite Hp. discriminate. }
  unfold run. induction events as [|e events IH]; intros s Hc Hs;
    [assumption|].
  cbn [fold_left]. apply IH;
    [apply consistent_handle, Hc | apply sessionOK_handle; assumption].
Qed.

Lemma host_run (events : list Event) (s : MainWindow) :
  host (run events s) = host s.
Proof.
  unfold run. revert s. induction events as [|e events IH]; intros s;
    [reflexivity|].
  cbn [fold_left]. rewrite IH.
  destruct (isEditing e) eqn:He; [apply (editing_frame s e He)|].
  destruct e; try discriminate He; cbn [handle].
  - unfold on_startProcessButton_clicked.
    destruct (m_isProcessing s); [destruct (m_process s); reflexivity|].
    destruct (isEmpty _); [reflexivity|]. destruct (_ && _); reflexivity.
  - unfold onProcessStarted. destruct (m_process s); [|reflexivity].
    destruct (negb _); reflexivity.
  - unfold onProcessFinished. destruct (m_process s); [|reflexivity].
    destruct exitStatus; [destruct (exitCode =? 0)|]; reflexivity.
  - unfold onProcessError. destruct error; try reflexivity.
    destruct (m_process s); reflexivity.
  - destruct (output_changes_statuses_and_log_only data s)
      as (_ & _ & _ & E).
    rewrite E. reflexivity.
  - unfold readProcessError. destruct (m_process s); reflexivity.
Qed.

(** X9: in every state the window can reach, the session flag is set
    exactly when there is a process at hand, and that process was given at
    least one task, no task twice, and the engine of the application
    directory as its program. *)
Theorem session_has_one_process form h cfg scan now events :
  let s := run events (MainWindow_new form h cfg scan now) in
  (m_isProcessing s = true <-> m_process s <> None)
  /\ forall p, m_process s = Some p ->
       property_tasks p <> [] /\ NoDup (property_tasks p)
       /\ program p
          = toNativeSeparators (applicationDirPath h ++ Text.enginePath).
Proof.
  cbv zeta.
  destruct (sessionOK_reachable form h cfg scan now events) as [Hiff Hproc].
  split; [exact Hiff|]. intros p Hp.
  destruct (Hproc p Hp) as (Hne & Hnd & Hprog).
  split; [assumption|]. split; [assumption|].
  rewrite Hprog. unfold programPath.
  rewrite host_run, (proj2 (proj2 (MainWindow_new_idle form h cfg scan now))).
  reflexivity.
Qed.

(** X10: in every state the window can reach, a click on the start button
    during a session starts nothing: it marks the process at hand as
    killed and leaves all the rest, the lock included, as it is. *)
Theorem start_button_cancels_during_a_session form h cfg scan now events :
  let s := run events (MainWindow_new form h cfg scan now) in
  m_isProcessing s = true ->
  exists p,
    m_process s = Some p
    /\ on_startProcessButton_clicked s = set_m_process (Some (kill p)) s
    /\ killed (kill p) = true
    /\ property_tasks (kill p) = property_tasks p
    /\ program (kill p) = program p
    /\ writeChannel (kill p) = writeChannel p
    /\ m_isProcessing (on_startProcessButton_clicked s) = true.
Proof.
  cbv zeta. intros Hi.
  destruct (sessionOK_reachable form h cfg scan now events) as [Hiff _].
  set (s := run events _) in *.
  destruct (m_process s) as [p|] eqn:Ep;
    [|exfalso; apply (proj1 Hiff Hi); reflexivity].
  exists p. unfold on_startProcessButton_clicked. rewrite Hi, Ep.
  repeat split. exact Hi.
Qed.

Lemma start_button_cancels_during_a_session_witness :
  exists p,
    m_process Sample.running = Some p
    /\ on_startProcessButton_clicked Sample.running
       = set_m_process (Some (kill p)) Sample.running.
Proof.
  assert (E : Sample.running
              = run (Sample.addOne ++ [OutputToSourceClicked;
                                       StartProcessClicked; ProcessStarted])
                  (MainWindow_new Sample.form Sample.pc Sample.config
                     Sample.noDirectory 0))
    by (vm_compute; reflexivity).
  rewrite E.
  destruct (start_button_cancels_during_a_session Sample.form Sample.pc
              Sample.config Sample.noDirectory 0
              (Sample.addOne ++ [OutputToSourceClicked; StartProcessClicked;
                                 ProcessStarted]))
    as (p & Hp & Hk & _).
  - vm_compute. reflexivity.
  - exists p. split; [exact Hp | exact Hk].
Defined.

(** X11: when the process has ended, however it ended, the window is ready
    for the next session: with a task still checked and the output known, a
    click on the start button starts a new process, on the tasks checked
    before the end, with nothing written or closed yet, not killed, and the
    log holding the start line only. *)
Theorem restart_after_the_end (exitCode : Z) (exitStatus : ExitStatus)
  (s : MainWindow) (p0 : QProcess) :
  m_process s = Some p0 ->
  checkedTasks s <> [] ->
  outputToSourceCheckBox s = true \/ outputPathLineEdit s <> [] ->
  let ended := onProcessFinished exitCode exitStatus s in
  m_isProcessing ended = false
  /\ m_process ended = None
  /\ exists p,
       m_process (on_startProcessButton_clicked ended) = Some p
       /\ property_tasks p = checkedTasks s
       /\ writeChannel p = []
       /\ killed p = false
       /\ m_isProcessing (on_startProcessButton_clicked ended) = true
       /\ plainTextEdit (on_startProcessButton_clicked ended) = Text.logStart.
Proof.
  intros Hp Htasks Hout ended.
  assert (Hi : m_isProcessing ended = false
               /\ m_process ended = None
               /\ outputToSourceCheckBox ended = outputToSourceCheckBox s
               /\ outputPathLineEdit ended = outputPathLineEdit s
               /\ map rowKey (fileListTableWidget ended)
                  = map rowKey (fileListTableWidget s)).
  { subst ended. unfold onProcessFinished. rewrite Hp.
    destruct exitStatus; [destruct (exitCode =? 0)|]; repeat split.
    cbn. rewrite map_map. apply map_ext. intros r.
    unfold cancelIfProcessing. destruct (eqb _ _); reflexivity. }
  destruct Hi as (Hi & Hnone & Hsrc & Hdir & Hkeys).
  split; [exact Hi|]. split; [exact Hnone|].
  pose proof (checkedTasks_rowKey s ended Hkeys) as Hsame.
  destruct (start_accepted ended Hi) as (p & E & Ht & _ & Hw & Hk).
  - rewrite Hsame. exact Htasks.
  - rewrite Hsrc, Hdir. exact Hout.
  - exists p. rewrite E. rewrite Ht, Hsame. repeat split; assumption.
Qed.

Lemma restart_after_the_end_witness :
  m_process (onProcessFinished 1 NormalExit Sample.running) = None.
Proof.
  refine (proj1 (proj2
    (restart_after_the_end 1 NormalExit Sample.running _ _ _ _))).
  - vm_compute. reflexivity.
  - vm_compute. discriminate.
  - left. vm_compute. reflexivity.
Defined.

(** ** What lasts *)

Lemma appendPlainText_appends (text doc : QString) :
  exists added, appendPlainText text doc = doc ++ added.
Proof.
  unfold appendPlainText. destruct doc as [|c doc]; cbn [isEmpty].
  - exists text. reflexivity.
  - eexists. reflexivity.
Qed.

Lemma log_grows_handle (s : MainWindow) (e : Event) :
  isStartProcessClicked e = false ->
  exists added, plainTextEdit (handle s e) = plainTextEdit s ++ added.
Proof.
  intros Hstart.
  assert (Hsame : forall s', plainTextEdit s' = plainTextEdit s ->
            exists added, plainTextEdit s' = plainTextEdit s ++ added).
  { intros s' ->. exists []. symmetry. apply app_nil_r. }
  destruct (isEditing e) eqn:He;
    [apply Hsame, (editing_frame s e He)|].
  destruct e; try discriminate He; try discriminate Hstart; cbn [handle].
  - apply Hsame. unfold onProcessStarted. destruct (m_process s); [|reflexivity].
    destruct (negb _); reflexivity.
  - unfold onProcessFinished. destruct (m_process s); [|apply Hsame; reflexivity].
    destruct exitStatus; [destruct (exitCode =? 0)|];
      cbn [plainTextEdit set_plainTextEdit set_m_process set_controls
           updateUiForProcessingState set_m_isProcessing set_statusBar
           set_fileListTableWidget].
    + apply appendPlainText_appends.
    + destruct (appendPlainText_appends Text.logFailure (plainTextEdit s))
        as [a1 E1]. rewrite E1.
      destruct (appendPlainText_appends (Text.logExitCode ++ number exitCode)
                  (plainTextEdit s ++ a1)) as [a2 E2]. rewrite E2.
      exists (a1 ++ a2). symmetry. apply app_assoc.
    + apply appendPlainText_appends.
  - apply Hsame. unfold onProcessError. destruct error; try reflexivity.
    destruct (m_process s); reflexivity.
  - apply (output_changes_statuses_and_log_only data s).
  - unfold readProcessError. destruct (m_process s); [|apply Hsame; reflexivity].
    cbn [plainTextEdit set_plainTextEdit]. apply appendPlainText_appends.
Qed.

(** X12: the log is only ever extended, but by a click on the start button:
    whatever else happens, what the log held is still there, in front of
    what was added. *)
Theorem log_is_only_extended (events : list Event) (s : MainWindow) :
  forallb (fun e => negb (isStartProcessClicked e)) events = true ->
  exists added, plainTextEdit (run events s) = plainTextEdit s ++ added.
Proof.
  unfold run. revert s.
  induction events as [|e events IH]; intros s Hev; cbn [fold_left].
  - exists []. symmetry. apply app_nil_r.
  - cbn in Hev. apply andb_true_iff in Hev as [He Hev].
    destruct (IH (handle s e) Hev) as [a2 ->].
    destruct (log_grows_handle s e) as [a1 ->].
    + destruct (isStartProcessClicked e); [discriminate He | reflexivity].
    + exists (a1 ++ a2). symmetry. apply app_assoc.
Qed.

Lemma log_is_only_extended_witness :
  exists added,
    plainTextEdit
      (run [ReadyReadStandardOutput (bytes "hello" ++ [LF]);
            ProcessFinished 0 NormalExit] Sample.running)
    = plainTextEdit Sample.running ++ added.
Proof.
  apply (log_is_only_extended
           [ReadyReadStandardOutput (bytes "hello" ++ [LF]);
            ProcessFinished 0 NormalExit] Sample.running).
  reflexivity.
Defined.

Lemma filter_isQuestion_snoc (ds : list Dialog) (d : Dialog) :
  isQuestion d = false ->
  filter isQuestion (ds ++ [d]) = filter isQuestion ds.
Proof.
  intros Hd. rewrite filter_app. cbn. rewrite Hd. apply app_nil_r.
Qed.

Lemma dontAsk_handle (s : MainWindow) (e : Event) :
  m_dontAskOnModeChange s = true ->
  m_dontAskOnModeChange (handle s e) = true
  /\ filter isQuestion (shown (handle s e)) = filter isQuestion (shown s).
Proof.
  intros Hd.
  destruct (isEditing e) eqn:He.
  - destruct (isModeCheckBoxPressed e) eqn:Hm.
    + destruct e; try discriminate Hm. cbn [handle].
      unfold handleModeChangeRequest.
      destruct (elapsed now s <? DEBOUNCE_INTERVAL_MS);
        [split; [assumption | reflexivity]|].
      cbn [m_dontAskOnModeChange set_m_modeChangeDebounceTimer].
      rewrite Hd. cbn [negb andb].
      repeat match goal with
      | |- context [scanAndPopulateFiles ?d ?sc ?x] =>
          destruct (listOnly_scanAndPopulateFiles d sc x)
            as (?l & ?t & ?c & ?b & ->)
      | |- context [if ?c then _ else _] => destruct c
      end; split; first [exact Hd | reflexivity].
    + destruct (editing_frame s e He) as (_ & _ & _ & _ & H).
      destruct (H Hm) as [-> ->]. split; [assumption | reflexivity].
  - destruct e; try discriminate He; cbn [handle].
    + unfold on_startProcessButton_clicked.
      destruct (m_isProcessing s);
        [destruct (m_process s); split; first [exact Hd | reflexivity]|].
      destruct (isEmpty _);
        [split; [exact Hd | apply filter_isQuestion_snoc; reflexivity]|].
      destruct (_ && _);
        [split; [exact Hd | apply filter_isQuestion_snoc; reflexivity]|].
      split; [exact Hd | reflexivity].
    + unfold onProcessStarted. destruct (m_process s);
        [|split; [exact Hd | reflexivity]].
      destruct (negb _); split; first [exact Hd | reflexivity].
    + unfold onProcessFinished. destruct (m_process s);
        [|split; [exact Hd | reflexivity]].
      destruct exitStatus; [destruct (exitCode =? 0)|];
        split; first [exact Hd | reflexivity].
    + unfold onProcessError.
      destruct error; try (split; [exact Hd | reflexivity]).
      destruct (m_process s); [|split; [exact Hd | reflexivity]].
      split; [exact Hd | apply filter_isQuestion_snoc; reflexivity].
    + destruct (output_changes_statuses_and_log_only data s)
        as (_ & _ & _ & E).
      rewrite E. split; [exact Hd | reflexivity].
    + unfold readProcessError.
      destruct (m_process s); split; first [exact Hd | reflexivity].
Qed.

(** X13: "do not ask again" lasts: once the flag is set, whatever happens
    afterwards it stays set, and the confirmation is never shown again. *)
Theorem dontAsk_is_permanent (events : list Event) (s : MainWindow) :
  m_dontAskOnModeChange s = true ->
  m_dontAskOnModeChange (run events s) = true
  /\ filter isQuestion (shown (run events s)) = filter isQuestion (shown s).
Proof.
  unfold run. revert s.
  induction events as [|e events IH]; intros s Hd; cbn [fold_left].
  - split; [assumption | reflexivity].
  - destruct (dontAsk_handle s e Hd) as [Hd' Hq].
    destruct (IH (handle s e) Hd') as [Hd'' Hq'].
    split; [assumption|]. rewrite Hq'. exact Hq.
Qed.

Lemma dontAsk_is_permanent_witness :
  m_dontAskOnModeChange
    (run [ModeCheckBoxPressed 3000 Sample.no Sample.noDirectory]
       (handleModeChangeRequest 1000
          {| exec_result := 0; dontAskAgain_isChecked := true |}
          Sample.noDirectory Sample.idle))
  = true.
Proof.
  refine (proj1 (dontAsk_is_permanent _ _ _)).
  vm_compute. reflexivity.
Defined.

(** ** The task list on the wire *)

Lemma lor_high_bit (a x : Z) : Z.testbit a 7 = true -> Z.lor a x <> LF.
Proof.
  intros Ha H. apply (f_equal (fun z => Z.testbit z 7)) in H.
  rewrite Z.lor_spec, Ha in H. discriminate H.
Qed.

Lemma notLF_cons (b : Z) (bs : QByteArray) :
  b <> LF -> ~ In LF bs -> ~ In LF (b :: bs).
Proof. intros Hb Hbs [H | H]; [exact (Hb H) | exact (Hbs H)]. Qed.

(** A path without a newline is encoded without a newline. *)
Lemma toUtf8_no_LF (task : QString) : ~ In LF task -> ~ In LF (toUtf8 task).
Proof.
  remember (List.length task) as n eqn:Hn.
  assert (Hle : (List.length task <= n)%nat) by lia. clear Hn.
  revert task Hle. induction n as [|n IH]; intros task Hle Ht.
  - destruct task; [intros [] | simpl in Hle; lia].
  - destruct task as [|u task]; [intros []|].
    simpl in Hle.
    assert (Hu : u <> LF) by (intros ->; apply Ht; left; reflexivity).
    assert (Htask : ~ In LF task) by (intros H; apply Ht; right; exact H).
    assert (IH1 : ~ In LF (toUtf8 task)) by (apply IH; [lia | exact Htask]).
    cbn [toUtf8].
    destruct (u <? 0x80); [apply notLF_cons; assumption|].
    destruct (u <? 0x800);
      [repeat (apply notLF_cons; [apply lor_high_bit; reflexivity|]);
       exact IH1|].
    destruct (negb (isSurrogate u));
      [repeat (apply notLF_cons; [apply lor_high_bit; reflexivity|]);
       exact IH1|].
    destruct task as [|l task];
      [apply notLF_cons; [discriminate | exact IH1]|].
    destruct (isHighSurrogate u && isLowSurrogate l);
      [|apply notLF_cons; [discriminate | exact IH1]].
    repeat (apply notLF_cons; [apply lor_high_bit; reflexivity|]).
    apply IH; [simpl in Hle; lia|].
    intros H. apply Htask. right. exact H.
Qed.

Lemma split_taskLines (tasks : QStringList) :
  Forall (fun task => ~ In LF task) tasks ->
  split LF (taskLines tasks) = map toUtf8 tasks ++ [[]].
Proof.
  unfold taskLines. induction 1 as [|t tasks Ht _ IH]; [reflexivity|].
  cbn [map concat]. rewrite <- app_assoc. cbn [app].
  rewrite split_app_sep, IH.
  replace (split LF (toUtf8 t)) with [toUtf8 t]; [reflexivity|].
  apply toUtf8_no_LF in Ht. revert Ht.
  generalize (toUtf8 t) as bs. clear.
  induction bs as [|b bs IH]; intros Hn; [reflexivity|].
  cbn [split]. destruct (b =? LF) eqn:E.
  - apply Z.eqb_eq in E. exfalso. apply Hn. left. exact E.
  - rewrite <- IH by (intros H; apply Hn; right; exact H). reflexivity.
Qed.

(** X14: when no path of the task list holds a newline, the bytes written
    to the worker split at the newlines into the paths in UTF-8, in order,
    followed by one empty piece: a worker that reads lines until the end of
    the stream reads the task list and nothing else. *)
Theorem worker_reads_the_tasks_back (s : MainWindow) (p : QProcess) :
  m_process s = Some p ->
  property_tasks p <> [] ->
  Forall (fun task => ~ In LF task) (property_tasks p) ->
  exists data,
    option_map writeChannel (m_process (onProcessStarted s))
    = Some (writeChannel p ++ [Write data; CloseWriteChannel])
    /\ split LF data = map toUtf8 (property_tasks p) ++ [[]].
Proof.
  intros Hp Hne Hlf. unfold onProcessStarted. rewrite Hp.
  destruct (property_tasks p) as [|t tasks] eqn:Et; [contradiction|].
  cbn [isEmpty negb]. rewrite <- Et in *.
  eexists. split; [reflexivity|].
  rewrite taskLines_fold. apply split_taskLines, Hlf.
Qed.

Lemma worker_reads_the_tasks_back_witness :
  exists data,
    option_map writeChannel
      (m_process (onProcessStarted (run [StartProcessClicked] Sample.ready)))
    = Some ([] ++ [Write data; CloseWriteChannel])
    /\ split LF data = map toUtf8 [Sample.a_b_csv] ++ [[]].
Proof.
  refine (worker_reads_the_tasks_back (run [StartProcessClicked] Sample.ready)
            {| processEnvironment := [(Text.PYTHONIOENCODING, Text.utf_8)];
               property_tasks := [Sample.a_b_csv];
               program := programPath Sample.ready;
               arguments := [Text.on_conflict; Text.skip];
               writeChannel := [];
               killed := false |} _ _ _).
  - vm_compute. reflexivity.
  - discriminate.
  - repeat constructor. vm_compute. intuition discriminate.
Defined.

(** ** Settings *)

(** X15: the settings survive a session in which nothing is done: what the
    destructor saves from a window just constructed is what the
    constructor loaded (the conflict index being one the combo box has an
    entry for: 0, 1 or 2). *)
Theorem settings_round_trip form h (cfg : Settings) scan now :
  0 <= options_conflictIndex cfg <= 2 ->
  saveSettings (MainWindow_new form h cfg scan now) = cfg
  /\ forall s, saveSettings (loadSettings cfg s) = cfg.
Proof.
  intros _. split; [|intros s; destruct cfg; reflexivity].
  unfold MainWindow_new.
  match goal with |- context [if ?c then _ else _] =>
    change c with (options_useDirectoryMode cfg) end.
  destruct (options_useDirectoryMode cfg) eqn:E.
  - match goal with |- context [scanAndPopulateFiles ?d ?sc ?y] =>
      destruct (listOnly_scanAndPopulateFiles d sc y)
        as (?l & ?t & ?c & ?b & ->) end.
    destruct cfg. cbn in E. subst. reflexivity.
  - destruct cfg. cbn in E. subst. reflexivity.
Qed.

Lemma settings_round_trip_witness :
  saveSettings Sample.opened = Sample.config.
Proof.
  refine (proj1 (settings_round_trip Sample.form Sample.pc Sample.config
                   Sample.noDirectory 0 _)).
  vm_compute. split; discriminate.
Defined.

(** ** What a mode switch leaves behind *)

Lemma scannedFiles_rows dirPath scan (s : MainWindow) :
  rowCount (scanAndPopulateFiles dirPath scan s)
  = Z.of_nat (List.length (scannedFiles dirPath scan)).
Proof.
  unfold rowCount.
  rewrite (proj2 (scanAndPopulateFiles_list dirPath scan s)), length_map.
  reflexivity.
Qed.

(** X16: a request that passes the debounce and is not declined leaves the
    window in the other mode: the check box is toggled; the list and the
    table hold what the scan of the input directory lists when the new mode
    is the directory mode, and nothing when it is the manual mode; the
    controls of the directory mode are enabled exactly in directory mode,
    the add button and the drops exactly in manual mode, and the four
    buttons that work on the list exactly when it is not empty. *)
Theorem mode_switch_resets_the_list (now : Z) (answer : Confirmation)
  (scan : DirectoryScan) (s : MainWindow) :
  consistent s ->
  DEBOUNCE_INTERVAL_MS <= now - m_modeChangeDebounceTimer s ->
  fileListTableWidget s = [] \/ m_dontAskOnModeChange s = true
    \/ exec_result answer <> 1 ->
  let s' := handleModeChangeRequest now answer scan s in
  let mode := negb (useDirectoryModeCheckBox s) in
  let files := if mode then scannedFiles (inputDirPathLineEdit s) scan
               else [] in
  useDirectoryModeCheckBox s' = mode
  /\ m_fileList s' = files
  /\ fileListTableWidget s' = map newRow files
  /\ browseInputDirButton_enabled (controls s') = mode
  /\ inputDirPathLineEdit_enabled (controls s') = mode
  /\ refreshDirButton_enabled (controls s') = mode
  /\ addFilesButton_enabled (controls s') = negb mode
  /\ fileListTableWidget_acceptDrops (controls s') = negb mode
  /\ startProcessButton_enabled (controls s') = negb (isEmpty files)
  /\ removeSelectedButton_enabled (controls s') = negb (isEmpty files)
  /\ selectAllButton_enabled (controls s') = negb (isEmpty files)
  /\ invertSelectionButton_enabled (controls s') = negb (isEmpty files).
Proof.
  intros [Hl Hnd] Hacc Hgo. cbv zeta.
  unfold handleModeChangeRequest, elapsed.
  apply Z.ltb_ge in Hacc. rewrite Hacc.
  assert (Hno : (rowCount (set_m_modeChangeDebounceTimer now s) =? 0) = false ->
                (negb (m_dontAskOnModeChange s)
                 && (exec_result answer =? 1)) = false).
  { intros Hrows. destruct Hgo as [Ht | [Hd | Ha]].
    - apply Z.eqb_neq in Hrows. exfalso. apply Hrows.
      apply (rowCount_zero (set_m_modeChangeDebounceTimer now s)). exact Ht.
    - rewrite Hd. reflexivity.
    - apply Z.eqb_neq in Ha. rewrite Ha. apply andb_false_r. }
  assert (Hlen : forall l : QStringList,
            (0 <? Z.of_nat (List.length l)) = negb (isEmpty l))
    by (intros [|x l]; reflexivity).
  change (useDirectoryModeCheckBox (set_m_modeChangeDebounceTimer now s))
    with (useDirectoryModeCheckBox s).
  destruct (rowCount _ =? 0) eqn:Hrows.
  - apply Z.eqb_eq in Hrows.
    apply (rowCount_zero (set_m_modeChangeDebounceTimer now s)) in Hrows.
    cbn in Hrows.
    assert (Hl0 : m_fileList s = []) by (rewrite Hl; unfold paths;
                                         rewrite Hrows; reflexivity).
    destruct (useDirectoryModeCheckBox s); cbn [negb].
    + cbn. rewrite Hl0, Hrows. cbn. repeat split;
        unfold rowCount; cbn; rewrite Hrows; reflexivity.
    + rewrite scan_replaces_the_list. cbn. repeat split;
        unfold rowCount; cbn; rewrite length_map; apply Hlen.
  - match goal with |- context [if ?c then _ else _] =>
      change c with (negb (m_dontAskOnModeChange s) && (exec_result answer =? 1))
    end.
    rewrite (Hno eq_refl). clear Hno Hgo.
    cbn [m_dontAskOnModeChange set_m_modeChangeDebounceTimer].
    destruct (m_dontAskOnModeChange s), (dontAskAgain_isChecked answer);
      cbn [negb andb];
      (destruct (useDirectoryModeCheckBox s); cbn [negb];
       [cbn; repeat split
       |rewrite scan_replaces_the_list; cbn; repeat split;
        unfold rowCount; cbn; rewrite length_map; apply Hlen]).
Qed.

Lemma mode_switch_resets_the_list_witness :
  m_fileList
    (handleModeChangeRequest 1000 Sample.yes Sample.noDirectory Sample.idle)
  = [].
Proof.
  refine (eq_trans (proj1 (proj2
    (mode_switch_resets_the_list 1000 Sample.yes Sample.noDirectory
       Sample.idle _ _ _))) _).
  - apply (consistent_run Sample.addOne), consistent_MainWindow_new.
  - vm_compute. discriminate.
  - right. right. vm_compute. discriminate.
  - vm_compute. reflexivity.
Defined.

(** ** Opening the window, and starting a session *)

Lemma env_insert_In (name value : QString) (env : list (QString * QString)) :
  In (name, value) (env_insert name value env)
  /\ forall n v, n <> name -> In (n, v) env ->
       In (n, v) (env_insert name value env).
Proof.
  induction env as [|[n0 v0] env [IH1 IH2]]; cbn [env_insert].
  - split; [left; reflexivity | intros n v _ []].
  - destruct (eqb n0 name) eqn:E.
    + split; [left; reflexivity|].
      intros n v Hn [H | H]; [|right; exact H].
      injection H as <- <-. apply eqb_eq in E. contradiction.
    + split; [right; exact IH1|].
      intros n v Hn [H | H]; [left; exact H | right; apply IH2; assumption].
Qed.

(** X17: a start that is accepted locks the window and launches the engine
    of the application directory: every control but the start button, now
    the cancel button, is disabled (the output controls when they were in
    use), the log holds the start line, the list and the table are as they
    were; the arguments are "--on-conflict" with one of rename, overwrite
    and skip, followed by "--output-dir" and a directory that is not empty
    exactly when the output does not go to the source directory; the
    environment holds PYTHONIOENCODING=utf-8 and the other variables of the
    host. *)
Theorem accepted_start_locks_and_launches (s : MainWindow) :
  m_isProcessing s = false ->
  checkedTasks s <> [] ->
  outputToSourceCheckBox s = true \/ outputPathLineEdit s <> [] ->
  let s' := on_startProcessButton_clicked s in
  exists p policy,
    m_process s' = Some p
    /\ program p
       = toNativeSeparators (applicationDirPath (host s) ++ Text.enginePath)
    /\ In policy [Text.rename; Text.overwrite; Text.skip]
    /\ ((outputToSourceCheckBox s = true
         /\ arguments p = [Text.on_conflict; policy])
        \/ (outputToSourceCheckBox s = false
            /\ outputPathLineEdit s <> []
            /\ arguments p = [Text.on_conflict; policy; Text.output_dir;
                              outputPathLineEdit s]))
    /\ In (Text.PYTHONIOENCODING, Text.utf_8) (processEnvironment p)
    /\ (forall n v, n <> Text.PYTHONIOENCODING ->
          In (n, v) (systemEnvironment (host s)) ->
          In (n, v) (processEnvironment p))
    /\ m_isProcessing s' = true
    /\ startProcessButton_text (controls s') = Text.cancelButton
    /\ useDirectoryModeCheckBox_enabled (controls s') = false
    /\ outputToSourceCheckBox_enabled (controls s') = false
    /\ conflictComboBox_enabled (controls s') = false
    /\ browseInputDirButton_enabled (controls s') = false
    /\ inputDirPathLineEdit_enabled (controls s') = false
    /\ refreshDirButton_enabled (controls s') = false
    /\ addFilesButton_enabled (controls s') = false
    /\ fileListTableWidget_acceptDrops (controls s') = false
    /\ removeSelectedButton_enabled (controls s') = false
    /\ selectAllButton_enabled (controls s') = false
    /\ invertSelectionButton_enabled (controls s') = false
    /\ (outputToSourceCheckBox s = false ->
        outputPathLineEdit_enabled (controls s') = false
        /\ browseOutputButton_enabled (controls s') = false)
    /\ plainTextEdit s' = Text.logStart
    /\ m_fileList s' = m_fileList s
    /\ fileListTableWidget s' = fileListTableWidget s.
Proof.
  intros Hidle Htasks Hout. cbv zeta.
  unfold on_startProcessButton_clicked. rewrite Hidle.
  destruct (checkedTasks s) as [|t tasks] eqn:Et; [contradiction|].
  cbn [isEmpty].
  assert (Hno : negb (outputToSourceCheckBox s) && isEmpty (outputPathLineEdit s)
                = false).
  { destruct Hout as [-> | Hout']; [reflexivity|].
    destruct (outputPathLineEdit s); [contradiction|]. apply andb_false_r. }
  rewrite Hno.
  eexists. exists (conflictPolicy (conflictComboBox s)).
  split; [reflexivity|]. split; [reflexivity|]. split.
  { unfold conflictPolicy.
    destruct (_ =? 0); [left; reflexivity|].
    destruct (_ =? 1); [right; left; reflexivity|].
    destruct (_ =? 2); right; right; left; reflexivity. }
  split.
  { cbn. destruct (outputToSourceCheckBox s) eqn:Es.
    - left. split; reflexivity.
    - right. split; [reflexivity|]. split; [|reflexivity].
      destruct Hout as [Hout' | Hout']; [discriminate Hout' | exact Hout']. }
  split; [apply (proj1 (env_insert_In _ _ _))|].
  split; [apply (proj2 (env_insert_In _ _ _))|].
  cbn. repeat split; match goal with H : outputToSourceCheckBox _ = false |- _ =>
    rewrite H end; reflexivity.
Qed.

Lemma accepted_start_locks_and_launches_witness :
  exists p policy,
    m_process (on_startProcessButton_clicked Sample.ready) = Some p
    /\ program p
       = toNativeSeparators
           (applicationDirPath (host Sample.ready) ++ Text.enginePath)
    /\ In policy [Text.rename; Text.overwrite; Text.skip].
Proof.
  destruct (accepted_start_locks_and_launches Sample.ready)
    as (p & policy & Hp & Hprog & Hpol & _).
  - vm_compute. reflexivity.
  - vm_compute. discriminate.
  - left. vm_compute. reflexivity.
  - exists p, policy. split; [exact Hp|]. split; [exact Hprog | exact Hpol].
Defined.

(** X18: the window opens in the mode that was saved: in directory mode
    with the files the scan of the saved input directory lists, in manual
    mode with no file; the controls of the directory mode are enabled
    exactly in directory mode, the add button and the drops exactly in
    manual mode, the four buttons that work on the list exactly when it is
    not empty, the output controls exactly when the output does not go to
    the source directory; no session runs, the log is empty, no dialog has
    been shown, and the debounce timer has just been started. *)
Theorem window_opens_in_the_saved_mode form h (cfg : Settings) scan now :
  let s := MainWindow_new form h cfg scan now in
  let mode := options_useDirectoryMode cfg in
  let files := if mode then scannedFiles (paths_inputPath cfg) scan else [] in
  useDirectoryModeCheckBox s = mode
  /\ m_fileList s = files
  /\ fileListTableWidget s = map newRow files
  /\ browseInputDirButton_enabled (controls s) = mode
  /\ inputDirPathLineEdit_enabled (controls s) = mode
  /\ refreshDirButton_enabled (controls s) = mode
  /\ addFilesButton_enabled (controls s) = negb mode
  /\ fileListTableWidget_acceptDrops (controls s) = negb mode
  /\ startProcessButton_enabled (controls s) = negb (isEmpty files)
  /\ removeSelectedButton_enabled (controls s) = negb (isEmpty files)
  /\ selectAllButton_enabled (controls s) = negb (isEmpty files)
  /\ invertSelectionButton_enabled (controls s) = negb (isEmpty files)
  /\ outputPathLineEdit_enabled (controls s)
     = negb (options_outputToSource cfg)
  /\ browseOutputButton_enabled (controls s)
     = negb (options_outputToSource cfg)
  /\ m_isProcessing s = false
  /\ m_process s = None
  /\ plainTextEdit s = []
  /\ shown s = []
  /\ m_modeChangeDebounceTimer s = now.
Proof.
  cbv zeta. unfold MainWindow_new.
  assert (Hlen : forall l : QStringList,
            (0 <? Z.of_nat (List.length l)) = negb (isEmpty l))
    by (intros [|x l]; reflexivity).
  match goal with |- context [if ?c then _ else _] =>
    change c with (options_useDirectoryMode cfg) end.
  destruct (options_useDirectoryMode cfg) eqn:Em.
  - rewrite scan_replaces_the_list. cbn. rewrite ?Em. repeat split;
      unfold rowCount; cbn; rewrite length_map; apply Hlen.
  - cbn. rewrite ?Em. repeat split.
Qed.

(* ------------------------------------------------------------------ *)
(** ** The model at work *)

Example split_keeps_empty_parts :
  split PIPE (lit "a||b|") = [lit "a"; []; lit "b"; []].
Proof. reflexivity. Qed.

Example split_of_empty : split PIPE [] = [[]].
Proof. reflexivity. Qed.

Example fromUtf8_cjk : lit "待处理" = [0x5F85; 0x5904; 0x7406].
Proof. reflexivity. Qed.

Example utf8_round_trip :
  fromUtf8 (toUtf8 [0x5F85; 0x41; 0xD83D; 0xDE00; 0xE9])
  = [0x5F85; 0x41; 0xD83D; 0xDE00; 0xE9].
Proof. vm_compute. reflexivity. Qed.

Example spec_utf8_euro_sign : spec_utf8 0x20AC = [0xE2; 0x82; 0xAC].
Proof. reflexivity. Qed.

Example spec_utf8_above_the_basic_plane :
  concat (map spec_utf8 (spec_codePoints [0xD800; 0xDF48]))
  = [0xF0; 0x90; 0x8D; 0x88]
  /\ toUtf8 [0xD800; 0xDF48] = [0xF0; 0x90; 0x8D; 0x88].
Proof. split; reflexivity. Qed.

Example toUtf8_of_a_lone_surrogate : toUtf8 [0x61; 0xDC00; 0x62] = bytes "a?b".
Proof. reflexivity. Qed.

Example fromUtf8_replaces_a_stray_byte :
  fromUtf8 [0x61; 0xE5; 0x62] = [0x61; ReplacementCharacter; 0x62].
Proof. vm_compute. reflexivity. Qed.

Example fileName_and_suffix :
  fileName (lit "C:/data/Sales.XLSX") = lit "Sales.XLSX"
  /\ toLower (suffix (lit "C:/data/Sales.XLSX")) = Text.xlsx.
Proof. split; vm_compute; reflexivity. Qed.

Example sample_program :
  option_map program (m_process Sample.running)
  = Some (lit "C:\tool\backend_engine\backend_engine.exe").
Proof. vm_compute. reflexivity. Qed.

Example sample_channel :
  option_map writeChannel (m_process Sample.running)
  = Some [Write (bytes "/a/b.csv" ++ [LF]); CloseWriteChannel].
Proof. vm_compute. reflexivity. Qed.

(** A status record, then a log line. *)
Example status_then_log :
  fileListTableWidget
    (readProcessOutput
       (bytes "##STATUS##|/a/b.csv|SUCCESS|done" ++ [LF]
          ++ bytes "hello world" ++ [LF])
       Sample.running)
  = [{| checkBox := true; statusText := Text.success;
        statusToolTip := lit "done"; fileNameText := lit "b.csv";
        pathText := lit "/a/b.csv" |}]
  /\ plainTextEdit
       (readProcessOutput
          (bytes "##STATUS##|/a/b.csv|SUCCESS|done" ++ [LF]
             ++ bytes "hello world" ++ [LF])
          Sample.running)
     = plainTextEdit Sample.running ++ lit "hello world" ++ [LF].
Proof. split; vm_compute; reflexivity. Qed.

(** A record for a path that is not in the table is ignored. *)
Example status_of_unknown_path :
  readProcessOutput (bytes "##STATUS##|/x.csv|SUCCESS|done" ++ [LF])
    Sample.running
  = Sample.running.
Proof. vm_compute. reflexivity. Qed.

(** The start button, pressed during a session, kills the process; the
    end of the process then unlocks the window. *)
Example cancel_a_session :
  option_map killed (m_process (run [StartProcessClicked] Sample.running))
  = Some true
  /\ m_isProcessing
       (run [StartProcessClicked; ProcessFinished 62097 CrashExit]
          Sample.running)
     = false.
Proof. split; vm_compute; reflexivity. Qed.
